(** * EduVisBench: the rubric evaluation script [run_evaluation.py]

    A shallow embedding of the script's response parser, its four evaluation
    functions and the batch loop of [main], with the properties of its
    specification stated and proved over that embedding.

    Conventions.
    - A Python [str] is a Rocq [string]; a character stands for the code point
      of the same number, so the texts covered are those over U+0000..U+00FF.
    - Values loaded from JSON are terms of [json]; a float is carried by its
      [repr], and floating-point arithmetic is left to the environment.
    - Everything outside the script (file system, decoder, model endpoint) is a
      field of the record [World].
    - Effects are explicit: a computation returns the events it performed
      (printed lines, requests, sleeps, file writes) and either a value or the
      exception that escaped it. *)

From Stdlib Require Import List String Ascii ZArith Bool Lia Arith.
From Stdlib Require Import Sorting.Sorted Sorting.Permutation DecimalString.
Import ListNotations.

Local Open Scope string_scope.
Local Open Scope list_scope.
Local Open Scope Z_scope.

(* ================================================================== *)
(** ** Python strings *)

Module PyStr.

Definition chars (s : string) : list ascii := list_ascii_of_string s.
Definition of_chars (l : list ascii) : string := string_of_list_ascii l.

(** [len(s)] *)
Definition len (s : string) : Z := Z.of_nat (String.length s).

(** [s.find(c)] for a one-character needle: first index, or -1. *)
Fixpoint find (s : string) (c : ascii) : Z :=
  match s with
  | EmptyString => -1
  | String a s' =>
      if Ascii.eqb a c then 0
      else let r := find s' c in if r =? -1 then -1 else r + 1
  end.

(** [s.rfind(c)] for a one-character needle: last index, or -1. *)
Fixpoint rfind (s : string) (c : ascii) : Z :=
  match s with
  | EmptyString => -1
  | String a s' =>
      let r := rfind s' c in
      if r =? -1 then (if Ascii.eqb a c then 0 else -1) else r + 1
  end.

(** Index normalisation of a slice bound: negative bounds count from the end,
    and every bound is clamped to [0, len]. *)
Definition clamp (n i : Z) : Z :=
  if i <? 0 then Z.max (i + n) 0 else Z.min i n.

Fixpoint skip (n : nat) (s : string) : string :=
  match n, s with
  | O, _ => s
  | S _, EmptyString => EmptyString
  | S n', String _ s' => skip n' s'
  end.

Fixpoint take (n : nat) (s : string) : string :=
  match n, s with
  | O, _ => EmptyString
  | S _, EmptyString => EmptyString
  | S n', String a s' => String a (take n' s')
  end.

(** [s[i:j]] *)
Definition slice (s : string) (i j : Z) : string :=
  let lo := clamp (len s) i in
  let hi := clamp (len s) j in
  take (Z.to_nat (hi - lo)) (skip (Z.to_nat lo) s).

(** [c.lower()] on U+0000..U+00FF: the ASCII capitals and the capitals of the
    Latin-1 supplement (U+00C0..U+00DE without the multiplication sign). *)
Definition lower_char (c : ascii) : ascii :=
  let n := nat_of_ascii c in
  if ((65 <=? n) && (n <=? 90))%nat then ascii_of_nat (n + 32)
  else if ((192 <=? n) && (n <=? 222) && negb (n =? 215))%nat
       then ascii_of_nat (n + 32)
       else c.

(** [s.lower()] *)
Fixpoint lower (s : string) : string :=
  match s with
  | EmptyString => EmptyString
  | String a s' => String (lower_char a) (lower s')
  end.

Fixpoint prefixb (p l : list ascii) : bool :=
  match p, l with
  | [], _ => true
  | _ :: _, [] => false
  | a :: p', b :: l' => Ascii.eqb a b && prefixb p' l'
  end.

(** [s.startswith(p)] *)
Definition startswith (s p : string) : bool := prefixb (chars p) (chars s).

(** [s.endswith(suf)]: the suffix read backwards heads the text read
    backwards. *)
Definition endswith (s suf : string) : bool :=
  prefixb (rev (chars suf)) (rev (chars s)).

(** [s.endswith((suf1, suf2, ...))] *)
Definition endswith_any (s : string) (sufs : list string) : bool :=
  existsb (endswith s) sufs.

(** [c.isspace()] on U+0000..U+00FF. *)
Definition isspace (c : ascii) : bool :=
  let n := nat_of_ascii c in
  (((9 <=? n) && (n <=? 13)) || ((28 <=? n) && (n <=? 32))
   || (n =? 133) || (n =? 160))%nat.

Fixpoint lstrip_chars (l : list ascii) : list ascii :=
  match l with
  | [] => []
  | a :: l' => if isspace a then lstrip_chars l' else l
  end.

(** [s.strip()] *)
Definition strip (s : string) : string :=
  of_chars (rev (lstrip_chars (rev (lstrip_chars (chars s))))).

(** Truth value of a [str]. *)
Definition truthy (s : string) : bool :=
  match s with EmptyString => false | _ => true end.

(** [a < b] on [str]: code point order, a proper prefix first. *)
Definition leb (a b : string) : bool := String.leb a b.

End PyStr.

(* ================================================================== *)
(** ** JSON values as Python objects *)

#[warnings="-register-all"]
Inductive json : Type :=
| JNull
| JBool (b : bool)
| JInt (z : Z)
| JFloat (repr : string)
| JString (s : string)
| JArray (items : list json)
| JObject (members : list (string * json)).

(** Exception classes that the script names or that escape it. *)
Inductive exn_class : Type :=
| FileNotFoundError
| OSError
| JSONDecodeError
| OpenAIError
| TypeError
| AttributeError
| OverflowError
| OtherError.

(** A raised exception: its class and [str(e)]. *)
Record exn : Type := Exn { exn_cls : exn_class; exn_msg : string }.

Definition is_OSError (c : exn_class) : bool :=
  match c with FileNotFoundError | OSError => true | _ => false end.

(* ================================================================== *)
(** ** Python's view of a decoded value *)

Module Py.

(** [d.get(key, default)] on a dict. *)
Fixpoint dict_get_default (members : list (string * json)) (key : string)
    (default : json) : json :=
  match members with
  | [] => default
  | (k, v) :: rest =>
      if String.eqb k key then v else dict_get_default rest key default
  end.

(** [d.get(key)]: the default is [None]. *)
Definition dict_get (members : list (string * json)) (key : string) : json :=
  dict_get_default members key JNull.

(** [scores.values()] *)
Definition values (members : list (string * json)) : list json :=
  map snd members.

(** The addends that [+] treats as integers: [int] and [bool]. *)
Definition as_int (v : json) : option Z :=
  match v with
  | JInt z => Some z
  | JBool true => Some 1
  | JBool false => Some 0
  | _ => None
  end.

Definition is_number (v : json) : bool :=
  match v with JInt _ | JBool _ | JFloat _ => true | _ => false end.

(** Sum of a list of integer addends, [None] if one is not an integer. *)
Fixpoint int_sum (acc : Z) (vs : list json) : option Z :=
  match vs with
  | [] => Some acc
  | v :: rest =>
      match as_int v with
      | Some z => int_sum (acc + z) rest
      | None => None
      end
  end.

(** The longest prefix made of numbers. *)
Fixpoint numeric_prefix (vs : list json) : list json :=
  match vs with
  | [] => []
  | v :: rest => if is_number v then v :: numeric_prefix rest else []
  end.

Definition int_repr (z : Z) : string := NilZero.string_of_int (Z.to_int z).

End Py.

(* ================================================================== *)
(** ** Requests, result entries, events *)

(** One part of the [content] list of the user message. *)
Inductive content_part : Type :=
| TextPart (text : string)
| ImagePart (url : string).

(** The keyword arguments of [client.chat.completions.create]. *)
Record request : Type := Request {
  model : string;
  messages : list content_part;
  temperature : json;
  max_tokens : Z
}.

Inductive question_kind : Type := Image | Text.

(** The dict [result_entry] of [main], one field per key. *)
Record result_entry : Type := ResultEntry {
  question_id : json;
  subject : json;
  question_raw : json;
  question_type : option question_kind;
  question_path_or_text : option json;
  answer_image_paths : list string;
  num_answer_images : Z;
  category_scores : option json;
  total_score : json;
  error_message : option string
}.

(** The lines the script prints, one constructor per [print] call site. *)
Inductive diag : Type :=
| ImageFileNotFound (image_path : string)
| ImageEncodingError (image_path : string) (e : exn)
| NoJsonInResponse (response_content : string)
| JsonDecodingError (response_content : string) (e : exn)
| UnexpectedParsingError (e : exn)
| QuestionsFileNotFound (path : string)
| QuestionsFileNotJson (path : string)
| SkippingItem (question_item : json)
| ProcessingQuestion (qid : json)
| AnswerFolderNotFound (path : string)
| NoAnswerImagesFound (path : string)
| QuestionImageNotFound (path : string)
| EvaluatingAs (kind : question_kind) (multiple : bool)
| EvaluationError (err : string)
| ScoresLine (scores : json) (total : json)
| ResultsSaved (path : string)
| ErrorSavingResults (path : string) (e : exn).

Inductive event : Type :=
| Printed (line : diag)
| ApiRequest (index : nat) (req : request)
| Slept (seconds : Z)
| OpenedForWriting (path : string)
| WroteJson (path : string) (results : list result_entry).

(* ================================================================== *)
(** ** Computations: a trace of events and a value or an escaped exception *)

Inductive outcome (A : Type) : Type :=
| Return (a : A)
| Raise (e : exn).
Arguments Return {A} a.
Arguments Raise {A} e.

Definition M (A : Type) : Type := (list event * outcome A)%type.

Definition ret {A} (a : A) : M A := ([], Return a).

Definition raise {A} (e : exn) : M A := ([], Raise e).

Definition bind {A B} (m : M A) (f : A -> M B) : M B :=
  match m with
  | (t, Return a) => let (t', r) := f a in (t ++ t', r)
  | (t, Raise e) => (t, Raise e)
  end.

Definition emit (ev : event) : M unit := ([ev], Return tt).

Definition print (d : diag) : M unit := emit (Printed d).

Definition trace {A} (m : M A) : list event := fst m.
Definition result {A} (m : M A) : outcome A := snd m.

Notation "x <- c1 ;; c2" := (bind c1 (fun x => c2))
  (at level 61, c1 at next level, right associativity).
Notation "c1 ;;; c2" := (bind c1 (fun _ => c2))
  (at level 61, right associativity).

Definition is_request (ev : event) : bool :=
  match ev with ApiRequest _ _ => true | _ => false end.

(** The requests issued in a trace. *)
Definition requests (t : list event) : list event := filter is_request t.

(* ================================================================== *)
(** ** The environment of a run *)

(** What lies outside the script. [chat_create i req] is what the endpoint does
    with the request issued for the dataset item of index [i]: the text of the
    first choice, or the exception raised on the way to it. [float_sum] is
    [sum] on a list of numbers with a float among them, [float_truthy] the truth
    value of a float, [py_repr] the text of [str(v)] for floats and
    containers. [listdir] is [os.listdir]: the names in a directory, or the
    exception it raises when the directory cannot be listed.
    [open_for_writing] is [open(path, 'w')]: when it does not raise, the file
    exists and is empty. [dump_json_file] is [json.dump] into the open file
    and the closing of it: when it raises, the file is left with whatever
    part of the text had been written. *)
Record World : Type := {
  json_loads : string -> exn + json;
  float_truthy : string -> bool;
  float_sum : list json -> exn + json;
  py_repr : json -> string;
  b64encode : string -> string;
  read_bytes : string -> exn + string;
  isdir : string -> bool;
  isfile : string -> bool;
  listdir : string -> exn + list string;
  chat_create : nat -> request -> exn + string;
  load_json_file : string -> exn + json;
  open_for_writing : string -> option exn;
  dump_json_file : string -> list result_entry -> option exn
}.

(** The texts of the script that use characters beyond U+00FF: the rubric
    (already stripped) and the closing instruction of each evaluation
    function. *)
Record Prompts : Type := {
  BENCHMARK_GUIDELINES : string;
  instruction_image_single : string;
  instruction_image_multiple : string;
  instruction_text_single : string;
  instruction_text_multiple : string
}.

(** The parsed command line. *)
Record Args : Type := {
  questions_file : string;
  answers_dir : string;
  output_file : string
}.

(* ================================================================== *)
(** ** POSIX paths *)

Module Path.

Definition sep : ascii := "/"%char.
Definition extsep : ascii := "."%char.

(** [os.path.isabs(p)] *)
Definition isabs (p : string) : bool := PyStr.startswith p "/".

(** [os.path.join(a, b)] *)
Definition join (a b : string) : string :=
  if PyStr.startswith b "/" then b
  else if (negb (PyStr.truthy a) || PyStr.endswith a "/")%bool then a ++ b
  else a ++ "/" ++ b.

(** [os.path.splitext(p)[1]]: from the last dot of the last component, unless
    that component has only dots before it. *)
Definition splitext_ext (p : string) : string :=
  let sepIndex := PyStr.rfind p sep in
  let dotIndex := PyStr.rfind p extsep in
  if dotIndex >? sepIndex then
    if forallb (Ascii.eqb extsep)
         (PyStr.chars (PyStr.slice p (sepIndex + 1) dotIndex))
    then EmptyString
    else PyStr.slice p dotIndex (PyStr.len p)
  else EmptyString.

End Path.

(** [sorted(paths)]: insertion into an ascending list. Two texts that compare
    equal are the same text, so every sorting algorithm returns this list. *)
Fixpoint insert_sorted (x : string) (l : list string) : list string :=
  match l with
  | [] => [x]
  | y :: l' => if PyStr.leb x y then x :: l else y :: insert_sorted x l'
  end.

Fixpoint sorted (l : list string) : list string :=
  match l with
  | [] => []
  | x :: l' => insert_sorted x (sorted l')
  end.

(** The extensions of an answer image and of a question image, as the two
    [endswith] tuples of [main] have them. *)
Definition ANSWER_EXTENSIONS : list string :=
  [".png"; ".jpg"; ".jpeg"; ".gif"; ".bmp"].

Definition QUESTION_EXTENSIONS : list string :=
  [".png"; ".jpg"; ".jpeg"].

(* ================================================================== *)
(** ** The script *)

Section Script.

Variable w : World.
Variable prompts : Prompts.
Variable SCRIPT_DIR : string.

(** Truth value of a decoded value ([not v], [if v]). *)
Definition truthy (v : json) : bool :=
  match v with
  | JNull => false
  | JBool b => b
  | JInt z => negb (z =? 0)
  | JFloat r => float_truthy w r
  | JString s => PyStr.truthy s
  | JArray items => match items with [] => false | _ => true end
  | JObject members => match members with [] => false | _ => true end
  end.

(** Truth value of a value that may be [None]. *)
Definition truthy_opt (v : option json) : bool :=
  match v with Some x => truthy x | None => false end.

Definition truthy_str_opt (s : option string) : bool :=
  match s with Some x => PyStr.truthy x | None => false end.

(** [str(v)] *)
Definition py_str (v : json) : string :=
  match v with
  | JString s => s
  | JInt z => Py.int_repr z
  | JBool true => "True"
  | JBool false => "False"
  | JNull => "None"
  | _ => py_repr w v
  end.

Definition unsupported_operand : exn :=
  Exn TypeError "unsupported operand type(s) for +".

(** [sum(vs)]: integers and booleans add up exactly; with a float among the
    numbers the total is the environment's; an addend that is not a number
    raises [TypeError], unless adding the numbers before it raised already. *)
Definition py_sum (vs : list json) : exn + json :=
  match Py.int_sum 0 vs with
  | Some z => inr (JInt z)
  | None =>
      if forallb Py.is_number vs then float_sum w vs
      else
        let before := Py.numeric_prefix vs in
        match Py.int_sum 0 before with
        | Some _ => inl unsupported_operand
        | None =>
            match float_sum w before with
            | inl e => inl e
            | inr _ => inl unsupported_operand
            end
        end
  end.

(** [encode_image_to_data_url]: the data URL of the file, or [None] with a
    printed line when the file cannot be read. *)
Definition encode_image_to_data_url (image_path : string)
  : M (option string) :=
  match read_bytes w image_path with
  | inr raw_bytes =>
      let b64_string := b64encode w raw_bytes in
      let ext := PyStr.lower (Path.splitext_ext image_path) in
      let mime_type :=
        if (String.eqb ext ".jpg" || String.eqb ext ".jpeg")%bool
        then "image/jpeg" else "image/png" in
      ret (Some ("data:" ++ mime_type ++ ";base64," ++ b64_string)%string)
  | inl e =>
      match exn_cls e with
      | FileNotFoundError => print (ImageFileNotFound image_path) ;;; ret None
      | _ => print (ImageEncodingError image_path e) ;;; ret None
      end
  end.

(** [parse_gpt_response]: the JSON between the first opening and the last
    closing brace, or [None] with a printed line. *)
Definition parse_gpt_response (response_content : string) : M (option json) :=
  let start_index := PyStr.find response_content "{" in
  let end_index := PyStr.rfind response_content "}" + 1 in
  if (negb (start_index =? -1) && negb (end_index =? -1)
      && (end_index >? start_index))%bool
  then
    let json_str := PyStr.slice response_content start_index end_index in
    match json_loads w json_str with
    | inr v => ret (Some v)
    | inl e =>
        match exn_cls e with
        | JSONDecodeError =>
            print (JsonDecodingError response_content e) ;;; ret None
        | _ => print (UnexpectedParsingError e) ;;; ret None
        end
    end
  else print (NoJsonInResponse response_content) ;;; ret None.

(** The [try] block shared word for word by the four evaluation functions:
    send the request, strip the text of the first choice, parse it, and turn
    an exception into an error message. *)
Definition ask_model (i : nat) (content_parts : list content_part)
  : M (option json * option string) :=
  let req := Request "gpt-4.1" content_parts (JFloat "0.0") 250 in
  emit (ApiRequest i req) ;;;
  match chat_create w i req with
  | inr text =>
      let content := PyStr.strip text in
      scores <- parse_gpt_response content ;;
      ret (scores,
           if truthy_opt scores then None
           else Some "Failed to parse scores from GPT response.")
  | inl e =>
      match exn_cls e with
      | OpenAIError =>
          ret (None, Some ("OpenAI API error: " ++ exn_msg e)%string)
      | _ =>
          ret (None,
               Some ("Unexpected error during API call: " ++ exn_msg e)%string)
      end
  end.

(** The [for ans_path in answer_image_paths] loop of the two functions for
    several answer images: the parts with one image per answer, or the error
    message of the first answer that cannot be encoded. *)
Fixpoint append_answer_images (answer_image_paths : list string)
    (content_parts : list content_part) : M (list content_part + string) :=
  match answer_image_paths with
  | [] => ret (inl content_parts)
  | ans_path :: rest =>
      ans_url <- encode_image_to_data_url ans_path ;;
      match ans_url with
      | Some url =>
          if PyStr.truthy url
          then append_answer_images rest (content_parts ++ [ImagePart url])
          else ret (inr ("Failed to encode an answer image: " ++ ans_path)%string)
      | None =>
          ret (inr ("Failed to encode an answer image: " ++ ans_path)%string)
      end
  end.

Definition evaluate_image_q_single_a (i : nat)
    (question_image_path answer_image_path : string)
  : M (option json * option string) :=
  q_url <- encode_image_to_data_url question_image_path ;;
  a_url <- encode_image_to_data_url answer_image_path ;;
  match q_url, a_url with
  | Some q, Some a =>
      if (negb (PyStr.truthy q) || negb (PyStr.truthy a))%bool
      then ret (None, Some "Failed to encode one or both images.")
      else
        ask_model i
          [ TextPart (BENCHMARK_GUIDELINES prompts);
            TextPart "Problem image:";
            ImagePart q;
            TextPart "Answer screenshot:";
            ImagePart a;
            TextPart (instruction_image_single prompts) ]
  | _, _ => ret (None, Some "Failed to encode one or both images.")
  end.

Definition evaluate_image_q_multiple_a (i : nat)
    (question_image_path : string) (answer_image_paths : list string)
  : M (option json * option string) :=
  q_url <- encode_image_to_data_url question_image_path ;;
  match q_url with
  | Some q =>
      if negb (PyStr.truthy q)
      then ret (None, Some "Failed to encode question image.")
      else
        parts <- append_answer_images answer_image_paths
                   [ TextPart (BENCHMARK_GUIDELINES prompts);
                     TextPart "Problem image:";
                     ImagePart q;
                     TextPart "Student visual responses (multiple answer images follow):" ] ;;
        match parts with
        | inl content_parts =>
            ask_model i
              (content_parts ++ [TextPart (instruction_image_multiple prompts)])
        | inr msg => ret (None, Some msg)
        end
  | None => ret (None, Some "Failed to encode question image.")
  end.

Definition newline : string := String "010" EmptyString.

Definition evaluate_text_q_single_a (i : nat)
    (question_text : json) (answer_image_path : string)
  : M (option json * option string) :=
  a_url <- encode_image_to_data_url answer_image_path ;;
  match a_url with
  | Some a =>
      if negb (PyStr.truthy a)
      then ret (None, Some "Failed to encode answer image.")
      else
        ask_model i
          [ TextPart (BENCHMARK_GUIDELINES prompts);
            TextPart ("Question:" ++ newline ++ py_str question_text);
            TextPart "Answer screenshot:";
            ImagePart a;
            TextPart (instruction_text_single prompts) ]
  | None => ret (None, Some "Failed to encode answer image.")
  end.

Definition evaluate_text_q_multiple_a (i : nat)
    (question_text : json) (answer_image_paths : list string)
  : M (option json * option string) :=
  parts <- append_answer_images answer_image_paths
             [ TextPart (BENCHMARK_GUIDELINES prompts);
               TextPart ("Question:" ++ newline ++ py_str question_text);
               TextPart "Student visual responses (multiple answer images follow):" ] ;;
  match parts with
  | inl content_parts =>
      ask_model i
        (content_parts ++ [TextPart (instruction_text_multiple prompts)])
  | inr msg => ret (None, Some msg)
  end.

(** *** The batch loop of [main] *)

(** [result_entry[key] = value], one function per key that [main] assigns. *)
Definition set_error_message (e : result_entry) (msg : string) : result_entry :=
  ResultEntry (question_id e) (subject e) (question_raw e) (question_type e)
    (question_path_or_text e) (answer_image_paths e) (num_answer_images e)
    (category_scores e) (total_score e) (Some msg).

Definition set_answer_images (e : result_entry) (files : list string)
  : result_entry :=
  ResultEntry (question_id e) (subject e) (question_raw e) (question_type e)
    (question_path_or_text e) files (Z.of_nat (List.length files))
    (category_scores e) (total_score e) (error_message e).

Definition set_question (e : result_entry) (k : question_kind) (q : json)
  : result_entry :=
  ResultEntry (question_id e) (subject e) (question_raw e) (Some k)
    (Some q) (answer_image_paths e) (num_answer_images e)
    (category_scores e) (total_score e) (error_message e).

Definition set_scores (e : result_entry) (scores total : json)
  : result_entry :=
  ResultEntry (question_id e) (subject e) (question_raw e) (question_type e)
    (question_path_or_text e) (answer_image_paths e) (num_answer_images e)
    (Some scores) total (error_message e).

(** The entry as [main] creates it, before anything is known. *)
Definition new_result_entry (qid subj content : json) : result_entry :=
  ResultEntry qid subj content None None [] 0 None (JInt 0) None.

(** The name filter of the answer directory listing. *)
Definition is_answer_image (f : string) : bool :=
  PyStr.endswith_any (PyStr.lower f) ANSWER_EXTENSIONS.

(** [answer_image_files], given what [os.listdir] returned: the joined paths
    of the listed names that pass the filter, sorted. *)
Definition list_answer_images (answer_folder_path : string)
    (names : list string) : list string :=
  sorted (map (Path.join answer_folder_path) (filter is_answer_image names)).

(** [is_image_question] *)
Definition is_image_question (question_content : json) : bool :=
  match question_content with
  | JString s => PyStr.endswith_any (PyStr.lower s) QUESTION_EXTENSIONS
  | _ => false
  end.

Definition no_attribute_get : exn :=
  Exn AttributeError "object has no attribute 'get'".

(** [sum(scores.values()) if isinstance(scores, dict) else 0] *)
Definition total_of (scores : json) : exn + json :=
  match scores with
  | JObject members => py_sum (Py.values members)
  | _ => inr (JInt 0)
  end.

Definition NO_SCORES : string :=
  "Evaluation completed but no scores were returned.".

(** What [main] does with the pair an evaluation function returned: the last
    [if err] / [elif scores] / [else], then the append and the pause. *)
Definition record_outcome (entry : result_entry)
    (scores : option json) (err : option string) : M (option result_entry) :=
  let elif_scores : M result_entry :=
    match scores with
    | Some sc =>
        if truthy sc then
          match total_of sc with
          | inr total =>
              print (ScoresLine sc total) ;;;
              ret (set_scores entry sc total)
          | inl ex => raise ex
          end
        else ret (set_error_message entry NO_SCORES)
    | None => ret (set_error_message entry NO_SCORES)
    end in
  e <- match err with
       | Some msg =>
           if PyStr.truthy msg
           then print (EvaluationError msg) ;;;
                ret (set_error_message entry msg)
           else elif_scores
       | None => elif_scores
       end ;;
  emit (Slept 1) ;;;
  ret (Some e).

(** One turn of the [for question_item in questions_data] loop: the entry it
    appends to [all_results], or [None] when it appends nothing. The listing
    of the answer directory and the sum of the scores stand outside every
    [try]: what they raise ends the turn, and with it the loop. *)
Definition process_item (args : Args) (i : nat) (question_item : json)
  : M (option result_entry) :=
  match question_item with
  | JObject members =>
      let qid := Py.dict_get members "id" in
      let question_content := Py.dict_get members "question" in
      let subj := Py.dict_get_default members "subject" (JString "N/A") in
      if (negb (truthy qid) || negb (truthy question_content))%bool then
        print (SkippingItem question_item) ;;; ret None
      else
        print (ProcessingQuestion qid) ;;;
        let entry := new_result_entry qid subj question_content in
        let answer_folder_path := Path.join (answers_dir args) (py_str qid) in
        if negb (isdir w answer_folder_path) then
          print (AnswerFolderNotFound answer_folder_path) ;;;
          ret (Some (set_error_message entry "Answer folder not found."))
        else
          match listdir w answer_folder_path with
          | inl ex => raise ex
          | inr names =>
          let answer_image_files :=
            list_answer_images answer_folder_path names in
          let entry := set_answer_images entry answer_image_files in
          match answer_image_files with
          | [] =>
              print (NoAnswerImagesFound answer_folder_path) ;;;
              ret (Some (set_error_message entry "No answer images found."))
          | first :: others =>
              if is_image_question question_content then
                let full_question_image_path :=
                  Path.join SCRIPT_DIR (py_str question_content) in
                let entry :=
                  set_question entry Image (JString full_question_image_path) in
                if negb (isfile w full_question_image_path) then
                  print (QuestionImageNotFound full_question_image_path) ;;;
                  ret (Some (set_error_message entry
                               "Question image file not found."))
                else
                  r <- match others with
                       | [] =>
                           print (EvaluatingAs Image false) ;;;
                           evaluate_image_q_single_a i
                             full_question_image_path first
                       | _ :: _ =>
                           print (EvaluatingAs Image true) ;;;
                           evaluate_image_q_multiple_a i
                             full_question_image_path answer_image_files
                       end ;;
                  record_outcome entry (fst r) (snd r)
              else
                let entry := set_question entry Text question_content in
                r <- match others with
                     | [] =>
                         print (EvaluatingAs Text false) ;;;
                         evaluate_text_q_single_a i question_content first
                     | _ :: _ =>
                         print (EvaluatingAs Text true) ;;;
                         evaluate_text_q_multiple_a i question_content
                           answer_image_files
                     end ;;
                record_outcome entry (fst r) (snd r)
          end
          end
  | _ => raise no_attribute_get
  end.

(** The loop, from the item of index [i] on, with the results so far. *)
Fixpoint process_items (args : Args) (i : nat) (items : list json)
    (all_results : list result_entry) : M (list result_entry) :=
  match items with
  | [] => ret all_results
  | question_item :: rest =>
      r <- process_item args i question_item ;;
      process_items args (S i) rest
        (match r with
         | Some e => all_results ++ [e]
         | None => all_results
         end)
  end.

Definition not_iterable : exn := Exn TypeError "object is not iterable".

Definition one_char (c : ascii) : json := JString (String c EmptyString).

(** What the [for] statement iterates over: the items of a list, the keys of a
    dict, the characters of a text; anything else is not iterable. *)
Definition py_iter (v : json) : exn + list json :=
  match v with
  | JArray items => inr items
  | JObject members => inr (map (fun kv => JString (fst kv)) members)
  | JString s => inr (map one_char (PyStr.chars s))
  | _ => inl not_iterable
  end.

(** The last [try] block of [main]: open the output file, which empties it,
    write the results into it and close it; an [IOError] of either step is
    printed, any other exception escapes. *)
Definition save_results (output_file_path : string)
    (all_results : list result_entry) : M unit :=
  let except_IOError (e : exn) : M unit :=
    if is_OSError (exn_cls e)
    then print (ErrorSavingResults output_file_path e)
    else raise e in
  match open_for_writing w output_file_path with
  | Some e => except_IOError e
  | None =>
      emit (OpenedForWriting output_file_path) ;;;
      match dump_json_file w output_file_path all_results with
      | None =>
          emit (WroteJson output_file_path all_results) ;;;
          print (ResultsSaved output_file_path)
      | Some e => except_IOError e
      end
  end.

(** [main], after the command line is parsed. *)
Definition main (args : Args) : M unit :=
  match load_json_file w (questions_file args) with
  | inl e =>
      match exn_cls e with
      | FileNotFoundError =>
          print (QuestionsFileNotFound (questions_file args))
      | JSONDecodeError =>
          print (QuestionsFileNotJson (questions_file args))
      | _ => raise e
      end
  | inr questions_data =>
      match py_iter questions_data with
      | inl e => raise e
      | inr items =>
          all_results <- process_items args 0 items [] ;;
          let output_file_path :=
            if Path.isabs (output_file args) then output_file args
            else Path.join SCRIPT_DIR (output_file args) in
          save_results output_file_path all_results
      end
  end.

End Script.

(* ================================================================== *)
(** ** A reference decoder

    A decoder for the JSON texts made of objects, arrays, texts without
    escapes, integers and the three literals; on these it returns what
    [json.loads] returns. It gives the examples below a concrete world. *)

Module Decoder.

Definition quote : ascii := "034"%char.

Definition is_ws (c : ascii) : bool :=
  let n := nat_of_ascii c in
  ((n =? 32) || (n =? 9) || (n =? 10) || (n =? 13))%nat.

Fixpoint skip_ws (l : list ascii) : list ascii :=
  match l with
  | c :: l' => if is_ws c then skip_ws l' else l
  | [] => []
  end.

Definition digit_of (c : ascii) : option Z :=
  let n := nat_of_ascii c in
  if ((48 <=? n) && (n <=? 57))%nat then Some (Z.of_nat (n - 48)) else None.

(** The digits at the head of [l], their value on top of [acc], how many
    there are, and what follows. *)
Fixpoint read_digits (l : list ascii) (acc : Z) (count : nat)
  : Z * nat * list ascii :=
  match l with
  | c :: l' =>
      match digit_of c with
      | Some d => read_digits l' (10 * acc + d) (S count)
      | None => (acc, count, l)
      end
  | [] => (acc, count, l)
  end.

(** A number without fraction and exponent; no leading zero. *)
Definition read_int (l : list ascii) : option (Z * list ascii) :=
  let '(negative, body) :=
    match l with
    | "-"%char :: l' => (true, l')
    | _ => (false, l)
    end in
  let '(value, count, rest) := read_digits body 0 0 in
  let leading_zero :=
    match body with
    | "0"%char :: _ => (1 <? count)%nat
    | _ => false
    end in
  let continues :=
    match rest with
    | "."%char :: _ | "e"%char :: _ | "E"%char :: _ => true
    | _ => false
    end in
  if ((count =? 0)%nat || leading_zero || continues)%bool then None
  else Some (if negative then - value else value, rest).

(** The characters up to the closing quote; a backslash or a control
    character ends the fragment. *)
Fixpoint read_string (l : list ascii) : option (string * list ascii) :=
  match l with
  | [] => None
  | c :: l' =>
      if Ascii.eqb c quote then Some (EmptyString, l')
      else if (Ascii.eqb c "\"%char || (nat_of_ascii c <? 32)%nat)%bool then None
      else
        match read_string l' with
        | Some (s, rest) => Some (String c s, rest)
        | None => None
        end
  end.

(** [d[k] = v]: a key read twice keeps its place and takes the later value. *)
Fixpoint dict_set (members : list (string * json)) (k : string) (v : json)
  : list (string * json) :=
  match members with
  | [] => [(k, v)]
  | (k', v') :: rest =>
      if String.eqb k' k then (k, v) :: rest
      else (k', v') :: dict_set rest k v
  end.

Fixpoint read_value (fuel : nat) (l : list ascii)
  : option (json * list ascii) :=
  match fuel with
  | O => None
  | S fuel' =>
      match skip_ws l with
      | "{"%char :: rest =>
          match skip_ws rest with
          | "}"%char :: rest' => Some (JObject [], rest')
          | _ => read_members fuel' rest []
          end
      | "["%char :: rest =>
          match skip_ws rest with
          | "]"%char :: rest' => Some (JArray [], rest')
          | _ => read_items fuel' rest []
          end
      | "n"%char :: "u"%char :: "l"%char :: "l"%char :: rest =>
          Some (JNull, rest)
      | "t"%char :: "r"%char :: "u"%char :: "e"%char :: rest =>
          Some (JBool true, rest)
      | "f"%char :: "a"%char :: "l"%char :: "s"%char :: "e"%char :: rest =>
          Some (JBool false, rest)
      | c :: rest =>
          if Ascii.eqb c quote then
            match read_string rest with
            | Some (s, rest') => Some (JString s, rest')
            | None => None
            end
          else
            match read_int (c :: rest) with
            | Some (z, rest') => Some (JInt z, rest')
            | None => None
            end
      | [] => None
      end
  end
with read_members (fuel : nat) (l : list ascii) (acc : list (string * json))
  : option (json * list ascii) :=
  match fuel with
  | O => None
  | S fuel' =>
      match skip_ws l with
      | c :: rest =>
          if Ascii.eqb c quote then
            match read_string rest with
            | Some (k, rest1) =>
                match skip_ws rest1 with
                | ":"%char :: rest2 =>
                    match read_value fuel' rest2 with
                    | Some (v, rest3) =>
                        match skip_ws rest3 with
                        | ","%char :: rest4 =>
                            read_members fuel' rest4 (dict_set acc k v)
                        | "}"%char :: rest4 =>
                            Some (JObject (dict_set acc k v), rest4)
                        | _ => None
                        end
                    | None => None
                    end
                | _ => None
                end
            | None => None
            end
          else None
      | [] => None
      end
  end
with read_items (fuel : nat) (l : list ascii) (acc : list json)
  : option (json * list ascii) :=
  match fuel with
  | O => None
  | S fuel' =>
      match read_value fuel' l with
      | Some (v, rest) =>
          match skip_ws rest with
          | ","%char :: rest' => read_items fuel' rest' (acc ++ [v])
          | "]"%char :: rest' => Some (JArray (acc ++ [v]), rest')
          | _ => None
          end
      | None => None
      end
  end.

Definition decode_error (msg : string) : exn := Exn JSONDecodeError msg.

(** [json.loads] on the fragment. *)
Definition loads (s : string) : exn + json :=
  let l := PyStr.chars s in
  match read_value (S (List.length l)) l with
  | Some (v, rest) =>
      match skip_ws rest with
      | [] => inr v
      | _ :: _ => inl (decode_error "Extra data")
      end
  | None => inl (decode_error "Expecting value")
  end.

End Decoder.

(* ================================================================== *)
(** ** Concrete worlds *)

Module Examples.

Definition q : string := String Decoder.quote EmptyString.

Definition file_not_found : exn := Exn FileNotFoundError "No such file or directory".

Fixpoint lookup_dir (dirs : list (string * list string)) (p : string)
  : option (list string) :=
  match dirs with
  | [] => None
  | (d, names) :: rest => if String.eqb d p then Some names else lookup_dir rest p
  end.

Definition mem (p : string) (l : list string) : bool := existsb (String.eqb p) l.

(** A world given by its regular files (all empty, so that their base64 text
    is empty too), its directories with their listings, the reply of the
    endpoint and the content of the questions file. The decoder is the
    reference decoder; it yields no float and the identifiers are texts, so the
    float and [repr] fields are never consulted. *)
Definition world (files : list string) (dirs : list (string * list string))
    (reply : exn + string) (dataset : exn + json) : World :=
  {| json_loads := Decoder.loads;
     float_truthy := fun _ => true;
     float_sum := fun _ => inl (Exn OverflowError "int too large to convert to float");
     py_repr := fun _ => EmptyString;
     b64encode := fun _ => EmptyString;
     read_bytes := fun p => if mem p files then inr EmptyString else inl file_not_found;
     isdir := fun p => match lookup_dir dirs p with Some _ => true | None => false end;
     isfile := fun p => mem p files;
     listdir := fun p => match lookup_dir dirs p with
                         | Some names => inr names
                         | None => inl file_not_found
                         end;
     chat_create := fun _ _ => reply;
     load_json_file := fun _ => dataset;
     open_for_writing := fun _ => None;
     dump_json_file := fun _ _ => None |}.

(** The fixed texts, with the dashes of the originals written in ASCII. *)
Definition prompts : Prompts :=
  {| BENCHMARK_GUIDELINES := "Category I: Visual Scenario Design Guidance ...";
     instruction_image_single :=
       "Assign integer scores 0-5 for categories 1-5.";
     instruction_image_multiple :=
       "Based on the problem image and all student visual responses above, assign integer scores 0-5 for categories 1-5.";
     instruction_text_single :=
       "Based on the question text and the answer screenshot, assign integer scores 0-5 for categories 1-5.";
     instruction_text_multiple :=
       "Based on the question text and all student visual responses above, assign integer scores 0-5 for categories 1-5." |}.

Definition SCRIPT_DIR : string := "/app".

Definition args : Args :=
  {| questions_file := "/app/data.json";
     answers_dir := "/app/data";
     output_file := "evaluation.json" |}.

Definition record (id question : string) : json :=
  JObject [("id", JString id); ("question", JString question)].

(** [{"a": {"b":1}}] *)
Definition nested_text : string :=
  "{" ++ q ++ "a" ++ q ++ ": {" ++ q ++ "b" ++ q ++ ":1}}".

(** [Here are the scores: {"1":3,"2":4,"3":2,"4":5,"5":1} thanks] *)
Definition scores_reply : string :=
  "Here are the scores: {" ++ q ++ "1" ++ q ++ ":3," ++ q ++ "2" ++ q ++ ":4,"
    ++ q ++ "3" ++ q ++ ":2," ++ q ++ "4" ++ q ++ ":5," ++ q ++ "5" ++ q
    ++ ":1} thanks".

(** [{"1":"a"}] *)
Definition text_score_reply : string :=
  "{" ++ q ++ "1" ++ q ++ ":" ++ q ++ "a" ++ q ++ "}".

(** One text question with one answer image, and a reply that follows the
    output contract. *)
Definition text_world (reply : string) : World :=
  world ["/app/data/q1/a.png"] [("/app/data/q1", ["a.png"; "notes.txt"])]
    (inr reply) (inr (JArray [record "q1" "What is 7x8?"])).

(** One question that names an image missing on disk, with two answer
    images. *)
Definition missing_figure_world : World :=
  world ["/app/data/q2/b.png"; "/app/data/q2/a.JPG"]
    [("/app/data/q2", ["b.png"; "a.JPG"])]
    (inr scores_reply) (inr (JArray [record "q2" "fig.png"])).

(** One question whose answer directory does not exist, followed by one
    without identifier and one that can be scored. *)
Definition mixed_world : World :=
  world ["/app/data/q1/a.png"]
    [("/app/data/q1", ["a.png"]); ("/app/data/q3", ["readme.md"])]
    (inr scores_reply)
    (inr (JArray [record "q0" "What is 1+1?";
                  JObject [("question", JString "No id")];
                  record "q3" "What is 2+2?";
                  record "q1" "What is 7x8?"])).

End Examples.

(* ================================================================== *)
(** ** Views of the script used by the statements *)

Definition open_brace : ascii := "{"%char.
Definition close_brace : ascii := "}"%char.

(** The guard of [parse_gpt_response]. *)
Definition has_span (s : string) : bool :=
  (negb (PyStr.find s open_brace =? -1)
   && negb (PyStr.rfind s close_brace + 1 =? -1)
   && (PyStr.rfind s close_brace + 1 >? PyStr.find s open_brace))%bool.

(** What [parse_gpt_response] does with the text between the braces. *)
Definition decode_span (w : World) (s json_str : string) : M (option json) :=
  match json_loads w json_str with
  | inr v => ([], Return (Some v))
  | inl e =>
      match exn_cls e with
      | JSONDecodeError => ([Printed (JsonDecodingError s e)], Return None)
      | _ => ([Printed (UnexpectedParsingError e)], Return None)
      end
  end.

(** A computation that returns, with a property of its trace and value. *)
Definition returns_with {A} (m : M A) (P : list event -> A -> Prop) : Prop :=
  exists t a, m = (t, Return a) /\ P t a.

(** Encoding the image at [p] fails: [encode_image_to_data_url] gives
    [None]. *)
Definition encoding_fails (w : World) (p : string) : Prop :=
  result (encode_image_to_data_url w p) = Return None.

(** The pair of an evaluation function as the specification words it: one
    component is [None] and the other is not. *)
Definition exactly_one_non_null (r : option json * option string) : Prop :=
  (fst r <> None /\ snd r = None) \/ (fst r = None /\ snd r <> None).

Definition PARSE_FAILED : string :=
  "Failed to parse scores from GPT response.".

(** The pair of an evaluation function as the code has it: scores that count
    as true and no error, or a non-empty error with scores that are [None],
    or, for a reply that decodes to a value counting as false, that value. *)
Definition exactly_one_truthy (w : World) (r : option json * option string)
  : Prop :=
  (truthy_opt w (fst r) = true /\ snd r = None) \/
  (truthy_opt w (fst r) = false /\
   exists msg, snd r = Some msg /\ PyStr.truthy msg = true /\
               (fst r <> None -> msg = PARSE_FAILED)).

(** [v] is what the decoder returned for a text that opens and closes with a
    brace. *)
Definition decoded_from_braces (w : World) (v : json) : Prop :=
  exists mid,
    json_loads w (String open_brace (mid ++ String close_brace EmptyString))
    = inr v.

(** The decoder returns a dict for every text that opens with a brace, as
    [json.loads] does. *)
Definition decodes_objects (w : World) : Prop :=
  forall s v,
    json_loads w (String open_brace s) = inr v ->
    exists members, v = JObject members.

(** What each evaluation function guarantees about its trace and its pair:
    exactly one component counts as true; when [failing] holds, no request
    was sent and the scores are [None]; and scores were decoded from a text in
    braces. *)
Definition evaluation_post (w : World) (failing : Prop) (t : list event)
    (r : option json * option string) : Prop :=
  exactly_one_truthy w r /\
  (failing -> requests t = [] /\ fst r = None) /\
  (forall v, fst r = Some v -> decoded_from_braces w v).

(** *** One dataset item seen from outside *)

Section ItemViews.

Variable w : World.
Variable SCRIPT_DIR : string.
Variable args : Args.
Variable members : list (string * json).

Definition item_id : json := Py.dict_get members "id".
Definition item_question : json := Py.dict_get members "question".
Definition item_subject : json :=
  Py.dict_get_default members "subject" (JString "N/A").

(** The answer directory of the item, whether it can be listed, and the
    answer images listed in it: none when the listing raises. *)
Definition answer_folder : string :=
  Path.join (answers_dir args) (py_str w item_id).
Definition listed : Prop :=
  exists names, listdir w answer_folder = inr names.
Definition answer_files : list string :=
  match listdir w answer_folder with
  | inr names => list_answer_images answer_folder names
  | inl _ => []
  end.

(** Where the question image is looked for, when the question names one. *)
Definition question_image_path : string :=
  Path.join SCRIPT_DIR (py_str w item_question).

(** The entry when it is created, once the answer images are listed, and once
    the kind of the question is decided. *)
Definition fresh_entry : result_entry :=
  new_result_entry item_id item_subject item_question.
Definition listed_entry : result_entry :=
  set_answer_images fresh_entry answer_files.
Definition classified_entry : result_entry :=
  if is_image_question item_question
  then set_question listed_entry Image (JString question_image_path)
  else set_question listed_entry Text item_question.

(** How [main] records the pair of an evaluation function in an entry. *)
Inductive recorded_as (entry : result_entry) (scores : option json)
    (err : option string) : result_entry -> Prop :=
| RecordedError (msg : string) :
    err = Some msg -> PyStr.truthy msg = true ->
    recorded_as entry scores err (set_error_message entry msg)
| RecordedScores (sc total : json) :
    truthy_str_opt err = false -> scores = Some sc -> truthy w sc = true ->
    total_of w sc = inr total ->
    recorded_as entry scores err (set_scores entry sc total)
| RecordedNothing :
    truthy_str_opt err = false -> truthy_opt w scores = false ->
    recorded_as entry scores err (set_error_message entry NO_SCORES).

(** The entries that one turn of the loop can append for the item. *)
Inductive entry_of_item : result_entry -> Prop :=
| EntryNoFolder :
    isdir w answer_folder = false ->
    entry_of_item (set_error_message fresh_entry "Answer folder not found.")
| EntryNoImages :
    isdir w answer_folder = true -> listed -> answer_files = [] ->
    entry_of_item (set_error_message listed_entry "No answer images found.")
| EntryNoQuestionImage :
    isdir w answer_folder = true -> answer_files <> [] ->
    is_image_question item_question = true ->
    isfile w question_image_path = false ->
    entry_of_item
      (set_error_message classified_entry "Question image file not found.")
| EntryEvaluated (scores : option json) (err : option string)
    (e : result_entry) :
    isdir w answer_folder = true -> answer_files <> [] ->
    (is_image_question item_question = true ->
     isfile w question_image_path = true) ->
    exactly_one_truthy w (scores, err) ->
    (forall v, scores = Some v -> decoded_from_braces w v) ->
    recorded_as classified_entry scores err e ->
    entry_of_item e.

End ItemViews.

(** An event other than the opening and the writing of the output file. *)
Definition no_write (ev : event) : bool :=
  match ev with
  | OpenedForWriting _ | WroteJson _ _ => false
  | _ => true
  end.

(** A trace in which the output file is neither opened nor written. *)
Definition quiet (t : list event) : Prop := Forall (fun ev => no_write ev = true) t.

(** The total of an entry as the code computes it. *)
Definition score_invariant (w : World) (e : result_entry) : Prop :=
  match category_scores e with
  | None => total_score e = JInt 0
  | Some sc => total_of w sc = inr (total_score e)
  end.

(** The total of an entry as the specification words it: the sum of the values
    of its category scores, and 0 without category scores. *)
Definition total_is_sum_of_scores (w : World) (e : result_entry) : Prop :=
  match category_scores e with
  | None => total_score e = JInt 0
  | Some sc =>
      exists members,
        sc = JObject members /\
        py_sum w (Py.values members) = inr (total_score e)
  end.

(** The total of an entry whose category scores are all integers, as
    arithmetic has it: the sum of these integers. *)
Definition total_is_integer_sum (e : result_entry) : Prop :=
  forall members zs,
    category_scores e = Some (JObject members) ->
    Py.values members = map JInt zs ->
    total_score e = JInt (fold_right Z.add 0 zs).

(** A list of texts in ascending order: each one is at most every later
    one. *)
Definition ascending : list string -> Prop :=
  StronglySorted (fun a b => PyStr.leb a b = true).

(** The kind of an entry as the specification words it: [Image] when the
    question names an image and the file exists, [Text] in every other
    case. *)
Definition modality_as_specified (w : World) (SCRIPT_DIR : string)
    (question_content : json) (e : result_entry) : Prop :=
  question_type e =
  Some (if (is_image_question question_content
            && isfile w (Path.join SCRIPT_DIR (py_str w question_content)))%bool
        then Image else Text).

(** The entry a computation returned, for the examples. *)
Definition recorded (m : M (option result_entry)) : result_entry :=
  match result m with
  | Return (Some e) => e
  | _ => new_result_entry JNull JNull JNull
  end.

(** A name that ends, whatever the case of its letters, in one of the five
    extensions of an answer image. *)
Definition image_name (f : string) : Prop :=
  exists pre ext,
    In ext [".png"; ".jpg"; ".jpeg"; ".gif"; ".bmp"] /\
    PyStr.lower f = (pre ++ ext)%string.

(** [kept] holds the names of a listing that satisfy [P], in the order of
    the listing and as often as they are listed. *)
Inductive selects (P : string -> Prop) : list string -> list string -> Prop :=
| selects_nil : selects P [] []
| selects_keep (f : string) (names kept : list string) :
    P f -> selects P names kept -> selects P (f :: names) (f :: kept)
| selects_drop (f : string) (names kept : list string) :
    ~ P f -> selects P names kept -> selects P (f :: names) kept.

(** The names of a listing that are regular files of the directory. *)
Definition listed_files (w : World) (folder : string) (names : list string)
  : list string :=
  filter (fun f => isfile w (Path.join folder f)) names.

(** One text question whose answer directory holds the image [a.png] and a
    subdirectory called [sub.jpg]. *)
Definition subdirectory_world : World :=
  Examples.world ["/app/data/q9/a.png"]
    [("/app/data/q9", ["a.png"; "sub.jpg"]); ("/app/data/q9/sub.jpg", [])]
    (inr Examples.scores_reply)
    (inr (JArray [Examples.record "q9" "What is 7x8?"])).



(** What an evaluation function returns when an image it needs cannot be
    encoded: no scores, an error message, and no request in its trace. *)
Definition failed_before_request (t : list event)
    (r : option json * option string) : Prop :=
  requests t = [] /\ fst r = None /\ exists msg, snd r = Some msg.

(** *** Views used by the further properties *)

(** The data URL that [encode_image_to_data_url] returns for a path, if
    any. *)
Definition url_of (w : World) (image_path : string) : option string :=
  match result (encode_image_to_data_url w image_path) with
  | Return o => o
  | Raise _ => None
  end.

(** The error message that an evaluation function makes of an exception
    raised by the request. *)
Definition api_error_message (e : exn) : string :=
  match exn_cls e with
  | OpenAIError => "OpenAI API error: " ++ exn_msg e
  | _ => "Unexpected error during API call: " ++ exn_msg e
  end.

(** The request that the script sends with given content parts. *)
Definition request_of (content_parts : list content_part) : request :=
  Request "gpt-4.1" content_parts (JFloat "0.0") 250.

(** The content of a request: the rubric, the parts of the question, a label,
    one image per answer, and the closing instruction. *)
Definition payload (prompts : Prompts) (question_parts : list content_part)
    (answers_label : string) (answer_urls : list string)
    (instruction : string) : list content_part :=
  [TextPart (BENCHMARK_GUIDELINES prompts)] ++ question_parts
    ++ [TextPart answers_label] ++ map ImagePart answer_urls
    ++ [TextPart instruction].

Definition QUESTION_IMAGE_LABEL : string := "Problem image:".
Definition SINGLE_ANSWER_LABEL : string := "Answer screenshot:".
Definition MULTIPLE_ANSWERS_LABEL : string :=
  "Student visual responses (multiple answer images follow):".

(** The parts of a question given as an image, and as a text. *)
Definition image_question_parts (url : string) : list content_part :=
  [TextPart QUESTION_IMAGE_LABEL; ImagePart url].
Definition text_question_parts (w : World) (question_text : json)
  : list content_part :=
  [TextPart ("Question:" ++ newline ++ py_str w question_text)].

(** The pair of a failure that leaves no scores: [None] and a message that
    is not empty. *)
Definition null_scores_with_message (r : option json * option string)
  : Prop :=
  fst r = None /\ exists msg, snd r = Some msg /\ PyStr.truthy msg = true.

(** The pair that an evaluation function makes of what the endpoint did with
    its request: of an exception, no scores and the message of the exception;
    of a reply in which the parser finds nothing, no scores and the message
    of a parse failure; of a reply that the parser decodes, the decoded
    value, alone when it counts as true and with the message of a parse
    failure when it counts as false. *)
Inductive reply_outcome (w : World)
  : exn + string -> option json * option string -> Prop :=
| RequestFailed (e : exn) :
    reply_outcome w (inl e) (None, Some (api_error_message e))
| ReplyNotDecoded (text : string) :
    result (parse_gpt_response w (PyStr.strip text)) = Return None ->
    reply_outcome w (inr text) (None, Some PARSE_FAILED)
| ReplyScored (text : string) (v : json) :
    result (parse_gpt_response w (PyStr.strip text)) = Return (Some v) ->
    truthy w v = true ->
    reply_outcome w (inr text) (Some v, None)
| ReplyCountsAsFalse (text : string) (v : json) :
    result (parse_gpt_response w (PyStr.strip text)) = Return (Some v) ->
    truthy w v = false ->
    reply_outcome w (inr text) (Some v, Some PARSE_FAILED).

(** A record that the loop does not pass over: a dict with an identifier and
    a question that count as true. *)
Definition recordable (w : World) (item : json) : bool :=
  match item with
  | JObject members =>
      (truthy w (item_id members) && truthy w (item_question members))%bool
  | _ => false
  end.

(** The identifier, the subject and the question of an item, as [main] reads
    them. *)
Definition id_of (item : json) : json :=
  match item with JObject members => item_id members | _ => JNull end.
Definition subject_of (item : json) : json :=
  match item with JObject members => item_subject members | _ => JNull end.
Definition question_of (item : json) : json :=
  match item with JObject members => item_question members | _ => JNull end.

Definition is_sleep (ev : event) : bool :=
  match ev with Slept _ => true | _ => false end.

(** An event that touches the output file: opening it for writing, which
    empties it, and writing the whole of the results into it. *)
Definition is_write (ev : event) : bool :=
  match ev with
  | OpenedForWriting _ | WroteJson _ _ => true
  | _ => false
  end.

(** Where [main] writes the results. *)
Definition output_path (SCRIPT_DIR : string) (args : Args) : string :=
  if Path.isabs (output_file args) then output_file args
  else Path.join SCRIPT_DIR (output_file args).

(** A score that follows the output contract: an integer from 0 to 5. *)
Definition contract_score (v : json) : Prop :=
  exists z, v = JInt z /\ 0 <= z <= 5.

(** A world with one answer image, in which the client library raises on
    every request. *)
Definition rate_limited : exn := Exn OpenAIError "Rate limit reached".
Definition rate_limited_world : World :=
  Examples.world ["/app/data/q1/a.png"] [("/app/data/q1", ["a.png"])]
    (inl rate_limited) (inr (JArray [Examples.record "q1" "What is 7x8?"])).

(** [v] is what the parser made of a reply of the endpoint to a request for
    the item of index [i]. *)
Definition reply_scores (w : World) (i : nat) (v : json) : Prop :=
  exists req text t,
    chat_create w i req = inr text /\
    parse_gpt_response w (PyStr.strip text) = (t, Return (Some v)).

(** Every reply of the endpoint that the parser accepts has values that
    [sum] can add. *)
Definition replies_summable (w : World) : Prop :=
  forall i v, reply_scores w i v -> exists total, total_of w v = inr total.

(** Scores that an evaluation function returns for the item of index [i] come
    from a reply to a request for that item. *)
Definition from_reply (w : World) (i : nat) (_ : list event)
    (r : option json * option string) : Prop :=
  forall v, fst r = Some v -> reply_scores w i v.

(** The lists of results written in a trace. *)
Definition written (t : list event) : list (list result_entry) :=
  flat_map (fun ev => match ev with WroteJson _ rs => [rs] | _ => [] end) t.

(** The world of the first scenario with its ways of saving replaced. *)
Definition saving_world (opening : option exn) (dumping : option exn)
  : World :=
  let base := Examples.text_world Examples.scores_reply in
  {| json_loads := json_loads base;
     float_truthy := float_truthy base;
     float_sum := float_sum base;
     py_repr := py_repr base;
     b64encode := b64encode base;
     read_bytes := read_bytes base;
     isdir := isdir base;
     isfile := isfile base;
     listdir := listdir base;
     chat_create := chat_create base;
     load_json_file := load_json_file base;
     open_for_writing := fun _ => opening;
     dump_json_file := fun _ _ => dumping |}.

(** An output file that cannot be opened for writing, and one that is opened
    on a device that fills up while the results are written. *)
Definition permission_denied : exn := Exn OSError "Permission denied".
Definition no_space_left : exn := Exn OSError "No space left on device".
Definition read_only_world : World := saving_world (Some permission_denied) None.
Definition full_disk_world : World := saving_world None (Some no_space_left).

(** A world without questions file. *)
Definition no_dataset_world : World :=
  Examples.world [] [] (inr Examples.scores_reply) (inl Examples.file_not_found).

(** A world whose questions file holds a list of texts instead of a list of
    records. *)
Definition texts_dataset_world : World :=
  Examples.world [] [] (inr Examples.scores_reply)
    (inr (JArray [JString "What is 7x8?"])).

Definition is_object (item : json) : Prop :=
  exists members, item = JObject members.

(** What [os.path.join] puts before a relative name: the directory itself
    when it is empty or ends with a slash, and the directory and a slash
    otherwise. *)
Definition join_base (folder : string) : string :=
  if (negb (PyStr.truthy folder) || PyStr.endswith folder "/")%bool
  then folder else folder ++ "/".

(** A name as a directory listing gives it: it does not start with a
    slash. *)
Definition relative_name (f : string) : Prop := PyStr.startswith f "/" = false.

(** The items that [main] iterates over: those of the loaded dataset, and
    none when the loading fails or the loaded value is not iterable. *)
Definition dataset_items (w : World) (args : Args) : list json :=
  match load_json_file w (questions_file args) with
  | inr data =>
      match py_iter data with
      | inr items => items
      | inl _ => []
      end
  | inl _ => []
  end.

(** The answer directory of an item, when it exists, can be listed. *)
Definition item_listed (w : World) (args : Args) (item : json) : Prop :=
  match item with
  | JObject members =>
      isdir w (answer_folder w args members) = true -> listed w args members
  | _ => True
  end.

(** A computation whose trace holds at most one request. *)
Definition at_most_one_request {A} (m : M A) : Prop :=
  (List.length (requests (trace m)) <= 1)%nat.

(** A text without braces: no opening brace is found in it from the left, no
    closing brace from the right. *)
Definition brace_free (s : string) : Prop :=
  PyStr.find s open_brace = -1 /\ PyStr.rfind s close_brace = -1.

(** The request that the loop sends for an item whose images can all be
    encoded: the question as an image or as a text, and the label and the
    instruction for one answer image or for several. *)
Definition dispatched_payload (w : World) (prompts : Prompts)
    (question_content : json) (question_url : string)
    (answer_urls : list string) : list content_part :=
  let single := match answer_urls with [_] => true | _ => false end in
  if is_image_question question_content then
    payload prompts (image_question_parts question_url)
      (if single then SINGLE_ANSWER_LABEL else MULTIPLE_ANSWERS_LABEL)
      answer_urls
      (if single then instruction_image_single prompts
       else instruction_image_multiple prompts)
  else
    payload prompts (text_question_parts w question_content)
      (if single then SINGLE_ANSWER_LABEL else MULTIPLE_ANSWERS_LABEL)
      answer_urls
      (if single then instruction_text_single prompts
       else instruction_text_multiple prompts).

(** One question that names the image [fig.png], present on disk, with two
    answer images. *)
Definition figure_world : World :=
  Examples.world
    ["/app/fig.png"; "/app/data/q2/b.png"; "/app/data/q2/a.JPG"]%string
    [("/app/data/q2", ["b.png"; "a.JPG"])]%string
    (inr Examples.scores_reply)
    (inr (JArray [Examples.record "q2" "fig.png"])).

(** The pacing of a trace: a request is sent only when [ready], which a pause
    of one second restores and a request uses up. *)
Fixpoint paced_from (ready : bool) (t : list event) : bool :=
  match t with
  | [] => true
  | ApiRequest _ _ :: t' => ready && paced_from false t'
  | Slept seconds :: t' => paced_from (ready || (seconds =? 1)%Z) t'
  | _ :: t' => paced_from ready t'
  end.

Fixpoint ready_after (ready : bool) (t : list event) : bool :=
  match t with
  | [] => ready
  | ApiRequest _ _ :: t' => ready_after false t'
  | Slept seconds :: t' => ready_after (ready || (seconds =? 1)%Z) t'
  | _ :: t' => ready_after ready t'
  end.

(** Two questions with one answer image each. *)
Definition two_questions_world : World :=
  Examples.world ["/app/data/q1/a.png"; "/app/data/q2/b.png"]%string
    [("/app/data/q1", ["a.png"]); ("/app/data/q2", ["b.png"])]%string
    (inr Examples.scores_reply)
    (inr (JArray [Examples.record "q1" "What is 7x8?";
                  Examples.record "q2" "What is 2+3?"])).

(** What the fields of one entry have to do with each other: scores or an
    error message, never both and never neither; an error message that is not
    empty; the number of answer images next to their list; the kind of the
    question next to the question; and scores only for a question of a known
    kind with at least one answer image. *)
Definition entry_consistent (e : result_entry) : Prop :=
  (category_scores e = None <-> error_message e <> None) /\
  (forall msg, error_message e = Some msg -> PyStr.truthy msg = true) /\
  num_answer_images e = Z.of_nat (List.length (answer_image_paths e)) /\
  (question_type e = None <-> question_path_or_text e = None) /\
  (category_scores e <> None ->
   question_type e <> None /\ answer_image_paths e <> []).

(* ================================================================== *)
(** ** Facts about Python strings *)

Module PyStrFacts.
Import PyStr.
Local Open Scope string_scope.

Lemma len_nonneg (s : string) : 0 <= len s.
Proof. unfold len. lia. Qed.

Lemma len_cons (a : ascii) (s : string) : len (String a s) = len s + 1.
Proof. unfold len. cbn [String.length]. lia. Qed.

Lemma len_app (a b : string) : len (a ++ b) = len a + len b.
Proof.
  induction a as [|c a IH]; cbn [append].
  - unfold len at 2. cbn. lia.
  - rewrite !len_cons, IH. lia.
Qed.

Lemma find_range (s : string) (c : ascii) :
  find s c = -1 \/ 0 <= find s c < len s.
Proof.
  induction s as [|a s IH]; cbn [find]; [now left|].
  rewrite len_cons. destruct (Ascii.eqb a c).
  - right. pose proof (len_nonneg s). lia.
  - destruct (Z.eqb_spec (find s c) (-1)); [now left|]. right. lia.
Qed.

Lemma rfind_range (s : string) (c : ascii) :
  rfind s c = -1 \/ 0 <= rfind s c < len s.
Proof.
  induction s as [|a s IH]; cbn [rfind]; [now left|].
  rewrite len_cons. destruct (Z.eqb_spec (rfind s c) (-1)).
  - destruct (Ascii.eqb a c); [right|now left]. pose proof (len_nonneg s). lia.
  - right. lia.
Qed.

(** A character absent before its first occurrence is found right there. *)
Lemma find_first (pre rest : string) (c : ascii) :
  find pre c = -1 -> find (pre ++ String c rest) c = len pre.
Proof.
  induction pre as [|a pre IH]; cbn [find append]; intros H.
  - now rewrite Ascii.eqb_refl.
  - rewrite len_cons. destruct (Ascii.eqb a c); [discriminate|].
    destruct (Z.eqb_spec (find pre c) (-1)) as [E|E].
    + rewrite (IH E). pose proof (len_nonneg pre).
      destruct (Z.eqb_spec (len pre) (-1)); lia.
    + destruct (find_range pre c); lia.
Qed.

(** A character absent after its last occurrence is found right there. *)
Lemma rfind_last (pre post : string) (c : ascii) :
  rfind post c = -1 -> rfind (pre ++ String c post) c = len pre.
Proof.
  intros H. induction pre as [|a pre IH]; cbn [rfind append].
  - rewrite H. cbn. now rewrite Ascii.eqb_refl.
  - rewrite IH, len_cons. pose proof (len_nonneg pre).
    destruct (Z.eqb_spec (len pre) (-1)); lia.
Qed.

Lemma find_split (s : string) (c : ascii) :
  find s c <> -1 ->
  exists pre post,
    s = pre ++ String c post /\ find pre c = -1 /\ len pre = find s c.
Proof.
  induction s as [|a s IH]; cbn [find]; [congruence|].
  destruct (Ascii.eqb_spec a c) as [->|N].
  - intros _. now exists EmptyString, s.
  - destruct (Z.eqb_spec (find s c) (-1)) as [E|E]; [congruence|]. intros _.
    destruct (IH E) as (pre & post & -> & Hpre & Hlen).
    exists (String a pre), post. cbn [append find]. rewrite Hpre, len_cons.
    destruct (Ascii.eqb_spec a c); [contradiction|]. now rewrite Hlen.
Qed.

Lemma rfind_split (s : string) (c : ascii) :
  rfind s c <> -1 ->
  exists pre post,
    s = pre ++ String c post /\ rfind post c = -1 /\ len pre = rfind s c.
Proof.
  induction s as [|a s IH]; cbn [rfind]; [congruence|].
  destruct (Z.eqb_spec (rfind s c) (-1)) as [E|E].
  - destruct (Ascii.eqb_spec a c) as [->|N]; [|congruence]. intros _.
    now exists EmptyString, s.
  - intros _. destruct (IH E) as (pre & post & -> & Hpost & Hlen).
    exists (String a pre), post. cbn [append]. rewrite len_cons.
    repeat split; auto. lia.
Qed.

Lemma rfind_app (a b : string) (c : ascii) :
  rfind (a ++ b) c =
  if (rfind b c =? -1)%Z then rfind a c else len a + rfind b c.
Proof.
  induction a as [|x a IH]; cbn [append rfind].
  - destruct (Z.eqb_spec (rfind b c) (-1)) as [->|]; [reflexivity|].
    unfold len. cbn. lia.
  - rewrite IH, len_cons. destruct (Z.eqb_spec (rfind b c) (-1)) as [E|E].
    + reflexivity.
    + pose proof (len_nonneg a). destruct (rfind_range b c); [lia|].
      destruct (Z.eqb_spec (len a + rfind b c) (-1)); lia.
Qed.

Lemma skip_app (pre s : string) :
  skip (String.length pre) (pre ++ s) = s.
Proof. induction pre; cbn; auto. Qed.

Lemma take_app (mid post : string) :
  take (String.length mid) (mid ++ post) = mid.
Proof. induction mid; cbn; [now destruct post|]. now f_equal. Qed.

Lemma app_assoc (a b c : string) : (a ++ b) ++ c = a ++ (b ++ c).
Proof. induction a; cbn; [reflexivity|]. now f_equal. Qed.

(** The slice between two cut points is the text between them. *)
Lemma slice_middle (pre mid post : string) :
  slice (pre ++ mid ++ post) (len pre) (len pre + len mid) = mid.
Proof.
  unfold slice, clamp. rewrite !len_app.
  pose proof (len_nonneg pre). pose proof (len_nonneg mid).
  pose proof (len_nonneg post).
  destruct (Z.ltb_spec (len pre) 0); [lia|].
  destruct (Z.ltb_spec (len pre + len mid) 0); [lia|].
  rewrite !Z.min_l by lia.
  replace (len pre + len mid - len pre) with (len mid) by lia.
  unfold len. rewrite !Nat2Z.id. now rewrite skip_app, take_app.
Qed.

End PyStrFacts.

(* ================================================================== *)
(** ** The response parser *)

Section ParserFacts.
Import PyStr PyStrFacts.
Local Open Scope string_scope.

Variable w : World.

Lemma parse_unfold (s : string) :
  parse_gpt_response w s =
  if has_span s
  then decode_span w s (slice s (find s open_brace) (rfind s close_brace + 1))
  else ([Printed (NoJsonInResponse s)], Return None).
Proof.
  unfold parse_gpt_response, has_span, decode_span, open_brace, close_brace.
  destruct (_ && _ && _)%bool; [|reflexivity].
  destruct (json_loads w _) as [e|v]; [|reflexivity].
  destruct (exn_cls e); reflexivity.
Qed.

Lemma find_app_none (a b : string) (c : ascii) :
  find a c = -1 -> find b c = -1 -> find (a ++ b) c = -1.
Proof.
  intros Ha Hb. induction a as [|x a IH]; cbn [append find] in *; [exact Hb|].
  destruct (Ascii.eqb x c); [discriminate|].
  destruct (Z.eqb_spec (find a c) (-1)) as [E|E].
  - now rewrite (IH E).
  - destruct (find_range a c); lia.
Qed.

Lemma rfind_app_none (a b : string) (c : ascii) :
  rfind a c = -1 -> rfind b c = -1 -> rfind (a ++ b) c = -1.
Proof. intros Ha Hb. now rewrite rfind_app, Hb, Ha. Qed.

(** The two indices on a text with a first opening and a last closing brace
    in this order. *)
Lemma span_indices (pre mid post : string) :
  find pre open_brace = -1 -> rfind post close_brace = -1 ->
  let s := pre ++ String open_brace (mid ++ String close_brace post) in
  find s open_brace = len pre /\
  rfind s close_brace = len pre + 1 + len mid.
Proof.
  intros Hpre Hpost s. split.
  - now apply find_first.
  - subst s.
    replace (pre ++ String open_brace (mid ++ String close_brace post))
      with ((pre ++ String open_brace mid) ++ String close_brace post).
    + rewrite (rfind_last _ _ _ Hpost), len_app, len_cons. lia.
    + rewrite app_assoc. reflexivity.
Qed.

Lemma has_span_true (pre mid post : string) :
  find pre open_brace = -1 -> rfind post close_brace = -1 ->
  has_span (pre ++ String open_brace (mid ++ String close_brace post)) = true.
Proof.
  intros Hpre Hpost. unfold has_span.
  destruct (span_indices pre mid post Hpre Hpost) as [-> ->].
  pose proof (len_nonneg pre). pose proof (len_nonneg mid).
  destruct (Z.eqb_spec (len pre) (-1)); [lia|].
  destruct (Z.eqb_spec (len pre + 1 + len mid + 1) (-1)); [lia|].
  cbn. apply Z.gtb_lt. lia.
Qed.

Lemma span_slice (pre mid post : string) :
  find pre open_brace = -1 -> rfind post close_brace = -1 ->
  let s := pre ++ String open_brace (mid ++ String close_brace post) in
  slice s (find s open_brace) (rfind s close_brace + 1) =
  String open_brace (mid ++ String close_brace EmptyString).
Proof.
  intros Hpre Hpost s.
  destruct (span_indices pre mid post Hpre Hpost) as [E1 E2].
  fold s in E1, E2. rewrite E1, E2.
  set (body := String open_brace (mid ++ String close_brace EmptyString)).
  assert (Hs : s = pre ++ body ++ post).
  { subst s body. cbn [append]. f_equal. f_equal.
    rewrite app_assoc. reflexivity. }
  assert (Hl : len pre + 1 + len mid + 1 = len pre + len body).
  { subst body. rewrite len_cons, len_app, len_cons.
    change (len EmptyString) with 0. lia. }
  rewrite Hs, Hl. apply slice_middle.
Qed.

(** A text that passes the guard has a first opening brace and, after it, a
    last closing brace. *)
Lemma has_span_split (s : string) :
  has_span s = true ->
  exists pre mid post,
    s = pre ++ String open_brace (mid ++ String close_brace post) /\
    find pre open_brace = -1 /\ rfind post close_brace = -1.
Proof.
  unfold has_span. intros H.
  apply andb_prop in H as [H Hgt]. apply andb_prop in H as [Hf _].
  apply negb_true_iff, Z.eqb_neq in Hf. apply Z.gtb_lt in Hgt.
  destruct (find_split s open_brace Hf) as (pre & rest & Hs & Hpre & Hlen).
  assert (Hr : rfind rest close_brace <> -1).
  { intros E.
    assert (E' : rfind (String open_brace rest) close_brace = -1)
      by (cbn [rfind]; rewrite E; reflexivity).
    rewrite Hs, rfind_app, E', Z.eqb_refl in Hgt.
    rewrite find_first in Hgt by exact Hpre.
    pose proof (len_nonneg pre).
    destruct (rfind_range pre close_brace); lia. }
  destruct (rfind_split rest close_brace Hr) as (mid & post & Hrest & Hpost & _).
  exists pre, mid, post. now rewrite Hs, Hrest.
Qed.

(** The parser on a text with a brace span: the decoder decides. *)
Lemma parse_span (pre mid post : string) :
  find pre open_brace = -1 -> rfind post close_brace = -1 ->
  let s := pre ++ String open_brace (mid ++ String close_brace post) in
  parse_gpt_response w s =
  decode_span w s (String open_brace (mid ++ String close_brace EmptyString)).
Proof.
  intros Hpre Hpost s. rewrite parse_unfold. subst s.
  rewrite (has_span_true _ _ _ Hpre Hpost).
  now rewrite (span_slice _ _ _ Hpre Hpost).
Qed.

(** The parser never raises and prints at most one line, exactly when it
    returns [None]. *)
Lemma parse_returns (s : string) :
  (exists v, parse_gpt_response w s = ([], Return (Some v))) \/
  (exists d, parse_gpt_response w s = ([Printed d], Return None)).
Proof.
  rewrite parse_unfold. destruct (has_span s); [|right; eauto].
  unfold decode_span. destruct (json_loads w _) as [e|v]; [|left; eauto].
  right. destruct (exn_cls e); eauto.
Qed.

(** What the parser returns was decoded from a text that opens with a
    brace. *)
Lemma parse_some_decoded (s : string) (t : list event) (v : json) :
  parse_gpt_response w s = (t, Return (Some v)) ->
  exists mid,
    json_loads w (String open_brace (mid ++ String close_brace EmptyString))
    = inr v.
Proof.
  rewrite parse_unfold. destruct (has_span s) eqn:E; [|discriminate].
  destruct (has_span_split s E) as (pre & mid & post & -> & Hpre & Hpost).
  rewrite (span_slice _ _ _ Hpre Hpost). unfold decode_span.
  destruct (json_loads w _) as [e|v'] eqn:L.
  - destruct (exn_cls e); discriminate.
  - intros [= _ ->]. now exists mid.
Qed.

End ParserFacts.

(* ================================================================== *)
(** ** The evaluation functions *)

Section MonadFacts.

Lemma requests_app (t t' : list event) :
  requests (t ++ t') = requests t ++ requests t'.
Proof. apply filter_app. Qed.

Lemma returns_ret {A} (a : A) (P : list event -> A -> Prop) :
  P [] a -> returns_with (ret a) P.
Proof. intros H. now exists [], a. Qed.

(** The rule of sequencing. *)
Lemma returns_bind {A B} (m : M A) (f : A -> M B)
    (P : list event -> A -> Prop) (Q : list event -> B -> Prop) :
  returns_with m P ->
  (forall t a, P t a -> returns_with (f a) (fun t' b => Q (t ++ t') b)) ->
  returns_with (bind m f) Q.
Proof.
  intros (t & a & -> & HP) Hf.
  destruct (Hf t a HP) as (t' & b & E & HQ).
  exists (t ++ t'), b. split; [|exact HQ]. unfold bind. now rewrite E.
Qed.

Lemma returns_weaken {A} (m : M A) (P Q : list event -> A -> Prop) :
  returns_with m P -> (forall t a, P t a -> Q t a) -> returns_with m Q.
Proof. intros (t & a & E & HP) H. exists t, a. auto. Qed.

Lemma returns_print {B} (d : diag) (k : M B) (Q : list event -> B -> Prop) :
  returns_with k (fun t b => Q (Printed d :: t) b) ->
  returns_with (print d ;;; k) Q.
Proof.
  intros (t & b & -> & HQ). exists (Printed d :: t), b. split; [reflexivity|exact HQ].
Qed.

End MonadFacts.

Section EvaluatorFacts.

Variable w : World.
Variable prompts : Prompts.

(** Encoding returns, prints at most a line, sends nothing, and a URL it
    returns is not empty. *)
Lemma encode_returns (p : string) :
  returns_with (encode_image_to_data_url w p)
    (fun t o =>
       requests t = [] /\
       (o = None <-> encoding_fails w p) /\
       (forall url, o = Some url -> PyStr.truthy url = true)).
Proof.
  unfold encoding_fails, encode_image_to_data_url.
  destruct (read_bytes w p) as [e|raw].
  - assert (H : forall d, returns_with
                (print d ;;; ret (@None string))
                (fun t o => requests t = [] /\
                   (o = None <-> result (print d ;;; ret (@None string)) = Return None) /\
                   (forall url, o = Some url -> PyStr.truthy url = true))).
    { intros d. exists [Printed d], None. cbn. repeat split; auto; discriminate. }
    destruct (exn_cls e); apply H.
  - eexists [], _. split; [reflexivity|]. cbn. repeat split; try discriminate.
    intros url [= <-]. reflexivity.
Qed.

Lemma encoding_fails_iff (p : string) :
  encoding_fails w p <-> exists e, read_bytes w p = inl e.
Proof.
  unfold encoding_fails, encode_image_to_data_url.
  destruct (read_bytes w p) as [e|raw].
  - split; [eauto|]. intros _. destruct (exn_cls e); reflexivity.
  - split; [discriminate|]. intros [e E]. discriminate.
Qed.

Lemma truthy_append_l (a b : string) :
  PyStr.truthy a = true -> PyStr.truthy (a ++ b) = true.
Proof. destruct a; [discriminate|reflexivity]. Qed.

(** The shared [try] block sends one request and returns a pair with exactly
    one component that counts as true. *)
Lemma ask_model_returns (i : nat) (parts : list content_part) :
  returns_with (ask_model w i parts)
    (fun t r => exactly_one_truthy w r /\
                (forall v, fst r = Some v -> decoded_from_braces w v)).
Proof.
  unfold ask_model.
  set (req := Request _ _ _ _).
  destruct (chat_create w i req) as [e|text].
  - assert (H : forall prefix : string, PyStr.truthy prefix = true ->
       returns_with
         (emit (ApiRequest i req) ;;;
          ret (@None json, Some (prefix ++ exn_msg e)%string))
         (fun t r => exactly_one_truthy w r /\
                     (forall v, fst r = Some v -> decoded_from_braces w v))).
    { intros prefix Hp. eexists _, _. split; [reflexivity|].
      split; [|discriminate].
      right. cbn. split; [reflexivity|]. eexists. split; [reflexivity|].
      split; [now apply truthy_append_l|congruence]. }
    destruct (exn_cls e); apply H; reflexivity.
  - destruct (parse_returns w (PyStr.strip text)) as [[v E]|[d E]].
    + eexists _, _. unfold bind, emit. rewrite E. split; [reflexivity|].
      split.
      * cbn [fst snd truthy_opt]. destruct (truthy w v) eqn:T.
        -- left. auto.
        -- right. split; [exact T|]. eexists. repeat split.
      * cbn [fst]. intros v' [= <-].
        destruct (parse_some_decoded w _ _ _ E) as [mid L]. now exists mid.
    + eexists _, _. unfold bind, emit. rewrite E. split; [reflexivity|].
      split; [|discriminate]. right. cbn. split; [reflexivity|].
      eexists. repeat split; congruence.
Qed.

Lemma failure_pair (msg : string) :
  PyStr.truthy msg = true -> exactly_one_truthy w (None, Some msg).
Proof.
  intros H. right. cbn. split; [reflexivity|]. exists msg.
  repeat split; [exact H|congruence].
Qed.

(** The loop over the answer images sends nothing; it ends with an error
    message exactly when one of the images cannot be encoded. *)
Lemma append_answer_images_returns (paths : list string) :
  forall parts,
    returns_with (append_answer_images w paths parts)
      (fun t r =>
         requests t = [] /\
         (Exists (encoding_fails w) paths ->
          exists msg, r = inr msg) /\
         (forall msg, r = inr msg -> PyStr.truthy msg = true)).
Proof.
  induction paths as [|p rest IH]; intros parts; cbn [append_answer_images].
  - apply returns_ret. repeat split.
    + intros H. inversion H.
    + discriminate.
  - eapply returns_bind; [apply encode_returns|].
    intros t o (Hreq & Hfail & Hurl). destruct o as [url|].
    + rewrite (Hurl url eq_refl).
      eapply returns_weaken; [apply IH|].
      intros t' r (Hreq' & Hex & Hmsg). cbn beta.
      rewrite requests_app, Hreq, Hreq'. repeat split; auto.
      intros H. inversion H as [? ? Hp|? ? Hr]; subst; [|auto].
      apply Hfail in Hp. discriminate.
    + apply returns_ret. rewrite app_nil_r. repeat split; auto.
      * intros _. eauto.
      * intros msg [= <-]. reflexivity.
Qed.

Lemma ask_model_post (i : nat) (parts : list content_part)
    (t0 : list event) (failing : Prop) :
  ~ failing ->
  returns_with (ask_model w i parts)
    (fun t r => evaluation_post w failing (t0 ++ t) r).
Proof.
  intros N. eapply returns_weaken; [apply ask_model_returns|].
  intros t r [H D]. split; [exact H|]. split; [|exact D].
  intros F. contradiction.
Qed.

Lemma failure_post (msg : string) (t : list event) (failing : Prop) :
  PyStr.truthy msg = true -> requests t = [] ->
  evaluation_post w failing t (None, Some msg).
Proof.
  intros Hm Hr. split; [now apply failure_pair|]. split; [auto|discriminate].
Qed.

Lemma evaluate_image_q_single_a_post (i : nat) (qp ap : string) :
  returns_with (evaluate_image_q_single_a w prompts i qp ap)
    (evaluation_post w (encoding_fails w qp \/ encoding_fails w ap)).
Proof.
  unfold evaluate_image_q_single_a.
  eapply returns_bind; [apply encode_returns|].
  intros t1 q (Hr1 & Hf1 & Hu1).
  eapply returns_bind; [apply encode_returns|].
  intros t2 a (Hr2 & Hf2 & Hu2).
  assert (Hreq : requests (t1 ++ t2 ++ []) = []).
  { rewrite !requests_app, Hr1, Hr2. reflexivity. }
  destruct q as [q|], a as [a|];
    try (apply returns_ret; apply failure_post; [reflexivity|exact Hreq]).
  rewrite (Hu1 q eq_refl), (Hu2 a eq_refl). cbn [negb orb].
  eapply returns_weaken;
    [apply (ask_model_post i _ (t1 ++ t2)
              (encoding_fails w qp \/ encoding_fails w ap))|].
  - intros [F|F]; [apply Hf1 in F|apply Hf2 in F]; discriminate.
  - intros t r H. cbn beta. now rewrite List.app_assoc.
Qed.

Lemma evaluate_image_q_multiple_a_post (i : nat) (qp : string)
    (aps : list string) :
  returns_with (evaluate_image_q_multiple_a w prompts i qp aps)
    (evaluation_post w (encoding_fails w qp \/ Exists (encoding_fails w) aps)).
Proof.
  unfold evaluate_image_q_multiple_a.
  eapply returns_bind; [apply encode_returns|].
  intros t1 q (Hr1 & Hf1 & Hu1).
  destruct q as [q|].
  2:{ apply returns_ret. apply failure_post; [reflexivity|].
      now rewrite app_nil_r. }
  rewrite (Hu1 q eq_refl). cbn [negb].
  eapply returns_bind; [apply append_answer_images_returns|].
  intros t2 parts (Hr2 & Hex & Hmsg). destruct parts as [parts|msg].
  - eapply returns_weaken;
      [apply (ask_model_post i _ (t1 ++ t2)
                (encoding_fails w qp \/ Exists (encoding_fails w) aps))|].
    + intros [F|F]; [apply Hf1 in F; discriminate|].
      destruct (Hex F) as [msg E]. discriminate.
    + intros t r H. cbn beta. now rewrite List.app_assoc.
  - apply returns_ret. apply failure_post; [now apply Hmsg|].
    rewrite !requests_app, Hr1, Hr2. reflexivity.
Qed.

Lemma evaluate_text_q_single_a_post (i : nat) (qt : json) (ap : string) :
  returns_with (evaluate_text_q_single_a w prompts i qt ap)
    (evaluation_post w (encoding_fails w ap)).
Proof.
  unfold evaluate_text_q_single_a.
  eapply returns_bind; [apply encode_returns|].
  intros t1 a (Hr1 & Hf1 & Hu1).
  destruct a as [a|].
  2:{ apply returns_ret. apply failure_post; [reflexivity|].
      now rewrite app_nil_r. }
  rewrite (Hu1 a eq_refl). cbn [negb].
  apply (ask_model_post i _ t1 (encoding_fails w ap)).
  intros F. apply Hf1 in F. discriminate.
Qed.

Lemma evaluate_text_q_multiple_a_post (i : nat) (qt : json)
    (aps : list string) :
  returns_with (evaluate_text_q_multiple_a w prompts i qt aps)
    (evaluation_post w (Exists (encoding_fails w) aps)).
Proof.
  unfold evaluate_text_q_multiple_a.
  eapply returns_bind; [apply append_answer_images_returns|].
  intros t2 parts (Hr2 & Hex & Hmsg). destruct parts as [parts|msg].
  - apply (ask_model_post i _ t2 (Exists (encoding_fails w) aps)).
    intros F. destruct (Hex F) as [msg E]. discriminate.
  - apply returns_ret. apply failure_post; [now apply Hmsg|].
    now rewrite app_nil_r.
Qed.

End EvaluatorFacts.

(* ================================================================== *)
(** ** The batch loop *)

Section BatchFacts.

Variable w : World.
Variable prompts : Prompts.
Variable SCRIPT_DIR : string.
Variable args : Args.

Lemma bind_return_inv {A B} (m : M A) (f : A -> M B) (t : list event) (b : B) :
  bind m f = (t, Return b) ->
  exists t1 a t2, m = (t1, Return a) /\ f a = (t2, Return b) /\ t = t1 ++ t2.
Proof.
  destruct m as [t1 [a|e]]; cbn [bind]; [|discriminate].
  destruct (f a) as [t2 r] eqn:E. intros [= <- ->]. now exists t1, a, t2.
Qed.

Lemma print_return_inv {B} (d : diag) (k : M B) (t : list event) (b : B) :
  print d ;;; k = (t, Return b) ->
  exists t', k = (t', Return b) /\ t = Printed d :: t'.
Proof.
  intros H. apply bind_return_inv in H as (t1 & [] & t2 & E & K & ->).
  injection E as <-. now exists t2.
Qed.

(** What [main] makes of the pair of an evaluation function, when it goes on
    to append the entry. *)
Lemma record_outcome_recorded (entry : result_entry) (scores : option json)
    (err : option string) (t : list event) (o : option result_entry) :
  record_outcome w entry scores err = (t, Return o) ->
  exists e, o = Some e /\ recorded_as w entry scores err e.
Proof.
  unfold record_outcome. intros H.
  apply bind_return_inv in H as (t1 & e & t2 & E & K & ->).
  injection K as _ <-. exists e. split; [reflexivity|].
  assert (Helif : forall t1,
    truthy_str_opt err = false ->
    match scores with
    | Some sc =>
        if truthy w sc
        then match total_of w sc with
             | inr total =>
                 print (ScoresLine sc total) ;;; ret (set_scores entry sc total)
             | inl ex => raise ex
             end
        else ret (set_error_message entry NO_SCORES)
    | None => ret (set_error_message entry NO_SCORES)
    end = (t1, Return e) ->
    recorded_as w entry scores err e).
  { clear. intros t1 Herr H. destruct scores as [sc|].
    - destruct (truthy w sc) eqn:T.
      + destruct (total_of w sc) as [ex|total] eqn:S; [discriminate|].
        injection H as _ <-. now apply RecordedScores with (sc := sc).
      + injection H as _ <-. now apply RecordedNothing.
    - injection H as _ <-. now apply RecordedNothing. }
  destruct err as [msg|].
  - destruct (PyStr.truthy msg) eqn:T.
    + injection E as _ <-. now apply RecordedError.
    + apply (Helif t1); [exact T|exact E].
  - apply (Helif t1); [reflexivity|exact E].
Qed.

(** An item that is not a dict makes the loop raise. *)
Lemma process_item_not_object (i : nat) (item : json) :
  (forall members, item <> JObject members) ->
  process_item w prompts SCRIPT_DIR args i item = ([], Raise no_attribute_get).
Proof. intros H. destruct item; try reflexivity. now destruct (H members). Qed.


(** The turn of an item whose answer directory does not exist. *)
Lemma process_item_no_folder (i : nat) (members : list (string * json)) :
  truthy w (item_id members) = true ->
  truthy w (item_question members) = true ->
  isdir w (answer_folder w args members) = false ->
  process_item w prompts SCRIPT_DIR args i (JObject members) =
  ([Printed (ProcessingQuestion (item_id members));
    Printed (AnswerFolderNotFound (answer_folder w args members))],
   Return (Some (set_error_message (fresh_entry members)
                   "Answer folder not found."))).
Proof.
  intros Hid Hq Hdir. unfold process_item.
  fold (item_id members) (item_question members) (item_subject members).
  fold (answer_folder w args members).
  rewrite Hid, Hq, Hdir. reflexivity.
Qed.

(** The turn of an item whose answer directory lists no image. *)
Lemma process_item_no_images (i : nat) (members : list (string * json)) :
  truthy w (item_id members) = true ->
  truthy w (item_question members) = true ->
  isdir w (answer_folder w args members) = true ->
  listed w args members ->
  answer_files w args members = [] ->
  process_item w prompts SCRIPT_DIR args i (JObject members) =
  ([Printed (ProcessingQuestion (item_id members));
    Printed (NoAnswerImagesFound (answer_folder w args members))],
   Return (Some (set_error_message (listed_entry w args members)
                   "No answer images found."))).
Proof.
  intros Hid Hq Hdir [names Hlist] Hfiles. unfold process_item.
  fold (item_id members) (item_question members) (item_subject members).
  fold (answer_folder w args members).
  unfold listed_entry. fold (fresh_entry members).
  unfold answer_files in *. rewrite Hlist in *.
  rewrite Hid, Hq, Hdir, Hfiles. reflexivity.
Qed.

(** The turn of an item whose answer directory exists and cannot be listed
    raises what the listing raised, after the line that names the item. *)
Lemma process_item_unlisted (i : nat) (members : list (string * json))
    (ex : exn) :
  truthy w (item_id members) = true ->
  truthy w (item_question members) = true ->
  isdir w (answer_folder w args members) = true ->
  listdir w (answer_folder w args members) = inl ex ->
  process_item w prompts SCRIPT_DIR args i (JObject members) =
  ([Printed (ProcessingQuestion (item_id members))], Raise ex).
Proof.
  intros Hid Hq Hdir Hlist. unfold process_item.
  fold (item_id members) (item_question members) (item_subject members).
  fold (answer_folder w args members).
  rewrite Hid, Hq, Hdir, Hlist. reflexivity.
Qed.

(** What a turn of the loop does once the answer directory is listed: the
    listing enters only through the answer images. *)
Lemma answer_files_listed (members : list (string * json))
    (names : list string) :
  listdir w (answer_folder w args members) = inr names ->
  list_answer_images (answer_folder w args members) names
  = answer_files w args members.
Proof. intros H. unfold answer_files. now rewrite H. Qed.

Lemma returned_value {A} (m : M A) (P : list event -> A -> Prop)
    (t : list event) (a : A) :
  returns_with m P -> m = (t, Return a) -> P t a.
Proof. intros (t' & a' & E & HP) H. rewrite H in E. now injection E as <- <-. Qed.

(** Every entry that a turn of the loop appends is one of [entry_of_item]. *)
Lemma process_item_entry (i : nat) (members : list (string * json))
    (t : list event) (e : result_entry) :
  process_item w prompts SCRIPT_DIR args i (JObject members)
  = (t, Return (Some e)) ->
  truthy w (item_id members) = true /\
  truthy w (item_question members) = true /\
  entry_of_item w SCRIPT_DIR args members e.
Proof.
  unfold process_item.
  fold (item_id members) (item_question members) (item_subject members).
  fold (answer_folder w args members).
  fold (answer_files w args members).
  fold (fresh_entry members).
  fold (question_image_path w SCRIPT_DIR members).
  destruct (truthy w (item_id members)) eqn:Hid; [|discriminate].
  destruct (truthy w (item_question members)) eqn:Hq; [|discriminate].
  cbn [negb orb]. intros H. split; [reflexivity|]. split; [reflexivity|].
  apply print_return_inv in H as (t1 & H & _).
  destruct (isdir w (answer_folder w args members)) eqn:Hdir; cbn [negb] in H.
  2:{ apply print_return_inv in H as (t2 & H & _). injection H as _ <-.
      now apply EntryNoFolder. }
  destruct (listdir w (answer_folder w args members)) as [ex|names] eqn:Hlist;
    [discriminate|].
  rewrite (answer_files_listed _ _ Hlist) in H.
  fold (listed_entry w args members) in H.
  destruct (answer_files w args members) as [|first others] eqn:Hfiles.
  { apply print_return_inv in H as (t2 & H & _). injection H as _ <-.
    apply EntryNoImages; [exact Hdir|now exists names|exact Hfiles]. }
  assert (Hne : answer_files w args members <> []) by (rewrite Hfiles; discriminate).
  assert (Hclass : forall b, is_image_question (item_question members) = b ->
            classified_entry w SCRIPT_DIR args members =
            if b then set_question (listed_entry w args members) Image
                        (JString (question_image_path w SCRIPT_DIR members))
            else set_question (listed_entry w args members) Text
                   (item_question members)).
  { intros b <-. reflexivity. }
  destruct (is_image_question (item_question members)) eqn:Himg.
  - rewrite <- (Hclass true eq_refl) in H.
    destruct (isfile w (question_image_path w SCRIPT_DIR members)) eqn:Hfile;
      cbn [negb] in H.
    2:{ apply print_return_inv in H as (t2 & H & _). injection H as _ <-.
        now apply EntryNoQuestionImage. }
    apply bind_return_inv in H as (t2 & r & t3 & Hev & Hrec & _).
    apply record_outcome_recorded in Hrec as (e' & [= <-] & Hrec).
    assert (Hpost : exactly_one_truthy w r /\
                    (forall v, fst r = Some v -> decoded_from_braces w v)).
    { destruct others as [|second others].
      - apply print_return_inv in Hev as (t4 & Hev & _).
        pose proof (returned_value _ _ _ _
          (evaluate_image_q_single_a_post w prompts i _ _) Hev) as (P1 & _ & P3).
        now split.
      - apply print_return_inv in Hev as (t4 & Hev & _).
        pose proof (returned_value _ _ _ _
          (evaluate_image_q_multiple_a_post w prompts i _ _) Hev) as (P1 & _ & P3).
        now split. }
    destruct Hpost as [P1 P3]. destruct r as [scores err].
    apply EntryEvaluated with (scores := scores) (err := err); auto.
  - rewrite <- (Hclass false eq_refl) in H.
    apply bind_return_inv in H as (t2 & r & t3 & Hev & Hrec & _).
    apply record_outcome_recorded in Hrec as (e' & [= <-] & Hrec).
    assert (Hpost : exactly_one_truthy w r /\
                    (forall v, fst r = Some v -> decoded_from_braces w v)).
    { destruct others as [|second others].
      - apply print_return_inv in Hev as (t4 & Hev & _).
        pose proof (returned_value _ _ _ _
          (evaluate_text_q_single_a_post w prompts i _ _) Hev) as (P1 & _ & P3).
        now split.
      - apply print_return_inv in Hev as (t4 & Hev & _).
        pose proof (returned_value _ _ _ _
          (evaluate_text_q_multiple_a_post w prompts i _ _) Hev) as (P1 & _ & P3).
        now split. }
    destruct Hpost as [P1 P3]. destruct r as [scores err].
    apply EntryEvaluated with (scores := scores) (err := err); auto.
    intros Habs. congruence.
Qed.

(** *** The output file is written by nothing but the end of [main] *)

Lemma quiet_ret {A} (a : A) : quiet (trace (ret a)).
Proof. constructor. Qed.

Lemma quiet_raise {A} (e : exn) : quiet (trace (@raise A e)).
Proof. constructor. Qed.

Lemma quiet_emit (ev : event) : no_write ev = true -> quiet (trace (emit ev)).
Proof. intros H. repeat constructor. exact H. Qed.

Lemma quiet_print (d : diag) : quiet (trace (print d)).
Proof. now apply quiet_emit. Qed.

Lemma quiet_bind {A B} (m : M A) (f : A -> M B) :
  quiet (trace m) -> (forall a, quiet (trace (f a))) ->
  quiet (trace (bind m f)).
Proof.
  destruct m as [t [a|e]]; cbn [bind trace fst]; intros Hm Hf; [|exact Hm].
  specialize (Hf a). destruct (f a) as [t' r]. cbn [trace fst] in *.
  unfold quiet in *. apply Forall_app. now split.
Qed.

Create HintDb quiet.
#[local] Hint Resolve quiet_ret quiet_raise quiet_print : quiet.

(** Splits a computation along its binds, branches and matches. *)
Ltac quiet_steps :=
  repeat first
    [ apply quiet_ret
    | apply quiet_raise
    | apply quiet_print
    | apply quiet_emit; reflexivity
    | apply quiet_bind; [|intros]
    | match goal with
      | |- quiet (trace (match ?x with _ => _ end)) => destruct x
      | |- quiet (trace (let (_, _) := ?x in _)) => destruct x
      end
    | solve [auto with quiet] ].

Lemma quiet_encode (p : string) : quiet (trace (encode_image_to_data_url w p)).
Proof. unfold encode_image_to_data_url. quiet_steps. Qed.

Lemma quiet_parse (s : string) : quiet (trace (parse_gpt_response w s)).
Proof. unfold parse_gpt_response. quiet_steps. Qed.

#[local] Hint Resolve quiet_encode quiet_parse : quiet.

Lemma quiet_ask_model (i : nat) (parts : list content_part) :
  quiet (trace (ask_model w i parts)).
Proof. unfold ask_model. quiet_steps. Qed.

Lemma quiet_append_answer_images (paths : list string) :
  forall parts, quiet (trace (append_answer_images w paths parts)).
Proof.
  induction paths as [|p rest IH]; intros parts; cbn [append_answer_images];
    quiet_steps.
Qed.

#[local] Hint Resolve quiet_ask_model quiet_append_answer_images : quiet.

Lemma quiet_evaluate_image_q_single_a (i : nat) (qp ap : string) :
  quiet (trace (evaluate_image_q_single_a w prompts i qp ap)).
Proof. unfold evaluate_image_q_single_a. quiet_steps. Qed.

Lemma quiet_evaluate_image_q_multiple_a (i : nat) (qp : string)
    (aps : list string) :
  quiet (trace (evaluate_image_q_multiple_a w prompts i qp aps)).
Proof. unfold evaluate_image_q_multiple_a. quiet_steps. Qed.

Lemma quiet_evaluate_text_q_single_a (i : nat) (qt : json) (ap : string) :
  quiet (trace (evaluate_text_q_single_a w prompts i qt ap)).
Proof. unfold evaluate_text_q_single_a. quiet_steps. Qed.

Lemma quiet_evaluate_text_q_multiple_a (i : nat) (qt : json)
    (aps : list string) :
  quiet (trace (evaluate_text_q_multiple_a w prompts i qt aps)).
Proof. unfold evaluate_text_q_multiple_a. quiet_steps. Qed.

Lemma quiet_record_outcome (entry : result_entry) (scores : option json)
    (err : option string) :
  quiet (trace (record_outcome w entry scores err)).
Proof. unfold record_outcome. quiet_steps. Qed.

#[local] Hint Resolve quiet_evaluate_image_q_single_a
  quiet_evaluate_image_q_multiple_a quiet_evaluate_text_q_single_a
  quiet_evaluate_text_q_multiple_a quiet_record_outcome : quiet.

Lemma quiet_process_item (i : nat) (item : json) :
  quiet (trace (process_item w prompts SCRIPT_DIR args i item)).
Proof. unfold process_item. quiet_steps. Qed.

Lemma quiet_process_items (items : list json) :
  forall i acc,
    quiet (trace (process_items w prompts SCRIPT_DIR args i items acc)).
Proof.
  induction items as [|item rest IH]; intros i acc; cbn [process_items].
  - apply quiet_ret.
  - apply quiet_bind; [apply quiet_process_item|]. intros r. apply IH.
Qed.

Lemma quiet_not_written (t : list event) (path : string)
    (results : list result_entry) :
  quiet t -> ~ In (WroteJson path results) t.
Proof.
  intros Hq Hin. unfold quiet in Hq. rewrite Forall_forall in Hq.
  specialize (Hq _ Hin). discriminate.
Qed.

(** *** The loop goes on after every turn that returns *)


(** A turn that raises ends the loop with its exception. *)
Lemma process_items_abort (i : nat) (item : json) (rest : list json)
    (acc : list result_entry) (t : list event) (ex : exn) :
  process_item w prompts SCRIPT_DIR args i item = (t, Raise ex) ->
  process_items w prompts SCRIPT_DIR args i (item :: rest) acc = (t, Raise ex).
Proof. intros H. cbn [process_items]. now rewrite H. Qed.

(** A property of every appended entry is a property of the results. *)
Lemma process_items_results (P : result_entry -> Prop) (items : list json) :
  (forall i item t e,
      In item items ->
      process_item w prompts SCRIPT_DIR args i item = (t, Return (Some e)) ->
      P e) ->
  forall i acc t results,
    Forall P acc ->
    process_items w prompts SCRIPT_DIR args i items acc = (t, Return results) ->
    Forall P results.
Proof.
  induction items as [|item rest IH]; intros Hitem i acc t results Hacc H.
  - injection H as _ <-. exact Hacc.
  - cbn [process_items] in H.
    apply bind_return_inv in H as (t1 & r & t2 & Hone & Hrest & _).
    eapply IH; [| |exact Hrest].
    + intros j it tj ej Hin. apply Hitem. now right.
    + destruct r as [e|]; [|exact Hacc].
      apply Forall_app. split; [exact Hacc|]. constructor; [|constructor].
      eapply Hitem; [now left|exact Hone].
Qed.

(** *** [main] *)

(** The five ways of the saving step. *)
Lemma save_results_cases (path : string) (results : list result_entry) :
  save_results w path results =
  match open_for_writing w path with
  | Some e =>
      if is_OSError (exn_cls e)
      then ([Printed (ErrorSavingResults path e)], Return tt)
      else ([], Raise e)
  | None =>
      match dump_json_file w path results with
      | None =>
          ([OpenedForWriting path; WroteJson path results;
            Printed (ResultsSaved path)], Return tt)
      | Some e =>
          if is_OSError (exn_cls e)
          then ([OpenedForWriting path; Printed (ErrorSavingResults path e)],
                Return tt)
          else ([OpenedForWriting path], Raise e)
      end
  end.
Proof.
  unfold save_results.
  destruct (open_for_writing w path) as [e|].
  - now destruct (is_OSError (exn_cls e)).
  - destruct (dump_json_file w path results) as [e|]; [|reflexivity].
    now destruct (is_OSError (exn_cls e)).
Qed.

(** The saving step sends no request. *)
Lemma save_results_no_request (path : string) (results : list result_entry) :
  requests (trace (save_results w path results)) = [].
Proof.
  rewrite save_results_cases.
  destruct (open_for_writing w path) as [e|];
    [destruct (is_OSError (exn_cls e))|
     destruct (dump_json_file w path results) as [e|];
       [destruct (is_OSError (exn_cls e))|]];
    reflexivity.
Qed.

(** What the saving step writes in full is what it was given. *)
Lemma save_results_written (path : string) (all_results : list result_entry)
    (path' : string) (results : list result_entry) :
  In (WroteJson path' results) (trace (save_results w path all_results)) ->
  all_results = results /\ path' = path.
Proof.
  rewrite save_results_cases.
  destruct (open_for_writing w path) as [e|];
    [destruct (is_OSError (exn_cls e))|
     destruct (dump_json_file w path all_results) as [e|];
       [destruct (is_OSError (exn_cls e))|]];
    cbn; intros H; intuition (try discriminate);
    match goal with E : WroteJson _ _ = WroteJson _ _ |- _ =>
      now injection E end.
Qed.

(** The output file is written once, with the results of a loop that ran to
    its end. *)
Lemma main_wrote (path : string) (results : list result_entry) :
  In (WroteJson path results) (trace (main w prompts SCRIPT_DIR args)) ->
  exists data items t,
    load_json_file w (questions_file args) = inr data /\
    py_iter data = inr items /\
    process_items w prompts SCRIPT_DIR args 0 items [] = (t, Return results).
Proof.
  unfold main.
  destruct (load_json_file w (questions_file args)) as [e|data] eqn:Hload.
  { destruct (exn_cls e); cbn; intros H; intuition discriminate. }
  destruct (py_iter data) as [e|items] eqn:Hiter; [intros []|].
  intros H. exists data, items.
  pose proof (quiet_process_items items 0 []) as Hq.
  destruct (process_items w prompts SCRIPT_DIR args 0 items [])
    as [t [all_results|ex]]; cbn [bind trace fst] in H, Hq.
  2:{ now apply quiet_not_written in H. }
  exists t. split; [first [assumption|reflexivity]|].
  split; [first [assumption|reflexivity]|].
  enough (all_results = results) by now subst.
  destruct (save_results w _ all_results) as [t' out] eqn:Hsave.
  match type of Hsave with
  | save_results _ ?p _ = _ =>
      pose proof (save_results_written p all_results path results) as Hs
  end.
  rewrite Hsave in Hs. cbn [trace fst] in *.
  apply in_app_or in H as [H|H].
  - now apply quiet_not_written in H.
  - now apply Hs.
Qed.

(** *** The fields of the entries *)

Lemma classified_entry_fields (members : list (string * json)) :
  let c := classified_entry w SCRIPT_DIR args members in
  category_scores c = None /\ total_score c = JInt 0 /\
  error_message c = None /\
  answer_image_paths c = answer_files w args members /\
  num_answer_images c = Z.of_nat (List.length (answer_files w args members)) /\
  question_type c =
    Some (if is_image_question (item_question members) then Image else Text).
Proof.
  unfold classified_entry.
  destruct (is_image_question (item_question members)); cbn; repeat split.
Qed.

(** Recording an outcome leaves the question and the answer images alone. *)
Lemma recorded_as_frame (entry e : result_entry) (scores : option json)
    (err : option string) :
  recorded_as w entry scores err e ->
  question_id e = question_id entry /\
  question_raw e = question_raw entry /\
  question_type e = question_type entry /\
  question_path_or_text e = question_path_or_text entry /\
  answer_image_paths e = answer_image_paths entry /\
  num_answer_images e = num_answer_images entry.
Proof. intros H. destruct H; cbn; repeat split. Qed.

(** Recording an outcome on an entry without scores keeps the total in step
    with the scores. *)
Lemma recorded_as_scores (entry e : result_entry) (scores : option json)
    (err : option string) :
  category_scores entry = None -> total_score entry = JInt 0 ->
  recorded_as w entry scores err e ->
  (category_scores e = None /\ total_score e = JInt 0 /\
   error_message e <> None) \/
  (exists sc, scores = Some sc /\ category_scores e = Some sc /\
              truthy w sc = true /\ total_of w sc = inr (total_score e)).
Proof.
  intros Hc Ht H. destruct H as [msg ? ?|sc total ? ? ? ?|? ?]; cbn.
  - left. repeat split; auto. discriminate.
  - right. exists sc. repeat split; auto.
  - left. repeat split; auto. discriminate.
Qed.

Lemma entry_score_invariant (members : list (string * json))
    (e : result_entry) :
  entry_of_item w SCRIPT_DIR args members e -> score_invariant w e.
Proof.
  intros H. unfold score_invariant.
  destruct (classified_entry_fields members) as (Hc & Ht & _).
  destruct H as [?|? ?|? ? ? ?|scores err e ? ? ? ? ? Hrec];
    try (cbn; first [reflexivity|exact Hc|exact Ht]).
  - cbn. rewrite Hc. exact Ht.
  - destruct (recorded_as_scores _ _ _ _ Hc Ht Hrec)
      as [(-> & -> & _)|(sc & _ & -> & _ & Hsum)]; [reflexivity|exact Hsum].
Qed.

Lemma entry_total_is_sum (members : list (string * json))
    (e : result_entry) :
  decodes_objects w ->
  entry_of_item w SCRIPT_DIR args members e -> total_is_sum_of_scores w e.
Proof.
  intros Hdec H. pose proof (entry_score_invariant _ _ H) as Hinv.
  unfold score_invariant, total_is_sum_of_scores in *.
  destruct (category_scores e) as [sc|] eqn:Hsc; [|exact Hinv].
  destruct (classified_entry_fields members) as (Hc & Ht & _).
  destruct H as [?|? ?|? ? ? ?|scores err e ? ? ? ? Hprov Hrec];
    try (cbn in Hsc; congruence).
  destruct (recorded_as_scores _ _ _ _ Hc Ht Hrec)
    as [(E & _)|(sc' & Hs & E & _)]; [congruence|].
  assert (sc' = sc) as -> by congruence.
  destruct (Hprov sc Hs) as [mid L]. destruct (Hdec _ _ L) as [ms ->].
  exists ms. split; [reflexivity|exact Hinv].
Qed.

End BatchFacts.

(* ================================================================== *)
(** ** Sorting and suffixes *)

Section SortingFacts.

Lemma ascii_compare_trans_lt (a b c : ascii) :
  Ascii.compare a b = Lt -> Ascii.compare b c = Lt -> Ascii.compare a c = Lt.
Proof.
  unfold Ascii.compare. rewrite !N.compare_lt_iff. apply N.lt_trans.
Qed.

Lemma string_compare_cons (a b : ascii) (s t : string) :
  String.compare (String a s) (String b t) =
  match Ascii.compare a b with
  | Eq => String.compare s t
  | c => c
  end.
Proof. cbn. now destruct (Ascii.compare a b). Qed.

(** The order of [str] is transitive. *)
Lemma leb_trans (x y z : string) :
  PyStr.leb x y = true -> PyStr.leb y z = true -> PyStr.leb x z = true.
Proof.
  unfold PyStr.leb, String.leb. revert y z.
  induction x as [|a x IH]; intros [|b y] [|c z]; cbn [String.compare];
    try reflexivity; try discriminate.
  fold (String.compare x y) (String.compare y z) (String.compare x z).
  destruct (Ascii.compare a b) eqn:Hab; try discriminate;
    destruct (Ascii.compare b c) eqn:Hbc; try discriminate.
  - apply Ascii.compare_eq_iff in Hab, Hbc. subst.
    assert (Ascii.compare c c = Eq) as ->
      by (unfold Ascii.compare; apply N.compare_refl).
    apply IH.
  - apply Ascii.compare_eq_iff in Hab. subst. now rewrite Hbc.
  - apply Ascii.compare_eq_iff in Hbc. subst. now rewrite Hab.
  - now rewrite (ascii_compare_trans_lt _ _ _ Hab Hbc).
Qed.

Lemma insert_sorted_perm (x : string) (l : list string) :
  Permutation (insert_sorted x l) (x :: l).
Proof.
  induction l as [|y l IH]; cbn; [reflexivity|].
  destruct (PyStr.leb x y); [reflexivity|].
  rewrite IH. apply perm_swap.
Qed.

Lemma sorted_perm (l : list string) : Permutation (sorted l) l.
Proof.
  induction l as [|x l IH]; cbn; [reflexivity|].
  rewrite insert_sorted_perm. now constructor.
Qed.

Lemma insert_sorted_ascending (x : string) (l : list string) :
  ascending l -> ascending (insert_sorted x l).
Proof.
  unfold ascending. induction l as [|y l IH]; intros H; cbn.
  - repeat constructor.
  - inversion H as [|? ? Hl Hy]; subst.
    destruct (PyStr.leb x y) eqn:E.
    + constructor; [exact H|]. constructor; [exact E|].
      rewrite Forall_forall in *. intros z Hz.
      eapply leb_trans; [exact E|now apply Hy].
    + constructor; [now apply IH|].
      assert (Hyx : PyStr.leb y x = true).
      { destruct (String.leb_total x y) as [T|T]; [|exact T].
        unfold PyStr.leb in E. congruence. }
      rewrite Forall_forall in *. intros z Hz.
      apply (Permutation_in _ (insert_sorted_perm x l)) in Hz.
      destruct Hz as [<-|Hz]; [exact Hyx|now apply Hy].
Qed.

Lemma sorted_ascending (l : list string) : ascending (sorted l).
Proof.
  induction l as [|x l IH]; cbn; [constructor|].
  now apply insert_sorted_ascending.
Qed.

Lemma prefixb_iff (p l : list ascii) :
  PyStr.prefixb p l = true <-> exists r, l = p ++ r.
Proof.
  revert l. induction p as [|a p IH]; intros l; cbn.
  - split; [eauto|reflexivity].
  - destruct l as [|b l].
    + split; [discriminate|]. intros [r E]. discriminate.
    + rewrite andb_true_iff, Ascii.eqb_eq, IH. split.
      * intros [-> [r ->]]. now exists r.
      * intros [r [= -> ->]]. eauto.
Qed.

Lemma chars_app (a b : string) :
  PyStr.chars (a ++ b) = PyStr.chars a ++ PyStr.chars b.
Proof. induction a; cbn; [reflexivity|]. now f_equal. Qed.

Lemma chars_inj (a b : string) : PyStr.chars a = PyStr.chars b -> a = b.
Proof.
  intros H. rewrite <- (string_of_list_ascii_of_string a),
    <- (string_of_list_ascii_of_string b). unfold PyStr.chars in H. now rewrite H.
Qed.

(** [s.endswith(suf)] holds exactly when [s] is some text followed by
    [suf]. *)
Lemma endswith_iff (s suf : string) :
  PyStr.endswith s suf = true <-> exists pre, s = (pre ++ suf)%string.
Proof.
  unfold PyStr.endswith. rewrite prefixb_iff. split.
  - intros [r E]. exists (PyStr.of_chars (rev r)).
    apply chars_inj. rewrite chars_app. unfold PyStr.of_chars, PyStr.chars at 2.
    rewrite list_ascii_of_string_of_list_ascii.
    apply (f_equal (@rev ascii)) in E.
    now rewrite rev_involutive, rev_app_distr, rev_involutive in E.
  - intros [pre ->]. exists (rev (PyStr.chars pre)).
    now rewrite chars_app, rev_app_distr.
Qed.

Lemma endswith_any_iff (s : string) (sufs : list string) :
  PyStr.endswith_any s sufs = true <->
  exists pre suf, In suf sufs /\ s = (pre ++ suf)%string.
Proof.
  unfold PyStr.endswith_any. rewrite existsb_exists. split.
  - intros (suf & Hin & H). apply endswith_iff in H as [pre ->]. eauto.
  - intros (pre & suf & Hin & ->). exists suf. split; [exact Hin|].
    apply endswith_iff. eauto.
Qed.

End SortingFacts.

(* ================================================================== *)
(** ** The properties of the specification *)

Section ReversedBraces.
Import PyStr PyStrFacts.
Local Open Scope string_scope.

(** A text whose closing brace comes before its opening brace does not pass
    the guard of the parser. *)
Lemma has_span_reversed (a b c : string) :
  find a open_brace = -1 -> find b open_brace = -1 ->
  rfind b close_brace = -1 -> rfind c close_brace = -1 ->
  has_span (a ++ String close_brace (b ++ String open_brace c)) = false.
Proof.
  intros Ha Hb Hb' Hc.
  assert (Hfind : find (a ++ String close_brace (b ++ String open_brace c))
                    open_brace = len a + 1 + len b).
  { replace (a ++ String close_brace (b ++ String open_brace c))
      with ((a ++ String close_brace b) ++ String open_brace c)
      by (rewrite app_assoc; reflexivity).
    rewrite find_first.
    - rewrite len_app, len_cons. lia.
    - apply find_app_none; [exact Ha|]. cbn [find]. rewrite Hb. reflexivity. }
  assert (Hrfind : rfind (a ++ String close_brace (b ++ String open_brace c))
                     close_brace = len a).
  { apply rfind_last. apply rfind_app_none; [exact Hb'|].
    cbn [rfind]. rewrite Hc. reflexivity. }
  unfold has_span. rewrite Hfind, Hrfind.
  pose proof (len_nonneg a). pose proof (len_nonneg b).
  destruct (Z.gtb_spec (len a + 1) (len a + 1 + len b)); [lia|].
  now rewrite andb_false_r.
Qed.

End ReversedBraces.

(** C2. Response parser contract. On a text with a first opening brace and,
    after it, a last closing brace, the parser returns what the decoder makes
    of the text from the one to the other, and [None] with a printed line when
    the decoder raises; on a text without such a span it returns [None] with a
    printed line; it never raises. The empty text fails; a text whose closing
    brace precedes its opening brace fails; [{"a": {"b":1}}] is parsed as the
    whole nested structure. *)
Theorem C2_parse_gpt_response_contract :
  (forall w pre mid post v,
      PyStr.find pre open_brace = -1 -> PyStr.rfind post close_brace = -1 ->
      json_loads w ("{" ++ mid ++ "}")%string = inr v ->
      parse_gpt_response w (pre ++ "{" ++ mid ++ "}" ++ post)%string
      = ([], Return (Some v))) /\
  (forall w pre mid post e,
      PyStr.find pre open_brace = -1 -> PyStr.rfind post close_brace = -1 ->
      json_loads w ("{" ++ mid ++ "}")%string = inl e ->
      exists d,
        parse_gpt_response w (pre ++ "{" ++ mid ++ "}" ++ post)%string
        = ([Printed d], Return None)) /\
  (forall w s,
      (forall pre mid post, s <> (pre ++ "{" ++ mid ++ "}" ++ post)%string) ->
      parse_gpt_response w s = ([Printed (NoJsonInResponse s)], Return None)) /\
  (forall w s,
      (exists v, parse_gpt_response w s = ([], Return (Some v))) \/
      (exists d, parse_gpt_response w s = ([Printed d], Return None))) /\
  (forall w,
      parse_gpt_response w EmptyString
      = ([Printed (NoJsonInResponse EmptyString)], Return None)) /\
  (forall w a b c,
      PyStr.find a open_brace = -1 -> PyStr.find b open_brace = -1 ->
      PyStr.rfind b close_brace = -1 -> PyStr.rfind c close_brace = -1 ->
      let s := (a ++ "}" ++ b ++ "{" ++ c)%string in
      parse_gpt_response w s = ([Printed (NoJsonInResponse s)], Return None)) /\
  parse_gpt_response (Examples.text_world EmptyString) Examples.nested_text
  = ([], Return (Some (JObject [("a", JObject [("b", JInt 1)])]))).
Proof.
  repeat apply conj.
  - intros w pre mid post v Hpre Hpost Hv.
    change (pre ++ "{" ++ mid ++ "}" ++ post)%string
      with (pre ++ String open_brace (mid ++ String close_brace post))%string.
    rewrite (parse_span w pre mid post Hpre Hpost). unfold decode_span.
    change ("{" ++ mid ++ "}")%string
      with (String open_brace (mid ++ String close_brace EmptyString)) in Hv.
    now rewrite Hv.
  - intros w pre mid post e Hpre Hpost He.
    change (pre ++ "{" ++ mid ++ "}" ++ post)%string
      with (pre ++ String open_brace (mid ++ String close_brace post))%string.
    rewrite (parse_span w pre mid post Hpre Hpost). unfold decode_span.
    change ("{" ++ mid ++ "}")%string
      with (String open_brace (mid ++ String close_brace EmptyString)) in He.
    rewrite He. destruct (exn_cls e); eauto.
  - intros w s Hno. rewrite parse_unfold.
    destruct (has_span s) eqn:E; [|reflexivity].
    destruct (has_span_split s E) as (pre & mid & post & Hs & _).
    now destruct (Hno pre mid post).
  - intros w s. apply parse_returns.
  - intros w. reflexivity.
  - intros w a b c Ha Hb Hb' Hc s. rewrite parse_unfold.
    subst s.
    change (a ++ "}" ++ b ++ "{" ++ c)%string
      with (a ++ String close_brace (b ++ String open_brace c))%string.
    now rewrite (has_span_reversed a b c Ha Hb Hb' Hc).
  - vm_compute. reflexivity.
Qed.

(** The reply of the scenario of the specification is parsed to its five
    scores. *)
Lemma C2_witness :
  parse_gpt_response (Examples.text_world EmptyString) Examples.scores_reply
  = ([], Return (Some (JObject [("1", JInt 3); ("2", JInt 4); ("3", JInt 2);
                                ("4", JInt 5); ("5", JInt 1)]))).
Proof.
  apply (proj1 C2_parse_gpt_response_contract
           (Examples.text_world EmptyString)
           "Here are the scores: "%string
           (Examples.q ++ "1" ++ Examples.q ++ ":3," ++ Examples.q ++ "2"
              ++ Examples.q ++ ":4," ++ Examples.q ++ "3" ++ Examples.q ++ ":2,"
              ++ Examples.q ++ "4" ++ Examples.q ++ ":5," ++ Examples.q ++ "5"
              ++ Examples.q ++ ":1")%string
           " thanks"%string).
  - reflexivity.
  - reflexivity.
  - vm_compute. reflexivity.
Defined.

(** The reference decoder returns a dict for every text that opens with a
    brace. *)
Lemma read_members_object (fuel : nat) :
  forall l acc v rest,
    Decoder.read_members fuel l acc = Some (v, rest) ->
    exists members, v = JObject members.
Proof.
  induction fuel as [|fuel IH]; intros l acc v rest; [discriminate|].
  cbn [Decoder.read_members].
  repeat match goal with
         | |- context [match ?x with _ => _ end] =>
             lazymatch x with
             | Decoder.read_members _ _ _ => fail
             | _ => destruct x eqn:?
             end
         end;
    try discriminate;
    first [ now apply IH | intros [= <- _]; eauto ].
Qed.

Lemma reference_decoder_objects (s : string) (v : json) :
  Decoder.loads (String open_brace s) = inr v ->
  exists members, v = JObject members.
Proof.
  unfold Decoder.loads. cbn [PyStr.chars list_ascii_of_string List.length].
  set (l := list_ascii_of_string s).
  set (fuel := S (List.length l)).
  destruct (Decoder.read_value (S fuel) (open_brace :: l)) as [[v' rest]|] eqn:E;
    [|discriminate].
  destruct (Decoder.skip_ws rest); [|discriminate]. intros [= <-].
  cbn [Decoder.read_value] in E.
  change (Decoder.skip_ws (open_brace :: l)) with (open_brace :: l) in E.
  cbv beta iota in E.
  destruct (Decoder.skip_ws l) as [|c rest'] eqn:W.
  - now apply read_members_object in E.
  - unfold open_brace in E. cbv beta iota in E.
    destruct c as [[] [] [] [] [] [] [] []];
      first [ injection E as <- _; eauto
            | now apply read_members_object in E ].
Qed.

Lemma examples_decode_objects files dirs reply dataset :
  decodes_objects (Examples.world files dirs reply dataset).
Proof. intros s v. apply reference_decoder_objects. Qed.

(** C3, as the specification states it, fails on the reply [{}]: the decoder
    returns the empty dict, which counts as false, and the function returns
    that dict together with an error message, so that neither component is
    [None]. *)
Lemma C3_counterexample :
  result (evaluate_text_q_single_a (Examples.text_world "{}") Examples.prompts
            0 (JString "What is 7x8?") "/app/data/q1/a.png")
  = Return (Some (JObject []), Some PARSE_FAILED) /\
  ~ exactly_one_non_null (Some (JObject []), Some PARSE_FAILED).
Proof.
  split; [vm_compute; reflexivity|].
  intros [[_ H]|[H _]]; discriminate.
Qed.

Lemma evaluation_post_failed (w : World) (failing : Prop) (t : list event)
    (r : option json * option string) :
  failing -> evaluation_post w failing t r -> failed_before_request t r.
Proof.
  intros F (Hone & Hfail & _). destruct (Hfail F) as [Hreq Hnone].
  repeat split; auto.
  destruct Hone as [[Ht _]|[_ (msg & Hmsg & _)]]; [|eauto].
  rewrite Hnone in Ht. discriminate.
Qed.

(** C8. In each of the four evaluation functions, when the question image or
    one of the answer images cannot be encoded, the function returns [None]
    for the scores with an error message, and its trace holds no request to
    the model. *)
Theorem C8_encoding_failure_sends_no_request :
  forall (w : World) (prompts : Prompts) (i : nat)
         (question_image_path answer_image_path : string)
         (answer_image_paths : list string) (question_text : json),
    (encoding_fails w question_image_path \/
     encoding_fails w answer_image_path ->
     returns_with
       (evaluate_image_q_single_a w prompts i question_image_path
          answer_image_path)
       failed_before_request) /\
    (encoding_fails w question_image_path \/
     Exists (encoding_fails w) answer_image_paths ->
     returns_with
       (evaluate_image_q_multiple_a w prompts i question_image_path
          answer_image_paths)
       failed_before_request) /\
    (encoding_fails w answer_image_path ->
     returns_with
       (evaluate_text_q_single_a w prompts i question_text answer_image_path)
       failed_before_request) /\
    (Exists (encoding_fails w) answer_image_paths ->
     returns_with
       (evaluate_text_q_multiple_a w prompts i question_text
          answer_image_paths)
       failed_before_request).
Proof.
  intros. repeat apply conj; intros F.
  - eapply returns_weaken; [apply evaluate_image_q_single_a_post|].
    intros t r. now apply evaluation_post_failed.
  - eapply returns_weaken; [apply evaluate_image_q_multiple_a_post|].
    intros t r. now apply evaluation_post_failed.
  - eapply returns_weaken; [apply evaluate_text_q_single_a_post|].
    intros t r. now apply evaluation_post_failed.
  - eapply returns_weaken; [apply evaluate_text_q_multiple_a_post|].
    intros t r. now apply evaluation_post_failed.
Qed.

(** With the second of two answer images missing, and with every image
    missing, the four functions fail before any request. *)
Lemma C8_witness :
  let w := Examples.missing_figure_world in
  let answers := ["/app/data/q2/a.JPG"; "/app/data/q2/missing.png"] in
  returns_with
    (evaluate_image_q_single_a w Examples.prompts 0 "/app/fig.png"
       "/app/data/q2/a.JPG")
    failed_before_request /\
  returns_with
    (evaluate_image_q_multiple_a w Examples.prompts 0 "/app/data/q2/b.png"
       answers)
    failed_before_request /\
  returns_with
    (evaluate_text_q_single_a w Examples.prompts 0 (JString "What is 7x8?")
       "/app/data/q2/missing.png")
    failed_before_request /\
  returns_with
    (evaluate_text_q_multiple_a w Examples.prompts 0 (JString "What is 7x8?")
       answers)
    failed_before_request.
Proof.
  intros w answers.
  pose proof (C8_encoding_failure_sends_no_request w Examples.prompts 0
                "/app/fig.png" "/app/data/q2/a.JPG" answers
                (JString "What is 7x8?")) as (H1 & _ & _ & H4).
  pose proof (C8_encoding_failure_sends_no_request w Examples.prompts 0
                "/app/data/q2/b.png" "/app/data/q2/missing.png" answers
                (JString "What is 7x8?")) as (_ & H2 & H3 & _).
  assert (Hmissing : Exists (encoding_fails w) answers).
  { apply Exists_cons_tl, Exists_cons_hd. reflexivity. }
  repeat apply conj.
  - apply H1. left. reflexivity.
  - apply H2. right. exact Hmissing.
  - apply H3. reflexivity.
  - apply H4. exact Hmissing.
Defined.

Section RaiseFacts.

Variable w : World.
Variable prompts : Prompts.
Variable SCRIPT_DIR : string.
Variable args : Args.

Lemma bind_raise_inv {A B} (m : M A) (f : A -> M B) (t : list event) (ex : exn) :
  bind m f = (t, Raise ex) ->
  m = (t, Raise ex) \/
  exists t1 a t2, m = (t1, Return a) /\ f a = (t2, Raise ex) /\ t = t1 ++ t2.
Proof.
  destruct m as [t1 [a|e]]; cbn [bind].
  - destruct (f a) as [t2 r] eqn:E. intros [= <- ->]. right. now exists t1, a, t2.
  - intros [= <- <-]. now left.
Qed.

Lemma print_raise_inv {B} (d : diag) (k : M B) (t : list event) (ex : exn) :
  print d ;;; k = (t, Raise ex) -> exists t', k = (t', Raise ex).
Proof.
  intros H. apply bind_raise_inv in H as [H|(t1 & a & t2 & _ & H & _)];
    [discriminate|eauto].
Qed.

Lemma returns_never_raises {A} (m : M A) (P : list event -> A -> Prop)
    (t : list event) (ex : exn) :
  returns_with m P -> m <> (t, Raise ex).
Proof. intros (t' & a & -> & _). discriminate. Qed.

(** Recording an outcome raises only out of the sum of scores that came
    without an error. *)
Lemma record_outcome_raises (entry : result_entry) (scores : option json)
    (err : option string) (t : list event) (ex : exn) :
  record_outcome w entry scores err = (t, Raise ex) ->
  truthy_str_opt err = false /\
  exists sc,
    scores = Some sc /\ truthy w sc = true /\ total_of w sc = inl ex.
Proof.
  unfold record_outcome. intros H.
  apply bind_raise_inv in H as [H|(t1 & e & t2 & _ & H & _)]; [|discriminate].
  assert (Helif :
    match scores with
    | Some sc =>
        if truthy w sc
        then match total_of w sc with
             | inr total =>
                 print (ScoresLine sc total) ;;; ret (set_scores entry sc total)
             | inl ex => raise ex
             end
        else ret (set_error_message entry NO_SCORES)
    | None => ret (set_error_message entry NO_SCORES)
    end = (t, Raise ex) ->
    exists sc,
      scores = Some sc /\ truthy w sc = true /\ total_of w sc = inl ex).
  { clear H. destruct scores as [sc|]; [|discriminate].
    destruct (truthy w sc) eqn:T; [|discriminate].
    destruct (total_of w sc) as [ex'|total] eqn:S; [|discriminate].
    intros [= _ ->]. now exists sc. }
  destruct err as [msg|]; [|auto].
  destruct (PyStr.truthy msg) eqn:T; [discriminate|]. auto.
Qed.

(** A turn of the loop on a dict raises only out of the listing of an
    answer directory that exists, or out of the sum of the values of scores
    that the model returned in braces; every failure that an evaluation
    function reports is recorded instead. *)
Lemma process_item_raises (i : nat) (members : list (string * json))
    (t : list event) (ex : exn) :
  process_item w prompts SCRIPT_DIR args i (JObject members) = (t, Raise ex) ->
  (isdir w (answer_folder w args members) = true /\
   listdir w (answer_folder w args members) = inl ex) \/
  exists sc,
    decoded_from_braces w sc /\ truthy w sc = true /\ total_of w sc = inl ex.
Proof.
  unfold process_item.
  fold (item_id members). fold (answer_folder w args members).
  destruct (negb _ || negb _)%bool; [discriminate|]. intros H.
  apply print_raise_inv in H as [t1 H].
  destruct (isdir w (answer_folder w args members)) eqn:Hdir;
    cbn [negb] in H; [|discriminate].
  destruct (listdir w (answer_folder w args members)) as [ex'|names] eqn:Hlist.
  { injection H as _ ->. now left. }
  right.
  destruct (list_answer_images _ names) as [|first others]; [discriminate|].
  assert (Hgo : forall (m : M (option json * option string)) entry,
    returns_with m (fun _ r => forall v, fst r = Some v -> decoded_from_braces w v) ->
    (r <- m ;; record_outcome w entry (fst r) (snd r)) = (t1, Raise ex) ->
    exists sc,
      decoded_from_braces w sc /\ truthy w sc = true /\ total_of w sc = inl ex).
  { intros m entry Hm Hrun.
    apply bind_raise_inv in Hrun as [Hrun|(t2 & r & t3 & Hr & Hrec & _)].
    - now apply (returns_never_raises _ _ _ _ Hm) in Hrun.
    - apply record_outcome_raises in Hrec as (_ & sc & Hsc & Ht & Hsum).
      exists sc. repeat split; auto.
      apply (returned_value _ _ _ _ Hm Hr). exact Hsc. }
  assert (Hprint : forall d (m : M (option json * option string)) P,
    returns_with m P -> returns_with (print d ;;; m) (fun _ r => exists t', P t' r)).
  { intros d m P (t' & a & -> & HP). eexists _, a. split; [reflexivity|eauto]. }
  destruct (is_image_question _).
  - destruct (negb (isfile w _)); [discriminate|].
    eapply Hgo; [|exact H].
    destruct others.
    + eapply returns_weaken;
        [apply Hprint, (evaluate_image_q_single_a_post w prompts)|].
      intros ? r (? & _ & _ & Hd). exact Hd.
    + eapply returns_weaken;
        [apply Hprint, (evaluate_image_q_multiple_a_post w prompts)|].
      intros ? r (? & _ & _ & Hd). exact Hd.
  - eapply Hgo; [|exact H].
    destruct others.
    + eapply returns_weaken;
        [apply Hprint, (evaluate_text_q_single_a_post w prompts)|].
      intros ? r (? & _ & _ & Hd). exact Hd.
    + eapply returns_weaken;
        [apply Hprint, (evaluate_text_q_multiple_a_post w prompts)|].
      intros ? r (? & _ & _ & Hd). exact Hd.
Qed.

End RaiseFacts.

(** C4, at the input that breaks it. The dataset holds one text question with
    one answer image, and the model replies [{"1":"a"}]. The evaluation
    function returns these scores without error; [main] then sums their
    values, the sum raises [TypeError], nothing catches it, and the run ends
    there: no entry is recorded and the output file is not written. *)
Theorem C4_batch_aborts_on_text_score :
  let w := Examples.text_world Examples.text_score_reply in
  result (evaluate_text_q_single_a w Examples.prompts 0
            (JString "What is 7x8?") "/app/data/q1/a.png")
  = Return (Some (JObject [("1", JString "a")]), None) /\
  result (main w Examples.prompts Examples.SCRIPT_DIR Examples.args)
  = Raise (unsupported_operand) /\
  forallb no_write
    (trace (main w Examples.prompts Examples.SCRIPT_DIR Examples.args))
  = true.
Proof. vm_compute. repeat split. Qed.

(** The two failures of loading that [main] names end the run with one
    printed line, before any item is processed and without writing; every
    other failure of loading escapes as an exception. *)
Lemma main_load_failure (w : World) (prompts : Prompts) (SCRIPT_DIR : string)
    (args : Args) (e : exn) :
  load_json_file w (questions_file args) = inl e ->
  main w prompts SCRIPT_DIR args =
  match exn_cls e with
  | FileNotFoundError =>
      ([Printed (QuestionsFileNotFound (questions_file args))], Return tt)
  | JSONDecodeError =>
      ([Printed (QuestionsFileNotJson (questions_file args))], Return tt)
  | _ => ([], Raise e)
  end.
Proof. intros H. unfold main. rewrite H. now destruct (exn_cls e). Qed.

(** Whenever the evaluation function reports an error, the entry is recorded
    and the turn returns. *)
Lemma record_outcome_error (w : World) (entry : result_entry)
    (scores : option json) (msg : string) :
  PyStr.truthy msg = true ->
  record_outcome w entry scores (Some msg) =
  ([Printed (EvaluationError msg); Slept 1],
   Return (Some (set_error_message entry msg))).
Proof. intros H. unfold record_outcome. now rewrite H. Qed.

(** Adding up integers from an accumulator is adding their sum to it. *)
Lemma int_sum_integers (zs : list Z) :
  forall acc,
    Py.int_sum acc (map JInt zs) = Some (acc + fold_right Z.add 0 zs).
Proof.
  induction zs as [|z zs IH]; intros acc; cbn [map Py.int_sum Py.as_int fold_right].
  - f_equal. lia.
  - rewrite IH. f_equal. lia.
Qed.

(** The total that the code computes from integer scores is their sum. *)
Lemma score_invariant_integers (w : World) (e : result_entry) :
  score_invariant w e -> total_is_integer_sum e.
Proof.
  unfold score_invariant, total_is_integer_sum.
  intros H members zs Hcat Hvalues. rewrite Hcat in H.
  cbn [total_of] in H. unfold py_sum in H.
  rewrite Hvalues, int_sum_integers in H. injection H as <-.
  f_equal.
Qed.

(** C5. In the output file that [main] writes, every entry without category
    scores has total 0 and every entry with category scores has the total that
    the code computes from them; when the decoder returns a dict for every
    text in braces, as [json.loads] does, the category scores are a dict and
    the total is the sum of its values; and when these values are integers,
    as the rubric has them, the total is the integer that adding them up
    gives. *)
Theorem C5_total_score_is_sum :
  forall (w : World) (prompts : Prompts) (SCRIPT_DIR : string) (args : Args)
         (path : string) (results : list result_entry),
    In (WroteJson path results) (trace (main w prompts SCRIPT_DIR args)) ->
    Forall (fun e =>
              score_invariant w e /\
              (decodes_objects w -> total_is_sum_of_scores w e) /\
              total_is_integer_sum e)
      results.
Proof.
  intros w prompts SCRIPT_DIR args path results H.
  apply main_wrote in H as (data & items & t & _ & _ & Hrun).
  eapply process_items_results; [|constructor|exact Hrun].
  intros i item ti e _ Hitem.
  destruct item as [| | | | | |members];
    try (rewrite process_item_not_object in Hitem by discriminate;
         discriminate).
  apply process_item_entry in Hitem as (_ & _ & He).
  pose proof (entry_score_invariant _ _ _ _ _ He) as Hinv.
  split; [exact Hinv|]. split.
  - intros Hdec. eapply entry_total_is_sum; eassumption.
  - apply (score_invariant_integers w), Hinv.
Qed.

(** The run of the scenario of the specification writes one entry, whose
    category scores are 3, 4, 2, 5 and 1 and whose total is their sum, 15. *)
Lemma C5_witness :
  let w := Examples.text_world Examples.scores_reply in
  let e := recorded (process_item w Examples.prompts Examples.SCRIPT_DIR
                       Examples.args 0 (Examples.record "q1" "What is 7x8?")) in
  category_scores e
  = Some (JObject [("1", JInt 3); ("2", JInt 4); ("3", JInt 2);
                   ("4", JInt 5); ("5", JInt 1)]) /\
  total_score e = JInt (3 + 4 + 2 + 5 + 1) /\
  score_invariant w e /\ total_is_sum_of_scores w e.
Proof.
  intros w e.
  assert (Hcat : category_scores e
                 = Some (JObject [("1", JInt 3); ("2", JInt 4); ("3", JInt 2);
                                  ("4", JInt 5); ("5", JInt 1)]))
    by (vm_compute; reflexivity).
  assert (H : Forall (fun e =>
                        score_invariant w e /\
                        (decodes_objects w -> total_is_sum_of_scores w e) /\
                        total_is_integer_sum e)
                [e]).
  { apply (C5_total_score_is_sum w Examples.prompts Examples.SCRIPT_DIR
             Examples.args "/app/evaluation.json" [e]).
    vm_compute. repeat (first [left; reflexivity | right]). }
  destruct (Forall_inv H) as (Hinv & Hsum & Hint).
  split; [exact Hcat|]. split; [|split; [exact Hinv|]].
  - exact (Hint _ [3; 4; 2; 5; 1] Hcat eq_refl).
  - apply Hsum. exact (examples_decode_objects _ _ _ _).
Defined.

(** The name filter of the code keeps exactly the names with one of the five
    extensions. *)
Lemma is_answer_image_iff (f : string) :
  is_answer_image f = true <-> image_name f.
Proof. unfold is_answer_image, image_name. apply endswith_any_iff. Qed.

Lemma selects_filter (P : string -> Prop) (p : string -> bool)
    (names : list string) :
  (forall f, p f = true <-> P f) -> selects P names (filter p names).
Proof.
  intros H. induction names as [|f names IH]; cbn [filter]; [constructor|].
  destruct (p f) eqn:E.
  - apply selects_keep; [now apply H|exact IH].
  - apply selects_drop; [|exact IH]. intros HP. apply H in HP. congruence.
Qed.

Lemma selects_functional (P : string -> Prop) (names kept kept' : list string) :
  selects P names kept -> selects P names kept' -> kept = kept'.
Proof.
  intros H. revert kept'.
  induction H as [|f names kept HP _ IH|f names kept HP _ IH];
    intros kept' H'; inversion H'; subst;
    try reflexivity; try contradiction; [f_equal|]; now apply IH.
Qed.

(** C6, as the specification states it, fails for a directory that holds a
    subdirectory with the name of an image: the answer directory of [q9]
    contains one file, [a.png], and the subdirectory [sub.jpg]; the answer
    images of the entry are two, and the second is not a file. *)
Lemma C6_counterexample :
  let w := subdirectory_world in
  let e := recorded (process_item w Examples.prompts Examples.SCRIPT_DIR
                       Examples.args 0 (Examples.record "q9" "What is 7x8?")) in
  listdir w "/app/data/q9" = inr ["a.png"; "sub.jpg"] /\
  listed_files w "/app/data/q9" ["a.png"; "sub.jpg"] = ["a.png"] /\
  isdir w "/app/data/q9/sub.jpg" = true /\
  isfile w "/app/data/q9/sub.jpg" = false /\
  answer_image_paths e = ["/app/data/q9/a.png"; "/app/data/q9/sub.jpg"] /\
  num_answer_images e = 2.
Proof. vm_compute. repeat split. Qed.

(** C6 (amended). The answer images of a directory are the joined paths of
    the names in its listing, files or not, that end, whatever the case, in
    one of the five extensions: every such name is among them, nothing else
    is, they are as many as there are such names in the listing, and they
    are in ascending order. An entry of a record whose directory exists
    carries exactly this list and its length; with at least one such name
    the list is not empty. *)
Theorem C6_answer_set_sorted_images :
  forall (w : World) (folder : string) (names : list string),
    listdir w folder = inr names ->
    let files := list_answer_images folder names in
    (exists kept,
        selects image_name names kept /\
        List.length files = List.length kept /\
        Permutation files (map (Path.join folder) kept)) /\
    (forall f, In f names -> image_name f -> In (Path.join folder f) files) /\
    (forall p, In p files ->
       exists f, In f names /\ image_name f /\ p = Path.join folder f) /\
    ascending files /\
    (forall prompts SCRIPT_DIR args i members t e kept,
        process_item w prompts SCRIPT_DIR args i (JObject members)
        = (t, Return (Some e)) ->
        answer_folder w args members = folder ->
        isdir w folder = true ->
        selects image_name names kept ->
        (1 <= List.length kept)%nat ->
        answer_image_paths e = files /\
        num_answer_images e = Z.of_nat (List.length kept) /\
        files <> []).
Proof.
  intros w folder names Hlist files.
  pose proof (selects_filter image_name is_answer_image names
                is_answer_image_iff) as Hsel.
  assert (Hperm : Permutation files
                    (map (Path.join folder) (filter is_answer_image names)))
    by apply sorted_perm.
  assert (Hlen : List.length files
                 = List.length (filter is_answer_image names)).
  { rewrite (Permutation_length Hperm). apply length_map. }
  repeat apply conj.
  - exists (filter is_answer_image names). auto.
  - intros f Hin Himg. apply (Permutation_in _ (Permutation_sym Hperm)).
    apply in_map, filter_In. split; [exact Hin|].
    now apply is_answer_image_iff.
  - intros p Hp. apply (Permutation_in _ Hperm) in Hp.
    apply in_map_iff in Hp as (f & <- & Hf).
    apply filter_In in Hf as [Hin Hext].
    exists f. repeat split; [exact Hin|].
    now apply is_answer_image_iff.
  - apply sorted_ascending.
  - intros prompts SCRIPT_DIR args i members t e kept Hrun Hfolder Hdir Hkept Hn.
    rewrite (selects_functional _ _ _ _ Hkept Hsel) in *.
    assert (Hne : files <> []).
    { intros E. rewrite E in Hlen. cbn in Hlen. lia. }
    apply process_item_entry in Hrun as (_ & _ & He).
    destruct (classified_entry_fields w SCRIPT_DIR args members)
      as (_ & _ & _ & Hpaths & Hnum & _).
    assert (Hfiles : answer_files w args members = files).
    { unfold answer_files. rewrite Hfolder, Hlist. reflexivity. }
    rewrite Hfiles in *.
    destruct He as [Hd|Hd _ Hf|? ? ? ?|scores err e ? ? ? ? ? Hrec].
    + rewrite Hfolder in Hd. congruence.
    + rewrite Hfiles in Hf. contradiction.
    + cbn. rewrite Hpaths, Hnum, Hlen. auto.
    + destruct (recorded_as_frame _ _ _ _ _ Hrec) as (_ & _ & _ & _ & -> & ->).
      rewrite Hpaths, Hnum, Hlen. auto.
Qed.

(** The record of the second scenario has two answer images, listed as
    [b.png] and [a.JPG]; its entry carries them in ascending order. *)
Lemma C6_witness :
  let w := Examples.missing_figure_world in
  let e := recorded (process_item w Examples.prompts Examples.SCRIPT_DIR
                       Examples.args 0 (Examples.record "q2" "fig.png")) in
  answer_image_paths e = ["/app/data/q2/a.JPG"; "/app/data/q2/b.png"] /\
  num_answer_images e = 2.
Proof.
  intros w e.
  destruct (C6_answer_set_sorted_images w "/app/data/q2" ["b.png"; "a.JPG"]
              eq_refl)
    as (_ & _ & _ & _ & H).
  destruct (H Examples.prompts Examples.SCRIPT_DIR Examples.args 0%nat
              [("id", JString "q2"); ("question", JString "fig.png")]
              (trace (process_item w Examples.prompts Examples.SCRIPT_DIR
                        Examples.args 0 (Examples.record "q2" "fig.png")))
              e ["b.png"; "a.JPG"])
    as (Hpaths & Hnum & _).
  - vm_compute. reflexivity.
  - vm_compute. reflexivity.
  - reflexivity.
  - apply selects_keep; [exists "b", ".png"; split; [now left|reflexivity]|].
    apply selects_keep;
      [exists "a", ".jpg"; split; [right; now left|reflexivity]|].
    apply selects_nil.
  - cbn. lia.
  - split; [rewrite Hpaths|rewrite Hnum]; vm_compute; reflexivity.
Defined.



(** C9. The entry recorded for a missing answer directory, or for a directory
    that is listed and holds no image, has no question type and no question
    path or text, an empty list of answer images and 0 as their number; and
    every entry that a turn records for an item whose answer directory is
    missing or gives no answer image has these defaults. *)
Theorem C9_unanswerable_entries_keep_defaults :
  forall (w : World) (prompts : Prompts) (SCRIPT_DIR : string) (args : Args)
         (i : nat) (members : list (string * json)),
    truthy w (item_id members) = true ->
    truthy w (item_question members) = true ->
    (isdir w (answer_folder w args members) = false \/
     (listed w args members /\ answer_files w args members = []) ->
     exists t e,
       process_item w prompts SCRIPT_DIR args i (JObject members)
       = (t, Return (Some e)) /\
       question_type e = None /\ question_path_or_text e = None /\
       answer_image_paths e = [] /\ num_answer_images e = 0) /\
    (forall t e,
        process_item w prompts SCRIPT_DIR args i (JObject members)
        = (t, Return (Some e)) ->
        isdir w (answer_folder w args members) = false \/
        answer_files w args members = [] ->
        question_type e = None /\ question_path_or_text e = None /\
        answer_image_paths e = [] /\ num_answer_images e = 0).
Proof.
  intros w prompts SCRIPT_DIR args i members Hid Hq. split.
  - intros Hno.
    destruct (isdir w (answer_folder w args members)) eqn:Hdir.
    + destruct Hno as [Hno|[Hlisted Hno]]; [discriminate|].
      eexists _, _. split.
      * apply (process_item_no_images w prompts SCRIPT_DIR args i members
                 Hid Hq Hdir Hlisted Hno).
      * unfold listed_entry. rewrite Hno. repeat split.
    + eexists _, _. split.
      * apply (process_item_no_folder w prompts SCRIPT_DIR args i members
                 Hid Hq Hdir).
      * repeat split.
  - intros t e Hrun Hno.
    apply process_item_entry in Hrun as (_ & _ & He).
    destruct He as [Hd|Hd _ Hf|Hd Hf ? ?|scores err e Hd Hf ? ? ? Hrec].
    + repeat split.
    + unfold listed_entry. rewrite Hf. repeat split.
    + destruct Hno as [Hno|Hno]; [congruence|contradiction].
    + destruct Hno as [Hno|Hno]; [congruence|contradiction].
Qed.

(** The third record of the dataset of four has a directory that holds only a
    text file: its entry keeps the defaults. *)
Lemma C9_witness :
  exists t e,
    process_item Examples.mixed_world Examples.prompts Examples.SCRIPT_DIR
      Examples.args 2 (Examples.record "q3" "What is 2+2?")
    = (t, Return (Some e)) /\
    question_type e = None /\ question_path_or_text e = None /\
    answer_image_paths e = [] /\ num_answer_images e = 0.
Proof.
  apply (proj1 (C9_unanswerable_entries_keep_defaults Examples.mixed_world
                  Examples.prompts Examples.SCRIPT_DIR Examples.args 2%nat
                  [("id", JString "q3"); ("question", JString "What is 2+2?")]
                  eq_refl eq_refl)).
  right. split; [now exists ["readme.md"]|vm_compute; reflexivity].
Defined.

(** [is_image_question] holds exactly for a text that ends, whatever the case,
    in one of the three extensions of a question image. *)
Lemma is_image_question_iff (question_content : json) :
  is_image_question question_content = true <->
  exists s pre ext,
    question_content = JString s /\
    In ext [".png"; ".jpg"; ".jpeg"] /\
    PyStr.lower s = (pre ++ ext)%string.
Proof.
  split.
  - destruct question_content; try discriminate. cbn [is_image_question].
    intros H. apply endswith_any_iff in H as (pre & ext & Hin & Hs).
    now exists s, pre, ext.
  - intros (s & pre & ext & -> & Hin & Hs). cbn [is_image_question].
    apply endswith_any_iff. eauto.
Qed.

(** C1, as the specification states it, fails on the second scenario of the
    specification: the question [fig.png] names a file that does not exist,
    two answer images exist, and the entry is recorded with the question type
    [Image], where the specification says [Text]. *)
Lemma C1_counterexample :
  let w := Examples.missing_figure_world in
  let e := recorded (process_item w Examples.prompts Examples.SCRIPT_DIR
                       Examples.args 0 (Examples.record "q2" "fig.png")) in
  result (process_item w Examples.prompts Examples.SCRIPT_DIR Examples.args 0
            (Examples.record "q2" "fig.png")) = Return (Some e) /\
  isfile w "/app/fig.png" = false /\
  question_type e = Some Image /\
  error_message e = Some "Question image file not found."%string /\
  ~ modality_as_specified w Examples.SCRIPT_DIR (JString "fig.png") e.
Proof.
  vm_compute. repeat split. discriminate.
Qed.

(** C1 (amended). For a record whose answer directory exists and lists an
    image, the entry has the question type [Image] exactly when the question
    is a text that ends, whatever the case, in [.png], [.jpg] or [.jpeg], and
    [Text] otherwise, whether the file exists or not; when it does not exist
    the entry keeps [Image] and carries the error of the missing question
    image, without scores. *)
Theorem C1_modality_follows_extension :
  forall (w : World) (prompts : Prompts) (SCRIPT_DIR : string) (args : Args)
         (i : nat) (members : list (string * json)) (t : list event)
         (e : result_entry),
    process_item w prompts SCRIPT_DIR args i (JObject members)
    = (t, Return (Some e)) ->
    isdir w (answer_folder w args members) = true ->
    answer_files w args members <> [] ->
    (question_type e = Some Image <->
     exists s pre ext,
       item_question members = JString s /\
       In ext [".png"; ".jpg"; ".jpeg"] /\
       PyStr.lower s = (pre ++ ext)%string) /\
    (question_type e <> Some Image -> question_type e = Some Text) /\
    (question_type e = Some Image ->
     isfile w (question_image_path w SCRIPT_DIR members) = false ->
     error_message e = Some "Question image file not found."%string /\
     category_scores e = None).
Proof.
  intros w prompts SCRIPT_DIR args i members t e Hrun Hdir Hfiles.
  apply process_item_entry in Hrun as (_ & _ & He).
  destruct (classified_entry_fields w SCRIPT_DIR args members)
    as (Hc & _ & _ & _ & _ & Hty).
  rewrite <- is_image_question_iff.
  assert (Htype : question_type e =
                  Some (if is_image_question (item_question members)
                        then Image else Text) /\
                  (is_image_question (item_question members) = true ->
                   isfile w (question_image_path w SCRIPT_DIR members) = false ->
                   error_message e = Some "Question image file not found."%string
                   /\ category_scores e = None)).
  { destruct He as [Hd|Hd Hf|? ? ? ?|scores err e ? ? Hfile ? ? Hrec];
      try congruence.
    - cbn. rewrite Hty, Hc. auto.
    - destruct (recorded_as_frame _ _ _ _ _ Hrec) as (_ & _ & -> & _).
      split; [exact Hty|]. intros Himg Hmiss.
      rewrite (Hfile Himg) in Hmiss. discriminate. }
  destruct Htype as [Heq Hmiss]. rewrite Heq.
  destruct (is_image_question (item_question members)).
  - split; [tauto|]. split; [congruence|]. intros _. now apply Hmiss.
  - split; [split; discriminate|]. split; [reflexivity|discriminate].
Qed.

(** The record of the second scenario: its directory lists two images, its
    question ends in [.png], and its entry is of type [Image] with the error
    of the missing file. *)
Lemma C1_witness :
  let w := Examples.missing_figure_world in
  let e := recorded (process_item w Examples.prompts Examples.SCRIPT_DIR
                       Examples.args 0 (Examples.record "q2" "fig.png")) in
  question_type e = Some Image /\
  error_message e = Some "Question image file not found."%string /\
  category_scores e = None.
Proof.
  intros w e.
  destruct (C1_modality_follows_extension w Examples.prompts
              Examples.SCRIPT_DIR Examples.args 0%nat
              [("id", JString "q2"); ("question", JString "fig.png")]
              (trace (process_item w Examples.prompts Examples.SCRIPT_DIR
                        Examples.args 0 (Examples.record "q2" "fig.png")))
              e)
    as (Hiff & _ & Hmiss).
  - vm_compute. reflexivity.
  - reflexivity.
  - vm_compute. discriminate.
  - assert (Himg : question_type e = Some Image).
    { apply Hiff. exists "fig.png"%string, "fig"%string, ".png"%string.
      repeat split. left. reflexivity. }
    split; [exact Himg|]. apply Hmiss; [exact Himg|reflexivity].
Defined.




(* ================================================================== *)
(** ** Further properties: requests and their content *)

Section RequestFacts.

Variable w : World.
Variable prompts : Prompts.

Lemma url_of_some (p u : string) :
  url_of w p = Some u ->
  encode_image_to_data_url w p = ([], Return (Some u)) /\
  PyStr.truthy u = true.
Proof.
  unfold url_of, encode_image_to_data_url.
  destruct (read_bytes w p) as [e|raw].
  - destruct (exn_cls e); discriminate.
  - cbn. intros [= <-]. split; reflexivity.
Qed.

Lemma url_of_readable (p raw : string) :
  read_bytes w p = inr raw -> exists u, url_of w p = Some u.
Proof.
  intros H. unfold url_of, encode_image_to_data_url. rewrite H. cbn. eauto.
Qed.

(** When every answer image can be encoded, the loop appends their URLs in
    the order of the paths and prints nothing. *)
Lemma append_all_encoded (paths urls : list string) :
  Forall2 (fun p u => url_of w p = Some u) paths urls ->
  forall parts,
    append_answer_images w paths parts
    = ([], Return (inl (parts ++ map ImagePart urls))).
Proof.
  induction 1 as [|p u paths urls Hp _ IH]; intros parts;
    cbn [append_answer_images map].
  - now rewrite app_nil_r.
  - destruct (url_of_some p u Hp) as [E T]. rewrite E. cbn [bind].
    rewrite T, IH, <- List.app_assoc. reflexivity.
Qed.

(** The shared [try] block sends exactly one request, the one built from its
    content parts. *)
Lemma ask_model_requests (i : nat) (parts : list content_part) :
  requests (trace (ask_model w i parts)) = [ApiRequest i (request_of parts)].
Proof.
  unfold ask_model. fold (request_of parts).
  destruct (chat_create w i (request_of parts)) as [e|text].
  - destruct (exn_cls e); reflexivity.
  - destruct (parse_returns w (PyStr.strip text)) as [[v E]|[d E]];
      unfold bind, emit; rewrite E; reflexivity.
Qed.

Lemma ask_model_failure (i : nat) (parts : list content_part) (e : exn) :
  chat_create w i (request_of parts) = inl e ->
  ask_model w i parts
  = ([ApiRequest i (request_of parts)],
     Return (None, Some (api_error_message e))).
Proof.
  intros H. unfold ask_model. fold (request_of parts). rewrite H.
  unfold api_error_message. destruct (exn_cls e); reflexivity.
Qed.

(** Each evaluation function, when all its images can be encoded, is the
    shared [try] block on its payload. *)
Lemma evaluate_image_q_single_a_encoded (i : nat) (qp ap qu au : string) :
  url_of w qp = Some qu -> url_of w ap = Some au ->
  evaluate_image_q_single_a w prompts i qp ap =
  ask_model w i
    (payload prompts (image_question_parts qu) SINGLE_ANSWER_LABEL [au]
       (instruction_image_single prompts)).
Proof.
  intros Hq Ha. unfold evaluate_image_q_single_a.
  destruct (url_of_some _ _ Hq) as [-> Tq].
  destruct (url_of_some _ _ Ha) as [-> Ta].
  cbn [bind]. rewrite Tq, Ta. cbn [negb orb app].
  now destruct (ask_model w i _) as [t r].
Qed.

Lemma evaluate_image_q_multiple_a_encoded (i : nat) (qp qu : string)
    (aps aus : list string) :
  url_of w qp = Some qu ->
  Forall2 (fun p u => url_of w p = Some u) aps aus ->
  evaluate_image_q_multiple_a w prompts i qp aps =
  ask_model w i
    (payload prompts (image_question_parts qu) MULTIPLE_ANSWERS_LABEL aus
       (instruction_image_multiple prompts)).
Proof.
  intros Hq Ha. unfold evaluate_image_q_multiple_a.
  destruct (url_of_some _ _ Hq) as [-> Tq].
  cbn [bind]. rewrite Tq. cbn [negb].
  rewrite (append_all_encoded _ _ Ha). cbn [bind app].
  unfold payload, image_question_parts. cbn [app].
  now destruct (ask_model w i _) as [t r].
Qed.

Lemma evaluate_text_q_single_a_encoded (i : nat) (qt : json) (ap au : string) :
  url_of w ap = Some au ->
  evaluate_text_q_single_a w prompts i qt ap =
  ask_model w i
    (payload prompts (text_question_parts w qt) SINGLE_ANSWER_LABEL [au]
       (instruction_text_single prompts)).
Proof.
  intros Ha. unfold evaluate_text_q_single_a.
  destruct (url_of_some _ _ Ha) as [-> Ta].
  cbn [bind]. rewrite Ta. cbn [negb app].
  now destruct (ask_model w i _) as [t r].
Qed.

Lemma evaluate_text_q_multiple_a_encoded (i : nat) (qt : json)
    (aps aus : list string) :
  Forall2 (fun p u => url_of w p = Some u) aps aus ->
  evaluate_text_q_multiple_a w prompts i qt aps =
  ask_model w i
    (payload prompts (text_question_parts w qt) MULTIPLE_ANSWERS_LABEL aus
       (instruction_text_multiple prompts)).
Proof.
  intros Ha. unfold evaluate_text_q_multiple_a.
  rewrite (append_all_encoded _ _ Ha). cbn [bind app].
  unfold payload, text_question_parts. cbn [app].
  now destruct (ask_model w i _) as [t r].
Qed.

End RequestFacts.

(** The pair of the shared [try] block follows what the endpoint did with the
    request. *)
Lemma ask_model_outcome (w : World) (i : nat) (parts : list content_part) :
  returns_with (ask_model w i parts)
    (fun _ r => reply_outcome w (chat_create w i (request_of parts)) r).
Proof.
  unfold ask_model. fold (request_of parts).
  destruct (chat_create w i (request_of parts)) as [e|text].
  - pose proof (RequestFailed w e) as R. unfold api_error_message in R.
    destruct (exn_cls e); eexists _, _; (split; [reflexivity|exact R]).
  - destruct (parse_returns w (PyStr.strip text)) as [[v E]|[d E]].
    + unfold bind, emit. rewrite E. cbn [truthy_opt].
      destruct (truthy w v) eqn:T; eexists _, _; (split; [reflexivity|]).
      * apply ReplyScored; [now rewrite E|exact T].
      * apply ReplyCountsAsFalse; [now rewrite E|exact T].
    + unfold bind, emit. rewrite E. cbn [truthy_opt].
      eexists _, _. split; [reflexivity|].
      apply ReplyNotDecoded. now rewrite E.
Qed.

(** What [evaluation_post] says of a function that failed to encode. *)
Lemma evaluation_post_null_scores (w : World) (failing : Prop)
    (t : list event) (r : option json * option string) :
  failing -> evaluation_post w failing t r -> null_scores_with_message r.
Proof.
  intros F (Hone & Hfail & _). destruct (Hfail F) as [_ Hnone].
  split; [exact Hnone|].
  destruct Hone as [[Ht _]|[_ (msg & Hmsg & Htruthy & _)]]; [|eauto].
  rewrite Hnone in Ht. discriminate.
Qed.

(** C3 (amended). Each of the four evaluation functions returns, whatever the
    files and the endpoint do, a pair with exactly one component that counts
    as true. When an image it needs cannot be encoded, the scores are [None]
    and the error message is not empty. When every image is encoded, the
    pair follows what the endpoint does with the one request: an exception
    gives [None] and its message; a reply in which the parser finds nothing
    that decodes gives [None] and the message of a parse failure; a reply
    that decodes to a value counting as true gives that value and no error;
    and a reply that decodes to a value counting as false, such as the empty
    dict, gives that value, not [None], with the message of a parse
    failure. *)
Theorem C3_evaluators_return_one_truthy :
  forall (w : World) (prompts : Prompts) (i : nat)
         (question_image_path answer_image_path : string)
         (answer_image_paths : list string) (question_text : json),
    let image_single :=
      evaluate_image_q_single_a w prompts i question_image_path
        answer_image_path in
    let image_multiple :=
      evaluate_image_q_multiple_a w prompts i question_image_path
        answer_image_paths in
    let text_single :=
      evaluate_text_q_single_a w prompts i question_text answer_image_path in
    let text_multiple :=
      evaluate_text_q_multiple_a w prompts i question_text
        answer_image_paths in
    (returns_with image_single (fun _ r => exactly_one_truthy w r) /\
     returns_with image_multiple (fun _ r => exactly_one_truthy w r) /\
     returns_with text_single (fun _ r => exactly_one_truthy w r) /\
     returns_with text_multiple (fun _ r => exactly_one_truthy w r)) /\
    ((encoding_fails w question_image_path \/
      encoding_fails w answer_image_path ->
      returns_with image_single (fun _ r => null_scores_with_message r)) /\
     (encoding_fails w question_image_path \/
      Exists (encoding_fails w) answer_image_paths ->
      returns_with image_multiple (fun _ r => null_scores_with_message r)) /\
     (encoding_fails w answer_image_path ->
      returns_with text_single (fun _ r => null_scores_with_message r)) /\
     (Exists (encoding_fails w) answer_image_paths ->
      returns_with text_multiple (fun _ r => null_scores_with_message r))) /\
    (forall question_url answer_url answer_urls,
        let reply_to parts := chat_create w i (request_of parts) in
        (url_of w question_image_path = Some question_url ->
         url_of w answer_image_path = Some answer_url ->
         returns_with image_single
           (fun _ r =>
              reply_outcome w
                (reply_to (payload prompts (image_question_parts question_url)
                             SINGLE_ANSWER_LABEL [answer_url]
                             (instruction_image_single prompts))) r)) /\
        (url_of w question_image_path = Some question_url ->
         Forall2 (fun p u => url_of w p = Some u)
           answer_image_paths answer_urls ->
         returns_with image_multiple
           (fun _ r =>
              reply_outcome w
                (reply_to (payload prompts (image_question_parts question_url)
                             MULTIPLE_ANSWERS_LABEL answer_urls
                             (instruction_image_multiple prompts))) r)) /\
        (url_of w answer_image_path = Some answer_url ->
         returns_with text_single
           (fun _ r =>
              reply_outcome w
                (reply_to (payload prompts
                             (text_question_parts w question_text)
                             SINGLE_ANSWER_LABEL [answer_url]
                             (instruction_text_single prompts))) r)) /\
        (Forall2 (fun p u => url_of w p = Some u)
           answer_image_paths answer_urls ->
         returns_with text_multiple
           (fun _ r =>
              reply_outcome w
                (reply_to (payload prompts
                             (text_question_parts w question_text)
                             MULTIPLE_ANSWERS_LABEL answer_urls
                             (instruction_text_multiple prompts))) r))).
Proof.
  intros w prompts i qp ap aps qt image_single image_multiple text_single
         text_multiple.
  subst image_single image_multiple text_single text_multiple.
  split; [|split].
  - repeat apply conj.
    + eapply returns_weaken; [apply evaluate_image_q_single_a_post|].
      now intros t r [H _].
    + eapply returns_weaken; [apply evaluate_image_q_multiple_a_post|].
      now intros t r [H _].
    + eapply returns_weaken; [apply evaluate_text_q_single_a_post|].
      now intros t r [H _].
    + eapply returns_weaken; [apply evaluate_text_q_multiple_a_post|].
      now intros t r [H _].
  - repeat apply conj; intros F.
    + eapply returns_weaken; [apply evaluate_image_q_single_a_post|].
      intros t r. now apply evaluation_post_null_scores.
    + eapply returns_weaken; [apply evaluate_image_q_multiple_a_post|].
      intros t r. now apply evaluation_post_null_scores.
    + eapply returns_weaken; [apply evaluate_text_q_single_a_post|].
      intros t r. now apply evaluation_post_null_scores.
    + eapply returns_weaken; [apply evaluate_text_q_multiple_a_post|].
      intros t r. now apply evaluation_post_null_scores.
  - intros qu au aus reply_to. subst reply_to. repeat apply conj.
    + intros Hq Ha.
      rewrite (evaluate_image_q_single_a_encoded w prompts i _ _ _ _ Hq Ha).
      apply ask_model_outcome.
    + intros Hq Has.
      rewrite (evaluate_image_q_multiple_a_encoded w prompts i _ _ _ _ Hq Has).
      apply ask_model_outcome.
    + intros Ha.
      rewrite (evaluate_text_q_single_a_encoded w prompts i _ _ _ Ha).
      apply ask_model_outcome.
    + intros Has.
      rewrite (evaluate_text_q_multiple_a_encoded w prompts i _ _ _ Has).
      apply ask_model_outcome.
Qed.

(** On the reply [{}] the function for a text question and one answer image
    returns the empty dict with the message of a parse failure; when the
    endpoint raises, it returns no scores and the message of the exception;
    and when the answer image is missing, no scores and a message. *)
Lemma C3_witness :
  let path := "/app/data/q1/a.png"%string in
  let question := JString "What is 7x8?" in
  result (evaluate_text_q_single_a (Examples.text_world "{}") Examples.prompts
            0 question path)
  = Return (Some (JObject []), Some PARSE_FAILED) /\
  result (evaluate_text_q_single_a rate_limited_world Examples.prompts
            0 question path)
  = Return (None, Some "OpenAI API error: Rate limit reached"%string) /\
  returns_with
    (evaluate_text_q_single_a (Examples.text_world "{}") Examples.prompts
       0 question "/app/data/q1/missing.png")
    (fun _ r => null_scores_with_message r).
Proof.
  intros path question. repeat apply conj.
  - destruct (C3_evaluators_return_one_truthy (Examples.text_world "{}")
                Examples.prompts 0%nat EmptyString path [] question)
      as (_ & _ & H).
    destruct (H EmptyString "data:image/png;base64,"%string [])
      as (_ & _ & Hs & _).
    destruct (Hs eq_refl) as (t & r & E & R).
    rewrite E. cbn [result snd]. f_equal.
    change (reply_outcome (Examples.text_world "{}") (inr "{}"%string) r) in R.
    inversion R; subst;
      repeat match goal with
             | H : result _ = Return _ |- _ =>
                 vm_compute in H; first [discriminate H|injection H as <-]
             end;
      try reflexivity.
    match goal with H : truthy _ _ = true |- _ =>
      vm_compute in H; discriminate H end.
  - destruct (C3_evaluators_return_one_truthy rate_limited_world
                Examples.prompts 0%nat EmptyString path [] question)
      as (_ & _ & H).
    destruct (H EmptyString "data:image/png;base64,"%string [])
      as (_ & _ & Hs & _).
    destruct (Hs eq_refl) as (t & r & E & R).
    rewrite E. cbn [result snd]. f_equal.
    change (reply_outcome rate_limited_world (inl rate_limited) r) in R.
    inversion R; subst. reflexivity.
  - destruct (C3_evaluators_return_one_truthy (Examples.text_world "{}")
                Examples.prompts 0%nat EmptyString
                "/app/data/q1/missing.png" [] question)
      as (_ & (_ & _ & H & _) & _).
    apply H. reflexivity.
Defined.

(** X1. When every image it needs can be encoded, each evaluation function
    sends exactly one request, to the model [gpt-4.1] at temperature 0.0 with
    at most 250 tokens, whose content is, in this order: the rubric, the
    question (a label and the question image, or the question text), a label
    for the answers, one image per answer path in the order of the paths, and
    the closing instruction of the function. *)
Theorem X1_one_request_with_ordered_payload :
  forall (w : World) (prompts : Prompts) (i : nat) (question_text : json)
         (question_image_path answer_image_path question_url answer_url : string)
         (answer_image_paths answer_urls : list string),
    url_of w answer_image_path = Some answer_url ->
    Forall2 (fun p u => url_of w p = Some u) answer_image_paths answer_urls ->
    (url_of w question_image_path = Some question_url ->
     requests (trace (evaluate_image_q_single_a w prompts i
                        question_image_path answer_image_path))
     = [ApiRequest i
          (request_of
             (payload prompts (image_question_parts question_url)
                SINGLE_ANSWER_LABEL [answer_url]
                (instruction_image_single prompts)))] /\
     requests (trace (evaluate_image_q_multiple_a w prompts i
                        question_image_path answer_image_paths))
     = [ApiRequest i
          (request_of
             (payload prompts (image_question_parts question_url)
                MULTIPLE_ANSWERS_LABEL answer_urls
                (instruction_image_multiple prompts)))]) /\
    requests (trace (evaluate_text_q_single_a w prompts i question_text
                       answer_image_path))
    = [ApiRequest i
         (request_of
            (payload prompts (text_question_parts w question_text)
               SINGLE_ANSWER_LABEL [answer_url]
               (instruction_text_single prompts)))] /\
    requests (trace (evaluate_text_q_multiple_a w prompts i question_text
                       answer_image_paths))
    = [ApiRequest i
         (request_of
            (payload prompts (text_question_parts w question_text)
               MULTIPLE_ANSWERS_LABEL answer_urls
               (instruction_text_multiple prompts)))].
Proof.
  intros w prompts i qt qp ap qu au aps aus Ha Has. repeat apply conj.
  - intros Hq. split.
    + rewrite (evaluate_image_q_single_a_encoded w prompts i _ _ _ _ Hq Ha).
      apply ask_model_requests.
    + rewrite (evaluate_image_q_multiple_a_encoded w prompts i _ _ _ _ Hq Has).
      apply ask_model_requests.
  - rewrite (evaluate_text_q_single_a_encoded w prompts i _ _ _ Ha).
    apply ask_model_requests.
  - rewrite (evaluate_text_q_multiple_a_encoded w prompts i _ _ _ Has).
    apply ask_model_requests.
Qed.

(** With the two answer images [a.JPG] and [b.png], the request for several
    answers carries the JPEG and then the PNG. *)
Lemma X1_witness :
  let w := Examples.missing_figure_world in
  requests (trace (evaluate_text_q_multiple_a w Examples.prompts 0
                     (JString "What is 7x8?")
                     ["/app/data/q2/a.JPG"; "/app/data/q2/b.png"]))
  = [ApiRequest 0
       (request_of
          (payload Examples.prompts
             (text_question_parts w (JString "What is 7x8?"))
             MULTIPLE_ANSWERS_LABEL
             ["data:image/jpeg;base64,"; "data:image/png;base64,"]
             (instruction_text_multiple Examples.prompts)))].
Proof.
  intros w.
  apply (X1_one_request_with_ordered_payload w Examples.prompts 0%nat
           (JString "What is 7x8?") "/app/fig.png" "/app/data/q2/b.png"
           EmptyString "data:image/png;base64,"
           ["/app/data/q2/a.JPG"; "/app/data/q2/b.png"]
           ["data:image/jpeg;base64,"; "data:image/png;base64,"]%string).
  - reflexivity.
  - repeat constructor.
Defined.

(** X2. When every image can be encoded and the request raises, each
    evaluation function returns no scores and the text of the exception,
    after [OpenAI API error: ] for an error of the client library and after
    [Unexpected error during API call: ] for any other; it sends this one
    request, prints nothing and does not raise. *)
Theorem X2_request_failure_becomes_message :
  forall (w : World) (prompts : Prompts) (i : nat) (e : exn)
         (question_text : json)
         (question_image_path answer_image_path question_url answer_url : string)
         (answer_image_paths answer_urls : list string),
    (forall req, chat_create w i req = inl e) ->
    url_of w answer_image_path = Some answer_url ->
    Forall2 (fun p u => url_of w p = Some u) answer_image_paths answer_urls ->
    let failed m :=
      exists req,
        m = ([ApiRequest i req], Return (None, Some (api_error_message e))) in
    (url_of w question_image_path = Some question_url ->
     failed (evaluate_image_q_single_a w prompts i question_image_path
               answer_image_path) /\
     failed (evaluate_image_q_multiple_a w prompts i question_image_path
               answer_image_paths)) /\
    failed (evaluate_text_q_single_a w prompts i question_text
              answer_image_path) /\
    failed (evaluate_text_q_multiple_a w prompts i question_text
              answer_image_paths).
Proof.
  intros w prompts i e qt qp ap qu au aps aus Hfail Ha Has failed.
  subst failed. repeat apply conj.
  - intros Hq. split.
    + rewrite (evaluate_image_q_single_a_encoded w prompts i _ _ _ _ Hq Ha).
      eexists. apply ask_model_failure, Hfail.
    + rewrite (evaluate_image_q_multiple_a_encoded w prompts i _ _ _ _ Hq Has).
      eexists. apply ask_model_failure, Hfail.
  - rewrite (evaluate_text_q_single_a_encoded w prompts i _ _ _ Ha).
    eexists. apply ask_model_failure, Hfail.
  - rewrite (evaluate_text_q_multiple_a_encoded w prompts i _ _ _ Has).
    eexists. apply ask_model_failure, Hfail.
Qed.

(** When the client library raises on the request of a text question with
    one answer image, the pair carries the message of the exception. *)
Lemma X2_witness :
  exists req,
    evaluate_text_q_single_a rate_limited_world Examples.prompts 0
      (JString "What is 7x8?") "/app/data/q1/a.png"
    = ([ApiRequest 0 req],
       Return (None, Some "OpenAI API error: Rate limit reached"%string)).
Proof.
  apply (X2_request_failure_becomes_message rate_limited_world
           Examples.prompts 0%nat rate_limited (JString "What is 7x8?")
           "/app/fig.png" "/app/data/q1/a.png" EmptyString
           "data:image/png;base64," [] []).
  - reflexivity.
  - reflexivity.
  - constructor.
Defined.

(* ================================================================== *)
(** ** Further properties: the data URL of an image *)

Section DataUrlFacts.
Import PyStr PyStrFacts.
Local Open Scope string_scope.

Lemma append_empty_r (s : string) : s ++ "" = s.
Proof. induction s; cbn; [reflexivity|]. now f_equal. Qed.

Lemma lower_app (a b : string) : lower (a ++ b) = lower a ++ lower b.
Proof. induction a; cbn; [reflexivity|]. now f_equal. Qed.

(** The slice from a cut point to the end is the text after the cut. *)
Lemma slice_tail (pre post : string) :
  slice (pre ++ post) (len pre) (len (pre ++ post)) = post.
Proof.
  rewrite len_app. rewrite <- (append_empty_r post) at 1.
  apply slice_middle.
Qed.

(** The extension that [splitext] finds is empty or the text from the last
    dot of the path on. *)
Lemma splitext_ext_suffix (p : string) :
  Path.splitext_ext p = "" \/
  exists root e,
    p = root ++ String Path.extsep e /\
    Path.splitext_ext p = String Path.extsep e /\
    rfind e Path.extsep = -1.
Proof.
  unfold Path.splitext_ext.
  destruct (Z.gtb_spec (rfind p Path.extsep) (rfind p Path.sep)) as [Hgt|];
    [|now left].
  destruct (forallb _ _); [now left|]. right.
  assert (Hdot : rfind p Path.extsep <> -1)
    by (destruct (rfind_range p Path.sep); lia).
  destruct (rfind_split p Path.extsep Hdot) as (root & e & Hp & He & Hlen).
  exists root, e. split; [exact Hp|]. split; [|exact He].
  rewrite <- Hlen. rewrite Hp at 1 2. apply slice_tail.
Qed.

Lemma stem_not_only_dots (x : string) (c : ascii) :
  c <> Path.extsep ->
  forallb (Ascii.eqb Path.extsep) (chars (x ++ String c "")) = false.
Proof.
  intros Hc. unfold chars.
  induction x as [|a x IH]; cbn [append list_ascii_of_string forallb].
  - destruct (Ascii.eqb_spec Path.extsep c); [congruence|reflexivity].
  - rewrite IH. apply andb_false_r.
Qed.

(** The extension of a path whose last component has a character that is
    neither a dot nor a slash right before its last dot. *)
Lemma splitext_ext_named (root e : string) (c : ascii) :
  c <> Path.extsep -> c <> Path.sep ->
  rfind e Path.extsep = -1 -> rfind e Path.sep = -1 ->
  Path.splitext_ext (root ++ String c (String Path.extsep e))
  = String Path.extsep e.
Proof.
  intros Hc1 Hc2 He1 He2.
  set (p := root ++ String c (String Path.extsep e)).
  assert (Hp : p = (root ++ String c "") ++ String Path.extsep e)
    by (subst p; rewrite app_assoc; reflexivity).
  assert (Hdot : rfind p Path.extsep = len root + 1).
  { rewrite Hp, (rfind_last _ _ _ He1), len_app, len_cons. reflexivity. }
  assert (Htail : rfind (String c (String Path.extsep e)) Path.sep = -1).
  { cbn [rfind]. rewrite He2. cbn.
    destruct (Ascii.eqb_spec c Path.sep); [contradiction|reflexivity]. }
  assert (Hsep : rfind p Path.sep = rfind root Path.sep).
  { subst p. now rewrite rfind_app, Htail. }
  assert (Hstem : exists r1 r2,
             root = r1 ++ r2 /\ len r1 = rfind root Path.sep + 1).
  { destruct (Z.eq_dec (rfind root Path.sep) (-1)) as [E|E].
    - exists "", root. rewrite E. split; reflexivity.
    - destruct (rfind_split root Path.sep E) as (r1 & r2 & Hr & _ & Hl).
      exists (r1 ++ String Path.sep ""), r2. split.
      + rewrite Hr, app_assoc. reflexivity.
      + rewrite len_app, len_cons, Hl. reflexivity. }
  destruct Hstem as (r1 & r2 & Hroot & Hl).
  unfold Path.splitext_ext. fold p. rewrite Hdot, Hsep.
  pose proof (len_nonneg root).
  assert (Hlt : rfind root Path.sep < len root + 1)
    by (destruct (rfind_range root Path.sep); lia).
  destruct (Z.gtb_spec (len root + 1) (rfind root Path.sep)); [|lia].
  assert (Hmid : slice p (rfind root Path.sep + 1) (len root + 1)
                 = r2 ++ String c "").
  { rewrite <- Hl.
    replace (len root + 1) with (len r1 + len (r2 ++ String c ""))
      by (rewrite len_app, len_cons, Hroot, len_app;
          change (len "") with 0; lia).
    replace p with (r1 ++ (r2 ++ String c "") ++ String Path.extsep e)
      by (subst p; rewrite Hroot, !app_assoc; reflexivity).
    apply slice_middle. }
  rewrite Hmid, (stem_not_only_dots r2 c Hc1).
  replace (len root + 1) with (len (root ++ String c ""))
    by (rewrite len_app, len_cons; reflexivity).
  rewrite Hp. apply slice_tail.
Qed.


(** A text that ends in [.png], [.gif] or [.bmp] does not end in [.jpg] or
    [.jpeg]. *)
Lemma other_suffix_not_jpeg (s : string) :
  endswith_any s [".png"; ".gif"; ".bmp"] = true ->
  endswith_any s [".jpg"; ".jpeg"] = false.
Proof.
  unfold endswith_any. cbn [existsb]. rewrite !orb_false_r.
  intros H. apply orb_prop in H as [H|H]; [|apply orb_prop in H as [H|H]];
    unfold endswith in *; apply prefixb_iff in H as [l E];
    rewrite E; reflexivity.
Qed.

Lemma lower_char_not_sep (a : ascii) :
  In (lower_char a) ["j"; "p"; "e"; "g"]%char ->
  a <> Path.extsep /\ a <> Path.sep.
Proof.
  intros H. split; intros ->; cbn in H;
    repeat destruct H as [H|H]; try discriminate; exact H.
Qed.

Lemma rfind_absent_cons (a : ascii) (s : string) (c : ascii) :
  a <> c -> rfind s c = -1 -> rfind (String a s) c = -1.
Proof.
  intros Ha Hs. cbn [rfind]. rewrite Hs. cbn.
  destruct (Ascii.eqb_spec a c); [contradiction|reflexivity].
Qed.

(** A name that reads [jpg] or [jpeg] in lower case holds no dot and no
    slash. *)
Lemma jpeg_name_no_sep (e : string) :
  lower e = "jpg" \/ lower e = "jpeg" ->
  rfind e Path.extsep = -1 /\ rfind e Path.sep = -1.
Proof.
  intros [H|H].
  - destruct e as [|a1 [|a2 [|a3 [|a4 e]]]]; try discriminate.
    cbn [lower] in H. injection H as H1 H2 H3.
    destruct (lower_char_not_sep a1) as [? ?]; [rewrite H1; cbn; tauto|].
    destruct (lower_char_not_sep a2) as [? ?]; [rewrite H2; cbn; tauto|].
    destruct (lower_char_not_sep a3) as [? ?]; [rewrite H3; cbn; tauto|].
    split; repeat apply rfind_absent_cons; auto.
  - destruct e as [|a1 [|a2 [|a3 [|a4 [|a5 e]]]]]; try discriminate.
    cbn [lower] in H. injection H as H1 H2 H3 H4.
    destruct (lower_char_not_sep a1) as [? ?]; [rewrite H1; cbn; tauto|].
    destruct (lower_char_not_sep a2) as [? ?]; [rewrite H2; cbn; tauto|].
    destruct (lower_char_not_sep a3) as [? ?]; [rewrite H3; cbn; tauto|].
    destruct (lower_char_not_sep a4) as [? ?]; [rewrite H4; cbn; tauto|].
    split; repeat apply rfind_absent_cons; auto.
Qed.

End DataUrlFacts.

(** X3. For a file that can be read, [encode_image_to_data_url] returns,
    without printing, the text [data:<type>;base64,<data>], where the data is
    the base64 text of the bytes and the type is [image/jpeg] or [image/png].
    The type is [image/jpeg] only for a path that ends, whatever the case, in
    [.jpg] or [.jpeg]; a path that ends in [.png], [.gif] or [.bmp] gets
    [image/png]. *)
Theorem X3_jpeg_label_only_for_jpeg_names :
  forall (w : World) (image_path raw_bytes : string),
    read_bytes w image_path = inr raw_bytes ->
    exists mime,
      encode_image_to_data_url w image_path
      = ([], Return (Some ("data:" ++ mime ++ ";base64,"
                             ++ b64encode w raw_bytes)%string)) /\
      (mime = "image/jpeg"%string \/ mime = "image/png"%string) /\
      (mime = "image/jpeg"%string ->
       PyStr.endswith_any (PyStr.lower image_path) [".jpg"; ".jpeg"] = true) /\
      (PyStr.endswith_any (PyStr.lower image_path) [".png"; ".gif"; ".bmp"]
       = true ->
       mime = "image/png"%string).
Proof.
  intros w p raw Hread. unfold encode_image_to_data_url. rewrite Hread.
  destruct (String.eqb (PyStr.lower (Path.splitext_ext p)) ".jpg"
            || String.eqb (PyStr.lower (Path.splitext_ext p)) ".jpeg")%bool
    eqn:E.
  - assert (Hjpeg : PyStr.endswith_any (PyStr.lower p) [".jpg"; ".jpeg"] = true).
    { apply endswith_any_iff.
      destruct (splitext_ext_suffix p) as [Hnone|(root & e & Hp & Hext & _)].
      - rewrite Hnone in E. discriminate.
      - exists (PyStr.lower root), (PyStr.lower (Path.splitext_ext p)). split.
        + apply orb_prop in E as [E|E]; apply String.eqb_eq in E; rewrite E;
            cbn; tauto.
        + rewrite Hext, <- lower_app, <- Hp. reflexivity. }
    exists "image/jpeg"%string. repeat split; auto.
    intros Hother. apply other_suffix_not_jpeg in Hother. congruence.
  - exists "image/png"%string. repeat split; auto. discriminate.
Qed.

(** The answer image [a.png] of the first scenario is sent as a PNG. *)
Lemma X3_witness :
  exists mime,
    encode_image_to_data_url (Examples.text_world EmptyString)
      "/app/data/q1/a.png"
    = ([], Return (Some ("data:" ++ mime ++ ";base64," ++ "")%string)) /\
    (mime = "image/jpeg"%string \/ mime = "image/png"%string) /\
    (mime = "image/jpeg"%string ->
     PyStr.endswith_any (PyStr.lower "/app/data/q1/a.png") [".jpg"; ".jpeg"]
     = true) /\
    (PyStr.endswith_any (PyStr.lower "/app/data/q1/a.png")
       [".png"; ".gif"; ".bmp"] = true ->
     mime = "image/png"%string).
Proof.
  apply (X3_jpeg_label_only_for_jpeg_names (Examples.text_world EmptyString)
           "/app/data/q1/a.png" EmptyString).
  reflexivity.
Defined.

(** X4. A file that can be read and whose name reads [.jpg] or [.jpeg] in
    lower case, after a character that is neither a dot nor a slash, is
    encoded with the type [image/jpeg]. *)
Theorem X4_jpeg_label_for_named_jpeg :
  forall (w : World) (root e raw_bytes : string) (c : ascii),
    c <> "."%char -> c <> "/"%char ->
    PyStr.lower e = "jpg"%string \/ PyStr.lower e = "jpeg"%string ->
    read_bytes w (root ++ String c ("." ++ e))%string = inr raw_bytes ->
    encode_image_to_data_url w (root ++ String c ("." ++ e))%string
    = ([], Return (Some ("data:image/jpeg;base64,"
                           ++ b64encode w raw_bytes)%string)).
Proof.
  intros w root e raw c Hc1 Hc2 He Hread.
  destruct (jpeg_name_no_sep e He) as [Hdot Hsep].
  unfold encode_image_to_data_url. rewrite Hread.
  change ("." ++ e)%string with (String Path.extsep e).
  rewrite (splitext_ext_named root e c Hc1 Hc2 Hdot Hsep).
  cbn [PyStr.lower]. change (PyStr.lower_char Path.extsep) with "."%char.
  destruct He as [-> | ->]; reflexivity.
Qed.

(** The answer image [a.JPG] of the second scenario is sent as a JPEG. *)
Lemma X4_witness :
  encode_image_to_data_url Examples.missing_figure_world "/app/data/q2/a.JPG"
  = ([], Return (Some "data:image/jpeg;base64,"%string)).
Proof.
  apply (X4_jpeg_label_for_named_jpeg Examples.missing_figure_world
           "/app/data/q2/" "JPG" EmptyString "a"%char).
  - discriminate.
  - discriminate.
  - left. reflexivity.
  - reflexivity.
Defined.

(* ================================================================== *)
(** ** Further properties: how a run ends *)

Section ProvenanceFacts.

Variable w : World.
Variable prompts : Prompts.

Lemma ask_model_from_reply (i : nat) (parts : list content_part) :
  returns_with (ask_model w i parts) (from_reply w i).
Proof.
  unfold ask_model, from_reply. set (req := Request _ _ _ _).
  destruct (chat_create w i req) as [e|text] eqn:Hchat.
  - destruct (exn_cls e); eexists _, _; (split; [reflexivity|discriminate]).
  - destruct (parse_returns w (PyStr.strip text)) as [[v E]|[d E]];
      eexists _, _; unfold bind, emit; rewrite E; (split; [reflexivity|]);
      cbn [fst]; [|discriminate].
    intros v' [= <-]. now exists req, text, [].
Qed.

Lemma no_scores_from_reply (i : nat) (msg : string) :
  returns_with (ret (@None json, Some msg)) (from_reply w i).
Proof. apply returns_ret. discriminate. Qed.

Lemma append_answer_images_some (paths : list string) :
  forall parts,
    returns_with (append_answer_images w paths parts) (fun _ _ => True).
Proof.
  intros parts.
  eapply returns_weaken; [apply append_answer_images_returns|]. auto.
Qed.

Lemma encode_some (p : string) :
  returns_with (encode_image_to_data_url w p) (fun _ _ => True).
Proof. eapply returns_weaken; [apply encode_returns|]. auto. Qed.

(** Steps through the binds of an evaluation function. *)
Ltac provenance_steps i :=
  repeat first
    [ apply ask_model_from_reply
    | apply no_scores_from_reply
    | eapply returns_bind;
        [first [apply encode_some | apply append_answer_images_some]
        |intros ? ? _; unfold from_reply at 1; fold (from_reply w i)]
    | match goal with
      | |- returns_with (match ?x with _ => _ end) _ => destruct x
      | |- returns_with (if ?b then _ else _) _ => destruct b
      end ].

Lemma evaluate_image_q_single_a_from_reply (i : nat) (qp ap : string) :
  returns_with (evaluate_image_q_single_a w prompts i qp ap) (from_reply w i).
Proof. unfold evaluate_image_q_single_a. provenance_steps i. Qed.

Lemma evaluate_image_q_multiple_a_from_reply (i : nat) (qp : string)
    (aps : list string) :
  returns_with (evaluate_image_q_multiple_a w prompts i qp aps) (from_reply w i).
Proof. unfold evaluate_image_q_multiple_a. provenance_steps i. Qed.

Lemma evaluate_text_q_single_a_from_reply (i : nat) (qt : json) (ap : string) :
  returns_with (evaluate_text_q_single_a w prompts i qt ap) (from_reply w i).
Proof. unfold evaluate_text_q_single_a. provenance_steps i. Qed.

Lemma evaluate_text_q_multiple_a_from_reply (i : nat) (qt : json)
    (aps : list string) :
  returns_with (evaluate_text_q_multiple_a w prompts i qt aps) (from_reply w i).
Proof. unfold evaluate_text_q_multiple_a. provenance_steps i. Qed.

End ProvenanceFacts.

Section RunFacts.

Variable w : World.
Variable prompts : Prompts.
Variable SCRIPT_DIR : string.
Variable args : Args.

(** A turn of the loop on a dict raises only out of the listing of the
    answer directory of the item, or out of the sum of scores that the
    parser made of a reply for this very item. *)
Lemma process_item_raises_from_reply (i : nat) (members : list (string * json))
    (t : list event) (ex : exn) :
  process_item w prompts SCRIPT_DIR args i (JObject members) = (t, Raise ex) ->
  (recordable w (JObject members) = true /\
   isdir w (answer_folder w args members) = true /\
   listdir w (answer_folder w args members) = inl ex) \/
  exists sc,
    reply_scores w i sc /\ truthy w sc = true /\ total_of w sc = inl ex.
Proof.
  unfold process_item, recordable.
  fold (item_id members) (item_question members).
  fold (answer_folder w args members).
  destruct (truthy w (item_id members)); [|discriminate].
  destruct (truthy w (item_question members)); [|discriminate].
  cbn [negb orb andb]. intros H.
  apply print_raise_inv in H as [t1 H].
  destruct (isdir w (answer_folder w args members)) eqn:Hdir;
    cbn [negb] in H; [|discriminate].
  destruct (listdir w (answer_folder w args members)) as [ex'|names] eqn:Hlist.
  { injection H as _ ->. now left. }
  right.
  destruct (list_answer_images _ names) as [|first others]; [discriminate|].
  assert (Hgo : forall (m : M (option json * option string)) entry,
    returns_with m (from_reply w i) ->
    (r <- m ;; record_outcome w entry (fst r) (snd r)) = (t1, Raise ex) ->
    exists sc,
      reply_scores w i sc /\ truthy w sc = true /\ total_of w sc = inl ex).
  { intros m entry Hm Hrun.
    apply bind_raise_inv in Hrun as [Hrun|(t2 & r & t3 & Hr & Hrec & _)].
    - now apply (returns_never_raises _ _ _ _ Hm) in Hrun.
    - apply record_outcome_raises in Hrec as (_ & sc & Hsc & Ht & Hsum).
      exists sc. repeat split; auto.
      apply (returned_value _ _ _ _ Hm Hr). exact Hsc. }
  assert (Hprint : forall d (m : M (option json * option string)),
    returns_with m (from_reply w i) ->
    returns_with (print d ;;; m) (from_reply w i)).
  { intros d m (t' & a & -> & HP). eexists _, a. split; [reflexivity|exact HP]. }
  destruct (is_image_question _).
  - destruct (negb (isfile w _)); [discriminate|].
    eapply Hgo; [|exact H]. destruct others; apply Hprint.
    + apply evaluate_image_q_single_a_from_reply.
    + apply evaluate_image_q_multiple_a_from_reply.
  - eapply Hgo; [|exact H]. destruct others; apply Hprint.
    + apply evaluate_text_q_single_a_from_reply.
    + apply evaluate_text_q_multiple_a_from_reply.
Qed.

(** A turn of the loop appends nothing only for an item that is passed
    over. *)
Lemma process_item_none (i : nat) (members : list (string * json))
    (t : list event) :
  process_item w prompts SCRIPT_DIR args i (JObject members)
  = (t, Return None) ->
  recordable w (JObject members) = false.
Proof.
  unfold process_item, recordable.
  fold (item_id members) (item_question members).
  destruct (truthy w (item_id members)); [|reflexivity].
  destruct (truthy w (item_question members)); [|reflexivity].
  cbn [negb orb andb]. intros H.
  apply print_return_inv in H as (t1 & H & _).
  destruct (negb (isdir w _)).
  { apply print_return_inv in H as (t2 & H & _). discriminate. }
  destruct (listdir w _) as [ex|names]; [discriminate|].
  destruct (list_answer_images _ names) as [|first others].
  { apply print_return_inv in H as (t2 & H & _). discriminate. }
  destruct (is_image_question _).
  - destruct (negb (isfile w _)).
    { apply print_return_inv in H as (t2 & H & _). discriminate. }
    apply bind_return_inv in H as (t2 & r & t3 & _ & Hrec & _).
    apply record_outcome_recorded in Hrec as (e & He & _). discriminate.
  - apply bind_return_inv in H as (t2 & r & t3 & _ & Hrec & _).
    apply record_outcome_recorded in Hrec as (e & He & _). discriminate.
Qed.

(** An entry carries the identifier, the subject and the question of its
    item. *)
Lemma entry_identity (members : list (string * json)) (e : result_entry) :
  entry_of_item w SCRIPT_DIR args members e ->
  question_id e = item_id members /\
  subject e = item_subject members /\
  question_raw e = item_question members.
Proof.
  assert (Hc : let c := classified_entry w SCRIPT_DIR args members in
               question_id c = item_id members /\
               subject c = item_subject members /\
               question_raw c = item_question members).
  { unfold classified_entry. destruct (is_image_question _); repeat split. }
  intros H. destruct H as [?|? ?|? ? ? ?|scores err e ? ? ? ? ? Hrec];
    try (repeat split; apply Hc).
  destruct Hrec; cbn; apply Hc.
Qed.

(** What a turn of the loop that returns does to the results. *)
Lemma process_item_returned (i : nat) (item : json) (t : list event)
    (o : option result_entry) :
  process_item w prompts SCRIPT_DIR args i item = (t, Return o) ->
  (recordable w item = false /\ o = None) \/
  (recordable w item = true /\
   exists e, o = Some e /\ question_id e = id_of item /\
             subject e = subject_of item /\ question_raw e = question_of item).
Proof.
  intros H. destruct item as [| | | | | |members];
    try (rewrite process_item_not_object in H by discriminate; discriminate).
  destruct o as [e|].
  - right. apply process_item_entry in H as (Hid & Hq & He).
    split; [cbn; now rewrite Hid, Hq|].
    exists e. split; [reflexivity|]. now apply entry_identity.
  - left. split; [|reflexivity]. eapply process_item_none; exact H.
Qed.

(** The results of a loop that returns: the results so far, then one entry
    per item that is not passed over, in the order of the items. *)
Lemma process_items_returned (items : list json) :
  forall i acc t results,
    process_items w prompts SCRIPT_DIR args i items acc = (t, Return results) ->
    exists new,
      results = acc ++ new /\
      map question_id new = map id_of (filter (recordable w) items) /\
      map subject new = map subject_of (filter (recordable w) items) /\
      map question_raw new = map question_of (filter (recordable w) items).
Proof.
  induction items as [|item rest IH]; intros i acc t results H.
  - injection H as _ <-. exists []. now rewrite app_nil_r.
  - cbn [process_items] in H.
    apply bind_return_inv in H as (t1 & o & t2 & Hone & Hrest & _).
    apply IH in Hrest as (new & -> & Hids & Hsub & Hraw).
    cbn [filter].
    destruct (process_item_returned _ _ _ _ Hone)
      as [[-> ->]|[-> (e & -> & Hid & Hs & Hq)]].
    + exists new. auto.
    + exists (e :: new). rewrite <- List.app_assoc. cbn [app map].
      rewrite Hids, Hsub, Hraw, Hid, Hs, Hq. auto.
Qed.

(** A loop that raises does so in the turn of one of its items. *)
Lemma process_items_raised (items : list json) :
  forall i acc t ex,
    process_items w prompts SCRIPT_DIR args i items acc = (t, Raise ex) ->
    exists j item t',
      In item items /\
      process_item w prompts SCRIPT_DIR args j item = (t', Raise ex).
Proof.
  induction items as [|item rest IH]; intros i acc t ex H; [discriminate|].
  cbn [process_items] in H.
  apply bind_raise_inv in H as [H|(t1 & o & t2 & _ & Hrest & _)].
  - exists i, item, t. split; [now left|exact H].
  - apply IH in Hrest as (j & it & t' & Hin & Hr).
    exists j, it, t'. split; [now right|exact Hr].
Qed.

(** With answer directories that can be listed and summable replies, a loop
    over dicts returns. *)
Lemma process_items_returns (items : list json) :
  Forall (item_listed w args) items ->
  replies_summable w ->
  Forall (fun item => exists members, item = JObject members) items ->
  forall i acc,
    exists t results,
      process_items w prompts SCRIPT_DIR args i items acc = (t, Return results).
Proof.
  intros Hlisted Hsum Hobj i acc.
  destruct (process_items w prompts SCRIPT_DIR args i items acc)
    as [t [results|ex]] eqn:H; [eauto|].
  apply process_items_raised in H as (j & item & t' & Hin & Hr).
  rewrite Forall_forall in Hobj, Hlisted.
  destruct (Hobj _ Hin) as [members ->].
  apply process_item_raises_from_reply in Hr
    as [(_ & Hdir & Hlist)|(sc & Hsc & _ & Htot)].
  - destruct (Hlisted _ Hin Hdir) as [names E]. congruence.
  - destruct (Hsum _ _ Hsc) as [total E]. congruence.
Qed.

End RunFacts.

Section MainFacts.

Variable w : World.
Variable prompts : Prompts.
Variable SCRIPT_DIR : string.
Variable args : Args.

Lemma quiet_no_write (t : list event) : quiet t -> filter is_write t = [].
Proof.
  unfold quiet. induction 1 as [|ev t Hev _ IH]; [reflexivity|].
  cbn [filter]. destruct ev; try discriminate; exact IH.
Qed.

Lemma filter_is_write_app (t t' : list event) :
  filter is_write (t ++ t') = filter is_write t ++ filter is_write t'.
Proof. apply filter_app. Qed.

(** A loop that returns ran over dicts only. *)
Lemma process_items_objects (items : list json) :
  forall i acc t results,
    process_items w prompts SCRIPT_DIR args i items acc = (t, Return results) ->
    Forall is_object items.
Proof.
  induction items as [|item rest IH]; intros i acc t results H; [constructor|].
  cbn [process_items] in H.
  apply bind_return_inv in H as (t1 & o & t2 & Hone & Hrest & _).
  constructor; [|eapply IH; exact Hrest].
  destruct item; try (rewrite process_item_not_object in Hone by discriminate;
                      discriminate).
  now eexists.
Qed.

(** [main] once the questions are loaded and found iterable, in terms of the
    loop. *)
Lemma main_after_loading (data : json) (items : list json) :
  load_json_file w (questions_file args) = inr data ->
  py_iter data = inr items ->
  main w prompts SCRIPT_DIR args =
  match process_items w prompts SCRIPT_DIR args 0 items [] with
  | (t, Raise ex) => (t, Raise ex)
  | (t, Return results) =>
      let saving := save_results w (output_path SCRIPT_DIR args) results in
      (t ++ trace saving, result saving)
  end.
Proof.
  intros Hload Hiter. unfold main. rewrite Hload, Hiter.
  fold (output_path SCRIPT_DIR args).
  destruct (process_items w prompts SCRIPT_DIR args 0 items [])
    as [t [results|ex]]; [|reflexivity].
  cbn [bind]. now destruct (save_results w _ results).
Qed.

End MainFacts.

(** X5. The results that [main] writes hold one entry for each item of the
    dataset that has an identifier and a question counting as true, and none
    for the others, in the order of the dataset; each entry carries the
    identifier, the subject ([N/A] when the item has none) and the question of
    its item. *)
Theorem X5_results_follow_dataset :
  forall (w : World) (prompts : Prompts) (SCRIPT_DIR : string) (args : Args)
         (path : string) (results : list result_entry),
    In (WroteJson path results) (trace (main w prompts SCRIPT_DIR args)) ->
    exists data items,
      load_json_file w (questions_file args) = inr data /\
      py_iter data = inr items /\
      map question_id results = map id_of (filter (recordable w) items) /\
      map subject results = map subject_of (filter (recordable w) items) /\
      map question_raw results = map question_of (filter (recordable w) items).
Proof.
  intros w prompts SCRIPT_DIR args path results H.
  apply main_wrote in H as (data & items & t & Hload & Hiter & Hrun).
  exists data, items. split; [exact Hload|]. split; [exact Hiter|].
  apply process_items_returned in Hrun as (new & -> & Hrest). exact Hrest.
Qed.

(** Of the four records of the mixed dataset, the one without identifier is
    left out and the three others are written in their order. *)
Lemma X5_witness :
  let results :=
    hd [] (written (trace (main Examples.mixed_world Examples.prompts
                             Examples.SCRIPT_DIR Examples.args))) in
  map question_id results = [JString "q0"; JString "q3"; JString "q1"] /\
  map subject results = [JString "N/A"; JString "N/A"; JString "N/A"].
Proof.
  intros results.
  destruct (X5_results_follow_dataset Examples.mixed_world Examples.prompts
              Examples.SCRIPT_DIR Examples.args "/app/evaluation.json" results)
    as (data & items & Hload & Hiter & Hids & Hsub & _).
  - vm_compute. repeat (first [left; reflexivity | right]).
  - injection Hload as <-. injection Hiter as <-.
    rewrite Hids, Hsub. split; reflexivity.
Defined.

(** X6. [main] raises only in seven ways: the loading of the questions file
    raises something other than the two errors it names; the loaded value is
    not iterable; an item is not a dict; the listing of the answer directory
    of an item raises; the sum of the scores parsed from a reply raises; the
    opening of the output file raises something other than an [OSError]; or
    the writing of the results into it does. No failure of encoding, of the
    request or of the parsing is among them. *)
Theorem X6_fatal_errors :
  forall (w : World) (prompts : Prompts) (SCRIPT_DIR : string) (args : Args)
         (ex : exn),
    result (main w prompts SCRIPT_DIR args) = Raise ex ->
    (load_json_file w (questions_file args) = inl ex /\
     exn_cls ex <> FileNotFoundError /\ exn_cls ex <> JSONDecodeError) \/
    (exists data,
        load_json_file w (questions_file args) = inr data /\
        py_iter data = inl ex) \/
    (exists data items item,
        load_json_file w (questions_file args) = inr data /\
        py_iter data = inr items /\ In item items /\ ~ is_object item /\
        ex = no_attribute_get) \/
    (exists data items members,
        load_json_file w (questions_file args) = inr data /\
        py_iter data = inr items /\ In (JObject members) items /\
        recordable w (JObject members) = true /\
        isdir w (answer_folder w args members) = true /\
        listdir w (answer_folder w args members) = inl ex) \/
    (exists i sc,
        reply_scores w i sc /\ truthy w sc = true /\ total_of w sc = inl ex) \/
    (open_for_writing w (output_path SCRIPT_DIR args) = Some ex /\
     is_OSError (exn_cls ex) = false) \/
    (exists results,
        open_for_writing w (output_path SCRIPT_DIR args) = None /\
        dump_json_file w (output_path SCRIPT_DIR args) results = Some ex /\
        is_OSError (exn_cls ex) = false).
Proof.
  intros w prompts SCRIPT_DIR args ex H.
  destruct (load_json_file w (questions_file args)) as [e|data] eqn:Hload.
  { left. rewrite (main_load_failure _ _ _ _ _ Hload) in H.
    destruct (exn_cls e) eqn:C; try discriminate; injection H as <-;
      rewrite C; repeat split; discriminate. }
  right. destruct (py_iter data) as [e|items] eqn:Hiter.
  { left. exists data. split; [first [assumption|reflexivity]|].
    unfold main in H. rewrite Hload, Hiter in H. cbn in H. congruence. }
  right. rewrite (main_after_loading _ _ _ _ _ _ Hload Hiter) in H.
  destruct (process_items w prompts SCRIPT_DIR args 0 items [])
    as [t [results|e]] eqn:Hrun.
  - do 3 right. cbn [result snd] in H. rewrite save_results_cases in H.
    destruct (open_for_writing w _) as [e|] eqn:Hopen.
    + left. destruct (is_OSError (exn_cls e)) eqn:C; [discriminate|].
      injection H as <-. auto.
    + right. exists results.
      destruct (dump_json_file w _ results) as [e|]; [|discriminate].
      destruct (is_OSError (exn_cls e)) eqn:C; [discriminate|].
      injection H as <-. auto.
  - cbn in H. injection H as <-.
    apply process_items_raised in Hrun as (j & item & t' & Hin & Hr).
    destruct item as [| | | | | |members].
    7:{ right.
        apply process_item_raises_from_reply in Hr
          as [(Hrec & Hdir & Hlist)|Hsum].
        - left. exists data, items, members. repeat split;
            first [assumption|reflexivity].
        - right. left. now exists j. }
    all: left; exists data, items; eexists;
      (split; [first [assumption|reflexivity]|]);
      (split; [first [assumption|reflexivity]|]);
      (split; [exact Hin|]);
      rewrite process_item_not_object in Hr by discriminate;
      injection Hr as _ <-; (split; [|reflexivity]);
      intros [m E]; discriminate.
Qed.

(** The run on the reply [{"1":"a"}] raises in one of these ways: the
    fifth. *)
Lemma X6_witness :
  let w := Examples.text_world Examples.text_score_reply in
  let args := Examples.args in
  let ex := unsupported_operand in
  (load_json_file w (questions_file args) = inl ex /\
   exn_cls ex <> FileNotFoundError /\ exn_cls ex <> JSONDecodeError) \/
  (exists data,
      load_json_file w (questions_file args) = inr data /\
      py_iter data = inl ex) \/
  (exists data items item,
      load_json_file w (questions_file args) = inr data /\
      py_iter data = inr items /\ In item items /\ ~ is_object item /\
      ex = no_attribute_get) \/
  (exists data items members,
      load_json_file w (questions_file args) = inr data /\
      py_iter data = inr items /\ In (JObject members) items /\
      recordable w (JObject members) = true /\
      isdir w (answer_folder w args members) = true /\
      listdir w (answer_folder w args members) = inl ex) \/
  (exists i sc,
      reply_scores w i sc /\ truthy w sc = true /\ total_of w sc = inl ex) \/
  (open_for_writing w (output_path Examples.SCRIPT_DIR args) = Some ex /\
   is_OSError (exn_cls ex) = false) \/
  (exists results,
      open_for_writing w (output_path Examples.SCRIPT_DIR args) = None /\
      dump_json_file w (output_path Examples.SCRIPT_DIR args) results
      = Some ex /\
      is_OSError (exn_cls ex) = false).
Proof.
  intros w args ex.
  apply (X6_fatal_errors w Examples.prompts Examples.SCRIPT_DIR args).
  vm_compute. reflexivity.
Defined.

(** X7. [main] touches the output file, at [output_file] if it is absolute
    and under the directory of the script otherwise, in one of three ways:
    not at all; by opening it, which empties it, without writing the results
    in full, when the writing raises; or by opening it and then writing the
    results in full, and then [main] returns. A run whose loop raises does
    not open the output file. *)
Theorem X7_output_written_once_or_never :
  forall (w : World) (prompts : Prompts) (SCRIPT_DIR : string) (args : Args),
    let run := main w prompts SCRIPT_DIR args in
    let path := output_path SCRIPT_DIR args in
    (filter is_write (trace run) = [] \/
     (exists results e,
         filter is_write (trace run) = [OpenedForWriting path] /\
         dump_json_file w path results = Some e /\
         result run = if is_OSError (exn_cls e) then Return tt else Raise e) \/
     (exists results,
         filter is_write (trace run)
         = [OpenedForWriting path; WroteJson path results] /\
         result run = Return tt)) /\
    (forall data items t ex,
        load_json_file w (questions_file args) = inr data ->
        py_iter data = inr items ->
        process_items w prompts SCRIPT_DIR args 0 items [] = (t, Raise ex) ->
        run = (t, Raise ex) /\ filter is_write (trace run) = []).
Proof.
  intros w prompts SCRIPT_DIR args run path. subst run path. split.
  - destruct (load_json_file w (questions_file args)) as [e|data] eqn:Hload.
    { rewrite (main_load_failure _ _ _ _ _ Hload).
      left. destruct (exn_cls e); reflexivity. }
    destruct (py_iter data) as [e|items] eqn:Hiter.
    { unfold main. rewrite Hload, Hiter. left. reflexivity. }
    rewrite (main_after_loading _ _ _ _ _ _ Hload Hiter).
    pose proof (quiet_no_write _ (quiet_process_items w prompts SCRIPT_DIR
                                    args items 0 [])) as Hq.
    destruct (process_items w prompts SCRIPT_DIR args 0 items [])
      as [t [results|e]]; cbn [trace fst] in Hq; [|now left].
    cbn [trace fst result snd]. rewrite filter_is_write_app, Hq.
    rewrite save_results_cases.
    destruct (open_for_writing w _) as [e|];
      [left; now destruct (is_OSError (exn_cls e))|].
    right. destruct (dump_json_file w _ results) as [e|] eqn:Hdump.
    + left. exists results, e.
      destruct (is_OSError (exn_cls e)); repeat split; assumption.
    + right. now exists results.
  - intros data items t ex Hload Hiter Hrun.
    rewrite (main_after_loading _ _ _ _ _ _ Hload Hiter), Hrun.
    split; [reflexivity|]. cbn [trace fst].
    pose proof (quiet_process_items w prompts SCRIPT_DIR args items 0 []) as Hq.
    rewrite Hrun in Hq. now apply quiet_no_write.
Qed.

(** X8. When the loop has returned and the opening of the output file raises
    an [OSError], [main] does not raise: it prints the error after the lines
    of the loop and returns, and the output file is left as it was. When the
    file is opened and the writing of the results raises an [OSError],
    [main] prints the error and returns as well, and the output file has been
    emptied by the opening and is not written in full. *)
Theorem X8_write_failure_is_reported :
  forall (w : World) (prompts : Prompts) (SCRIPT_DIR : string) (args : Args)
         (data : json) (items : list json) (t : list event)
         (results : list result_entry) (e : exn),
    load_json_file w (questions_file args) = inr data ->
    py_iter data = inr items ->
    process_items w prompts SCRIPT_DIR args 0 items [] = (t, Return results) ->
    is_OSError (exn_cls e) = true ->
    let path := output_path SCRIPT_DIR args in
    (open_for_writing w path = Some e ->
     main w prompts SCRIPT_DIR args
     = (t ++ [Printed (ErrorSavingResults path e)], Return tt) /\
     filter is_write (trace (main w prompts SCRIPT_DIR args)) = []) /\
    (open_for_writing w path = None ->
     dump_json_file w path results = Some e ->
     main w prompts SCRIPT_DIR args
     = (t ++ [OpenedForWriting path; Printed (ErrorSavingResults path e)],
        Return tt) /\
     filter is_write (trace (main w prompts SCRIPT_DIR args))
     = [OpenedForWriting path]).
Proof.
  intros w prompts SCRIPT_DIR args data items t results e
         Hload Hiter Hrun Hos path. subst path.
  pose proof (quiet_process_items w prompts SCRIPT_DIR args items 0 []) as Hq.
  rewrite Hrun in Hq. cbn [trace fst] in Hq. apply quiet_no_write in Hq.
  rewrite (main_after_loading _ _ _ _ _ _ Hload Hiter), Hrun.
  cbv zeta. rewrite save_results_cases. split.
  - intros Hopen. rewrite Hopen, Hos. cbn [trace result fst snd].
    split; [reflexivity|]. now rewrite filter_is_write_app, Hq.
  - intros Hopen Hdump. rewrite Hopen, Hdump, Hos. cbn [trace result fst snd].
    split; [reflexivity|]. now rewrite filter_is_write_app, Hq.
Qed.

(** With an output file that cannot be opened, the run of the first scenario
    ends with the line of the error and leaves the file alone; on a device
    that fills up during the writing, it ends with the same kind of line and
    has emptied the file. *)
Lemma X8_witness :
  let run := main read_only_world Examples.prompts Examples.SCRIPT_DIR
               Examples.args in
  let run' := main full_disk_world Examples.prompts Examples.SCRIPT_DIR
                Examples.args in
  (result run = Return tt /\
   last (trace run) (Slept 0)
   = Printed (ErrorSavingResults "/app/evaluation.json" permission_denied) /\
   filter is_write (trace run) = []) /\
  (result run' = Return tt /\
   last (trace run') (Slept 0)
   = Printed (ErrorSavingResults "/app/evaluation.json" no_space_left) /\
   filter is_write (trace run') = [OpenedForWriting "/app/evaluation.json"]).
Proof.
  intros run run'. split.
  - destruct (X8_write_failure_is_reported read_only_world Examples.prompts
                Examples.SCRIPT_DIR Examples.args
                (JArray [Examples.record "q1" "What is 7x8?"])
                [Examples.record "q1" "What is 7x8?"]
                (trace (process_items read_only_world Examples.prompts
                          Examples.SCRIPT_DIR Examples.args 0
                          [Examples.record "q1" "What is 7x8?"] []))
                [recorded (process_item read_only_world Examples.prompts
                             Examples.SCRIPT_DIR Examples.args 0
                             (Examples.record "q1" "What is 7x8?"))]
                permission_denied)
      as [H _]; try reflexivity.
    destruct (H eq_refl) as [E W].
    subst run. split; [rewrite E; reflexivity|].
    split; [rewrite E; vm_compute; reflexivity|exact W].
  - destruct (X8_write_failure_is_reported full_disk_world Examples.prompts
                Examples.SCRIPT_DIR Examples.args
                (JArray [Examples.record "q1" "What is 7x8?"])
                [Examples.record "q1" "What is 7x8?"]
                (trace (process_items full_disk_world Examples.prompts
                          Examples.SCRIPT_DIR Examples.args 0
                          [Examples.record "q1" "What is 7x8?"] []))
                [recorded (process_item full_disk_world Examples.prompts
                             Examples.SCRIPT_DIR Examples.args 0
                             (Examples.record "q1" "What is 7x8?"))]
                no_space_left)
      as [_ H]; try reflexivity.
    destruct (H eq_refl eq_refl) as [E W].
    subst run'. split; [rewrite E; reflexivity|].
    split; [rewrite E; vm_compute; reflexivity|exact W].
Defined.

(** X9. When the questions file is missing, or is not JSON, [main] prints one
    line and returns: it processes no item, sends no request and writes
    nothing. Any other exception of the loading escapes [main]. *)
Theorem X9_load_failure_ends_the_run :
  forall (w : World) (prompts : Prompts) (SCRIPT_DIR : string) (args : Args)
         (e : exn),
    load_json_file w (questions_file args) = inl e ->
    (exn_cls e = FileNotFoundError ->
     main w prompts SCRIPT_DIR args
     = ([Printed (QuestionsFileNotFound (questions_file args))], Return tt)) /\
    (exn_cls e = JSONDecodeError ->
     main w prompts SCRIPT_DIR args
     = ([Printed (QuestionsFileNotJson (questions_file args))], Return tt)) /\
    (exn_cls e <> FileNotFoundError -> exn_cls e <> JSONDecodeError ->
     main w prompts SCRIPT_DIR args = ([], Raise e)).
Proof.
  intros w prompts SCRIPT_DIR args e Hload.
  rewrite (main_load_failure _ _ _ _ _ Hload).
  repeat split; intros; destruct (exn_cls e); congruence.
Qed.

(** Without questions file the run prints that the file was not found and
    returns. *)
Lemma X9_witness :
  main no_dataset_world Examples.prompts Examples.SCRIPT_DIR Examples.args
  = ([Printed (QuestionsFileNotFound "/app/data.json")], Return tt).
Proof.
  apply (X9_load_failure_ends_the_run no_dataset_world Examples.prompts
           Examples.SCRIPT_DIR Examples.args Examples.file_not_found);
    reflexivity.
Defined.

(** X10. A dataset that is not a list of dicts ends the run with an
    exception and without output: a value that cannot be iterated raises at
    once, and an item that is not a dict, such as a text of a list of texts or
    a key of a dict given in place of the list, makes the run raise. *)
Theorem X10_malformed_dataset_aborts :
  forall (w : World) (prompts : Prompts) (SCRIPT_DIR : string) (args : Args)
         (data : json),
    load_json_file w (questions_file args) = inr data ->
    let run := main w prompts SCRIPT_DIR args in
    (forall ex, py_iter data = inl ex -> run = ([], Raise ex)) /\
    (forall items item,
        py_iter data = inr items -> In item items -> ~ is_object item ->
        (exists ex, result run = Raise ex) /\
        filter is_write (trace run) = []) /\
    (forall item rest,
        py_iter data = inr (item :: rest) -> ~ is_object item ->
        run = ([], Raise no_attribute_get)).
Proof.
  intros w prompts SCRIPT_DIR args data Hload run. subst run.
  repeat apply conj.
  - intros ex Hiter. unfold main. now rewrite Hload, Hiter.
  - intros items item Hiter Hin Hno.
    rewrite (main_after_loading _ _ _ _ _ _ Hload Hiter).
    pose proof (quiet_no_write _ (quiet_process_items w prompts SCRIPT_DIR args
                                    items 0 [])) as Hq.
    destruct (process_items w prompts SCRIPT_DIR args 0 items [])
      as [t [results|e]] eqn:Hrun; cbn [trace fst] in Hq.
    + apply process_items_objects in Hrun. rewrite Forall_forall in Hrun.
      now destruct (Hno (Hrun _ Hin)).
    + split; [now exists e|exact Hq].
  - intros item rest Hiter Hno.
    rewrite (main_after_loading _ _ _ _ _ _ Hload Hiter).
    cbn [process_items].
    rewrite process_item_not_object; [reflexivity|].
    intros members ->. apply Hno. now eexists.
Qed.

(** A questions file that holds a list of texts makes the run raise at the
    first of them. *)
Lemma X10_witness :
  main texts_dataset_world Examples.prompts Examples.SCRIPT_DIR Examples.args
  = ([], Raise no_attribute_get).
Proof.
  destruct (X10_malformed_dataset_aborts texts_dataset_world Examples.prompts
              Examples.SCRIPT_DIR Examples.args
              (JArray [JString "What is 7x8?"]) eq_refl) as (_ & _ & H).
  apply (H (JString "What is 7x8?") []); [reflexivity|].
  intros [members E]. discriminate.
Defined.

(** The replies of a world that always answers with the five scores of the
    scenario can be summed. *)
Lemma scores_reply_summable files dirs dataset :
  replies_summable
    (Examples.world files dirs (inr Examples.scores_reply) dataset).
Proof.
  intros i v (req & text & t & Hc & Hp). cbn in Hc. injection Hc as <-.
  vm_compute in Hp. injection Hp as _ <-.
  exists (JInt 15). vm_compute. reflexivity.
Qed.

(** X11. When the questions file holds a list of dicts, every answer
    directory that exists can be listed, every reply that the parser accepts
    has values that can be summed, and the output file can be opened and
    written, [main] returns: it opens the output file and writes the results
    once, as its last events before the line that names the file, with one
    entry per item that has an identifier and a question. *)
Theorem X11_run_completes :
  forall (w : World) (prompts : Prompts) (SCRIPT_DIR : string) (args : Args)
         (data : json) (items : list json),
    load_json_file w (questions_file args) = inr data ->
    py_iter data = inr items ->
    Forall is_object items ->
    Forall (item_listed w args) items ->
    replies_summable w ->
    open_for_writing w (output_path SCRIPT_DIR args) = None ->
    (forall results,
        dump_json_file w (output_path SCRIPT_DIR args) results = None) ->
    exists t results,
      main w prompts SCRIPT_DIR args
      = (t ++ [OpenedForWriting (output_path SCRIPT_DIR args);
               WroteJson (output_path SCRIPT_DIR args) results;
               Printed (ResultsSaved (output_path SCRIPT_DIR args))],
         Return tt) /\
      List.length results = List.length (filter (recordable w) items) /\
      quiet t.
Proof.
  intros w prompts SCRIPT_DIR args data items Hload Hiter Hobj Hlisted Hsum
         Hopen Hdump.
  destruct (process_items_returns w prompts SCRIPT_DIR args items Hlisted Hsum
              Hobj 0%nat []) as (t & results & Hrun).
  exists t, results. repeat apply conj.
  - rewrite (main_after_loading _ _ _ _ _ _ Hload Hiter), Hrun.
    cbv zeta. now rewrite save_results_cases, Hopen, Hdump.
  - destruct (process_items_returned _ _ _ _ _ _ _ _ _ Hrun)
      as (new & -> & Hids & _).
    cbn [app]. apply (f_equal (@List.length json)) in Hids.
    now rewrite !length_map in Hids.
  - pose proof (quiet_process_items w prompts SCRIPT_DIR args items 0 []) as Hq.
    now rewrite Hrun in Hq.
Qed.

(** The run over the mixed dataset returns and writes three entries. *)
Lemma X11_witness :
  exists t results,
    main Examples.mixed_world Examples.prompts Examples.SCRIPT_DIR
      Examples.args
    = (t ++ [OpenedForWriting "/app/evaluation.json";
             WroteJson "/app/evaluation.json" results;
             Printed (ResultsSaved "/app/evaluation.json")],
       Return tt) /\
    List.length results = 3%nat /\
    quiet t.
Proof.
  destruct (X11_run_completes Examples.mixed_world Examples.prompts
              Examples.SCRIPT_DIR Examples.args
              (JArray [Examples.record "q0" "What is 1+1?";
                       JObject [("question", JString "No id")];
                       Examples.record "q3" "What is 2+2?";
                       Examples.record "q1" "What is 7x8?"])
              [Examples.record "q0" "What is 1+1?";
               JObject [("question", JString "No id")];
               Examples.record "q3" "What is 2+2?";
               Examples.record "q1" "What is 7x8?"])
    as (t & results & E & L & Q).
  - reflexivity.
  - reflexivity.
  - repeat constructor; eexists; reflexivity.
  - repeat constructor; intros Hdir; vm_compute in Hdir;
      first [discriminate Hdir|eexists; vm_compute; reflexivity].
  - apply scores_reply_summable.
  - reflexivity.
  - reflexivity.
  - exists t, results. split; [exact E|]. split; [exact L|exact Q].
Defined.

(* ================================================================== *)
(** ** Further properties: the answer images and the total *)

Section AnswerSetFacts.

Lemma join_relative (folder f : string) :
  relative_name f -> Path.join folder f = (join_base folder ++ f)%string.
Proof.
  unfold relative_name, Path.join, join_base. intros ->.
  destruct (negb (PyStr.truthy folder) || PyStr.endswith folder "/")%bool;
    [reflexivity|].
  now rewrite PyStrFacts.app_assoc.
Qed.

(** A common beginning does not change the order of two texts. *)
Lemma leb_common_prefix (p a b : string) :
  PyStr.leb (p ++ a) (p ++ b) = PyStr.leb a b.
Proof.
  unfold PyStr.leb, String.leb.
  induction p as [|c p IH]; cbn [append]; [reflexivity|].
  cbn [String.compare].
  assert (Ascii.compare c c = Eq) as ->
    by (unfold Ascii.compare; apply N.compare_refl).
  exact IH.
Qed.

Lemma insert_sorted_map (f : string -> string) (x : string) (l : list string) :
  (forall a b, PyStr.leb (f a) (f b) = PyStr.leb a b) ->
  insert_sorted (f x) (map f l) = map f (insert_sorted x l).
Proof.
  intros Hf. induction l as [|y l IH]; cbn [map insert_sorted];
    [reflexivity|].
  rewrite Hf. destruct (PyStr.leb x y); cbn [map]; [reflexivity|].
  now rewrite IH.
Qed.

(** Sorting commutes with a map that keeps the order. *)
Lemma sorted_map (f : string -> string) (l : list string) :
  (forall a b, PyStr.leb (f a) (f b) = PyStr.leb a b) ->
  sorted (map f l) = map f (sorted l).
Proof.
  intros Hf. induction l as [|x l IH]; cbn [map sorted]; [reflexivity|].
  now rewrite IH, insert_sorted_map.
Qed.

Lemma append_inj_l (p a b : string) : (p ++ a = p ++ b)%string -> a = b.
Proof.
  induction p as [|c p IH]; cbn [append]; [auto|].
  intros [= H]. auto.
Qed.

Lemma NoDup_map_injective (f : string -> string) (l : list string) :
  (forall a b, f a = f b -> a = b) -> NoDup l -> NoDup (map f l).
Proof.
  intros Hf. induction 1 as [|x l Hx _ IH]; cbn [map]; constructor; [|exact IH].
  intros Hin. apply in_map_iff in Hin as (y & E & Hy).
  apply Hf in E. now subst.
Qed.

End AnswerSetFacts.

(** X12. For a directory listing of names that do not start with a slash,
    the answer images are the listed names with an image extension, sorted by
    name and then joined to the directory: sorting the joined paths, as the
    code does, is sorting the names. A listing without repetition gives
    answer images without repetition. *)
Theorem X12_answer_images_sorted_by_name :
  forall (folder : string) (names : list string),
    Forall relative_name names ->
    list_answer_images folder names
    = map (fun f => (join_base folder ++ f)%string)
        (sorted (filter is_answer_image names)) /\
    (NoDup names -> NoDup (list_answer_images folder names)).
Proof.
  intros folder names Hrel.
  assert (Hjoin : map (Path.join folder) (filter is_answer_image names)
                  = map (fun f => (join_base folder ++ f)%string)
                      (filter is_answer_image names)).
  { apply map_ext_in. intros f Hf. apply join_relative.
    apply filter_In in Hf as [Hf _]. rewrite Forall_forall in Hrel. auto. }
  assert (Heq : list_answer_images folder names
                = map (fun f => (join_base folder ++ f)%string)
                    (sorted (filter is_answer_image names))).
  { unfold list_answer_images. rewrite Hjoin. apply sorted_map.
    intros a b. apply leb_common_prefix. }
  split; [exact Heq|]. intros Hnd. rewrite Heq.
  apply NoDup_map_injective.
  - intros a b. apply append_inj_l.
  - apply (Permutation_NoDup (Permutation_sym (sorted_perm _))).
    now apply NoDup_filter.
Qed.

(** The directory of the second scenario lists [b.png] and [a.JPG]: the
    answer images are [a.JPG] and [b.png] under the directory. *)
Lemma X12_witness :
  listdir Examples.missing_figure_world "/app/data/q2"
  = inr ["b.png"; "a.JPG"] /\
  list_answer_images "/app/data/q2" ["b.png"; "a.JPG"]
  = ["/app/data/q2/a.JPG"; "/app/data/q2/b.png"] /\
  NoDup (list_answer_images "/app/data/q2" ["b.png"; "a.JPG"]).
Proof.
  split; [reflexivity|].
  destruct (X12_answer_images_sorted_by_name "/app/data/q2"
              ["b.png"; "a.JPG"]) as [E N].
  - repeat constructor.
  - split; [rewrite E; reflexivity|].
    apply N. repeat constructor; cbn; intuition discriminate.
Defined.

Lemma int_sum_contract (vs : list json) :
  Forall contract_score vs ->
  forall acc,
    exists s,
      Py.int_sum acc vs = Some (acc + s) /\
      0 <= s <= 5 * Z.of_nat (List.length vs).
Proof.
  induction 1 as [|v vs (z & -> & Hz) _ IH]; intros acc.
  - exists 0. cbn. split; [f_equal; lia|lia].
  - destruct (IH (acc + z)) as (s & E & Hs).
    exists (z + s). cbn [Py.int_sum Py.as_int List.length]. rewrite E.
    split; [f_equal; lia|lia].
Qed.

(** X13. An entry whose category scores are a dict of integers from 0 to 5
    has as total an integer from 0 to five times the number of categories: at
    most 25 for the five categories of the rubric. *)
Theorem X13_total_within_rubric_range :
  forall (w : World) (prompts : Prompts) (SCRIPT_DIR : string) (args : Args)
         (i : nat) (members : list (string * json)) (t : list event)
         (e : result_entry) (scores : list (string * json)),
    process_item w prompts SCRIPT_DIR args i (JObject members)
    = (t, Return (Some e)) ->
    category_scores e = Some (JObject scores) ->
    Forall contract_score (Py.values scores) ->
    exists total,
      total_score e = JInt total /\
      0 <= total <= 5 * Z.of_nat (List.length scores).
Proof.
  intros w prompts SCRIPT_DIR args i members t e scores Hrun Hcat Hok.
  apply process_item_entry in Hrun as (_ & _ & He).
  apply entry_score_invariant in He. unfold score_invariant in He.
  rewrite Hcat in He. cbn [total_of] in He. unfold py_sum in He.
  destruct (int_sum_contract _ Hok 0) as (s & E & Hs).
  rewrite E in He. injection He as <-.
  exists s. split; [reflexivity|].
  unfold Py.values in Hs. now rewrite length_map in Hs.
Qed.

(** The entry of the first scenario has the total 15, within 0 and 25. *)
Lemma X13_witness :
  let e := recorded (process_item (Examples.text_world Examples.scores_reply)
                       Examples.prompts Examples.SCRIPT_DIR Examples.args 0
                       (Examples.record "q1" "What is 7x8?")) in
  exists total, total_score e = JInt total /\ 0 <= total <= 5 * Z.of_nat 5.
Proof.
  intros e.
  apply (X13_total_within_rubric_range
           (Examples.text_world Examples.scores_reply) Examples.prompts
           Examples.SCRIPT_DIR Examples.args 0%nat
           [("id", JString "q1"); ("question", JString "What is 7x8?")]
           (trace (process_item (Examples.text_world Examples.scores_reply)
                     Examples.prompts Examples.SCRIPT_DIR Examples.args 0
                     (Examples.record "q1" "What is 7x8?")))
           e
           [("1", JInt 3); ("2", JInt 4); ("3", JInt 2); ("4", JInt 5);
            ("5", JInt 1)]).
  - vm_compute. reflexivity.
  - vm_compute. reflexivity.
  - repeat constructor; eexists; (split; [reflexivity|lia]).
Defined.

(* ================================================================== *)
(** ** Further properties: the number of requests *)

Section RequestCount.

Variable w : World.
Variable prompts : Prompts.
Variable SCRIPT_DIR : string.
Variable args : Args.

Lemma trace_bind_returned {A B} (t : list event) (a : A) (f : A -> M B) :
  trace (bind (t, Return a) f) = t ++ trace (f a).
Proof. cbn [bind]. now destruct (f a). Qed.

Lemma trace_print {B} (d : diag) (k : M B) :
  trace (print d ;;; k) = Printed d :: trace k.
Proof. unfold print, emit. now rewrite trace_bind_returned. Qed.

Lemma ask_model_one (i : nat) (parts : list content_part) :
  at_most_one_request (ask_model w i parts).
Proof. unfold at_most_one_request. now rewrite ask_model_requests. Qed.

Lemma evaluate_image_q_single_a_one (i : nat) (qp ap : string) :
  at_most_one_request (evaluate_image_q_single_a w prompts i qp ap).
Proof.
  unfold at_most_one_request, evaluate_image_q_single_a.
  destruct (encode_returns w qp) as (t1 & q & -> & Hr1 & _).
  rewrite trace_bind_returned.
  destruct (encode_returns w ap) as (t2 & a & -> & Hr2 & _).
  rewrite trace_bind_returned, !requests_app, Hr1, Hr2. cbn [app].
  destruct q as [q|], a as [a|]; try (cbn; lia).
  destruct (negb (PyStr.truthy q) || negb (PyStr.truthy a))%bool; [cbn; lia|].
  apply ask_model_one.
Qed.

Lemma evaluate_image_q_multiple_a_one (i : nat) (qp : string)
    (aps : list string) :
  at_most_one_request (evaluate_image_q_multiple_a w prompts i qp aps).
Proof.
  unfold at_most_one_request, evaluate_image_q_multiple_a.
  destruct (encode_returns w qp) as (t1 & q & -> & Hr1 & _).
  rewrite trace_bind_returned, requests_app, Hr1. cbn [app].
  destruct q as [q|]; [|cbn; lia].
  destruct (negb (PyStr.truthy q)); [cbn; lia|].
  destruct (append_answer_images_returns w aps
              [TextPart (BENCHMARK_GUIDELINES prompts);
               TextPart "Problem image:"; ImagePart q;
               TextPart "Student visual responses (multiple answer images follow):"])
    as (t2 & parts & -> & Hr2 & _).
  rewrite trace_bind_returned, requests_app, Hr2. cbn [app].
  destruct parts; [apply ask_model_one|cbn; lia].
Qed.

Lemma evaluate_text_q_single_a_one (i : nat) (qt : json) (ap : string) :
  at_most_one_request (evaluate_text_q_single_a w prompts i qt ap).
Proof.
  unfold at_most_one_request, evaluate_text_q_single_a.
  destruct (encode_returns w ap) as (t1 & a & -> & Hr1 & _).
  rewrite trace_bind_returned, requests_app, Hr1. cbn [app].
  destruct a as [a|]; [|cbn; lia].
  destruct (negb (PyStr.truthy a)); [cbn; lia|].
  apply ask_model_one.
Qed.

Lemma evaluate_text_q_multiple_a_one (i : nat) (qt : json)
    (aps : list string) :
  at_most_one_request (evaluate_text_q_multiple_a w prompts i qt aps).
Proof.
  unfold at_most_one_request, evaluate_text_q_multiple_a.
  destruct (append_answer_images_returns w aps
              [TextPart (BENCHMARK_GUIDELINES prompts);
               TextPart ("Question:" ++ newline ++ py_str w qt);
               TextPart "Student visual responses (multiple answer images follow):"])
    as (t2 & parts & -> & Hr2 & _).
  rewrite trace_bind_returned, requests_app, Hr2. cbn [app].
  destruct parts; [apply ask_model_one|cbn; lia].
Qed.

(** Recording an outcome sends nothing, whether it returns or raises. *)
Lemma record_outcome_no_request (entry : result_entry) (scores : option json)
    (err : option string) :
  requests (trace (record_outcome w entry scores err)) = [].
Proof.
  unfold record_outcome.
  destruct err as [msg|]; [destruct (PyStr.truthy msg); [reflexivity|]|];
    (destruct scores as [sc|]; [|reflexivity]);
    (destruct (truthy w sc); [|reflexivity]);
    destruct (total_of w sc); reflexivity.
Qed.

(** After an evaluation with at most one request, the recording adds none. *)
Lemma evaluated_turn_one (m : M (option json * option string))
    (P : list event -> option json * option string -> Prop)
    (entry : result_entry) :
  returns_with m P -> at_most_one_request m ->
  at_most_one_request (r <- m ;; record_outcome w entry (fst r) (snd r)).
Proof.
  unfold at_most_one_request. intros (t & r & -> & _) H.
  rewrite trace_bind_returned, requests_app, record_outcome_no_request.
  cbn [trace fst] in H. now rewrite List.app_nil_r.
Qed.

Lemma printed_returns {A} (d : diag) (m : M A)
    (P : list event -> A -> Prop) :
  returns_with m P -> returns_with (print d ;;; m) (fun _ _ => True).
Proof. intros (t & a & -> & _). now eexists _, a. Qed.

Lemma printed_one {A} (d : diag) (m : M A) :
  at_most_one_request m -> at_most_one_request (print d ;;; m).
Proof. unfold at_most_one_request. now rewrite trace_print. Qed.

(** A turn of the loop sends at most one request, and none for an item that
    is passed over. *)
Lemma process_item_requests (i : nat) (item : json) :
  (List.length (requests (trace (process_item w prompts SCRIPT_DIR args i item)))
   <= if recordable w item then 1 else 0)%nat.
Proof.
  destruct item as [| | | | | |members]; try (cbn; lia).
  unfold process_item, recordable.
  fold (item_id members) (item_question members).
  destruct (truthy w (item_id members)); [|cbn; lia].
  destruct (truthy w (item_question members)); [|cbn; lia].
  cbn [negb orb andb].
  apply (printed_one (ProcessingQuestion (item_id members))).
  destruct (negb (isdir w _)); [cbv; lia|].
  destruct (listdir w _) as [ex|names]; [cbv; lia|].
  destruct (list_answer_images _ names) as [|first others]; [cbv; lia|].
  destruct (is_image_question _).
  - destruct (negb (isfile w _)); [cbv; lia|].
    destruct others; eapply evaluated_turn_one.
    + eapply printed_returns. apply evaluate_image_q_single_a_post.
    + apply printed_one, evaluate_image_q_single_a_one.
    + eapply printed_returns. apply evaluate_image_q_multiple_a_post.
    + apply printed_one, evaluate_image_q_multiple_a_one.
  - destruct others; eapply evaluated_turn_one.
    + eapply printed_returns. apply evaluate_text_q_single_a_post.
    + apply printed_one, evaluate_text_q_single_a_one.
    + eapply printed_returns. apply evaluate_text_q_multiple_a_post.
    + apply printed_one, evaluate_text_q_multiple_a_one.
Qed.

Lemma process_items_requests (items : list json) :
  forall i acc,
    (List.length
       (requests (trace (process_items w prompts SCRIPT_DIR args i items acc)))
     <= List.length (filter (recordable w) items))%nat.
Proof.
  induction items as [|item rest IH]; intros i acc; [cbn; lia|].
  cbn [process_items filter].
  pose proof (process_item_requests i item) as Hone.
  destruct (process_item w prompts SCRIPT_DIR args i item) as [t [o|ex]].
  - rewrite trace_bind_returned, requests_app, length_app.
    cbn [trace fst] in Hone.
    specialize (IH (S i) (match o with Some e => acc ++ [e] | None => acc end)).
    destruct (recordable w item); cbn [List.length]; lia.
  - cbn [bind trace fst] in *.
    destruct (recordable w item); cbn [List.length]; lia.
Qed.

End RequestCount.

(** X14. A run sends at most one request for each item of the dataset that
    has an identifier and a question, and none for any other item; a run
    whose questions file cannot be loaded sends none. *)
Theorem X14_at_most_one_request_per_record :
  forall (w : World) (prompts : Prompts) (SCRIPT_DIR : string) (args : Args),
    (forall i item,
        (List.length
           (requests (trace (process_item w prompts SCRIPT_DIR args i item)))
         <= if recordable w item then 1 else 0)%nat) /\
    (List.length (requests (trace (main w prompts SCRIPT_DIR args)))
     <= List.length (filter (recordable w) (dataset_items w args)))%nat.
Proof.
  intros w prompts SCRIPT_DIR args. split.
  - apply process_item_requests.
  - unfold dataset_items.
    destruct (load_json_file w (questions_file args)) as [e|data] eqn:Hload.
    { rewrite (main_load_failure _ _ _ _ _ Hload).
      destruct (exn_cls e); cbn; lia. }
    destruct (py_iter data) as [e|items] eqn:Hiter.
    { unfold main. rewrite Hload, Hiter. cbn. lia. }
    rewrite (main_after_loading _ _ _ _ _ _ Hload Hiter).
    pose proof (process_items_requests w prompts SCRIPT_DIR args items 0 [])
      as Hle.
    destruct (process_items w prompts SCRIPT_DIR args 0 items [])
      as [t [results|e]]; cbn [trace fst] in Hle; [|exact Hle].
    cbn [trace fst].
    rewrite requests_app, length_app, save_results_no_request. cbn. lia.
Qed.

(* ================================================================== *)
(** ** Further properties: what surrounds the braces of a reply *)

Section SurroundingFacts.
Import PyStr PyStrFacts.
Local Open Scope string_scope.

Variable w : World.

Lemma find_app (a b : string) (c : ascii) :
  find (a ++ b) c =
  if (find a c =? -1)%Z
  then (if (find b c =? -1)%Z then -1 else len a + find b c)
  else find a c.
Proof.
  induction a as [|x a IH]; cbn [append find].
  - change (len "") with 0. cbn. destruct (Z.eqb_spec (find b c) (-1)); lia.
  - rewrite len_cons. destruct (Ascii.eqb x c); [reflexivity|].
    rewrite IH. pose proof (len_nonneg a).
    pose proof (find_range a c) as Ra. pose proof (find_range b c) as Rb.
    destruct (Z.eqb_spec (find a c) (-1)) as [Ea|Ea].
    + change (-1 =? -1)%Z with true. cbv iota.
      destruct (Z.eqb_spec (find b c) (-1)) as [Eb|Eb].
      * reflexivity.
      * destruct (Z.eqb_spec (len a + find b c) (-1)); lia.
    + destruct (Z.eqb_spec (find a c) (-1)); [contradiction|].
      destruct (Z.eqb_spec (find a c + 1) (-1)); [lia|reflexivity].
Qed.

(** Text without braces around a text changes neither whether the guard of
    the parser passes nor, by more than a shift, where the braces are. *)
Lemma has_span_surrounded (a m b : string) :
  brace_free a -> brace_free b ->
  has_span (a ++ m ++ b) = has_span m.
Proof.
  intros (Ha1 & Ha2) (Hb1 & Hb2). unfold has_span.
  rewrite (find_app a), Ha1, (find_app m), Hb1.
  rewrite (rfind_app a), (rfind_app m), Hb2, Ha2.
  change (-1 =? -1)%Z with true. cbv iota.
  pose proof (len_nonneg a).
  destruct (find_range m open_brace) as [Rf|Rf],
           (rfind_range m close_brace) as [Rr|Rr];
    repeat match goal with
           | |- context [(?x =? -1)%Z] => destruct (Z.eqb_spec x (-1))
           | |- context [(?x >? ?y)%Z] => destruct (Z.gtb_spec x y)
           end; try lia; reflexivity.
Qed.

Lemma decode_span_result (s s' json_str : string) :
  result (decode_span w s json_str) = result (decode_span w s' json_str).
Proof.
  unfold decode_span. destruct (json_loads w json_str) as [e|v];
    [|reflexivity].
  destruct (exn_cls e); reflexivity.
Qed.

(** What the parser returns does not depend on text without braces before
    and after its argument. *)
Lemma parse_surrounded (a m b : string) :
  brace_free a -> brace_free b ->
  result (parse_gpt_response w (a ++ m ++ b))
  = result (parse_gpt_response w m).
Proof.
  intros Ha Hb. destruct (has_span m) eqn:E.
  - destruct (has_span_split m E) as (pre & mid & post & -> & Hpre & Hpost).
    rewrite (parse_span w pre mid post Hpre Hpost).
    replace (a ++ (pre ++ String open_brace (mid ++ String close_brace post))
               ++ b)
      with ((a ++ pre) ++ String open_brace
              (mid ++ String close_brace (post ++ b)))
      by (rewrite !app_assoc; cbn [append]; rewrite !app_assoc; reflexivity).
    rewrite parse_span.
    + apply decode_span_result.
    + apply find_app_none; [apply Ha|exact Hpre].
    + apply rfind_app_none; [exact Hpost|apply Hb].
  - rewrite !parse_unfold, (has_span_surrounded a m b Ha Hb), E. reflexivity.
Qed.

Lemma space_not_brace (c : ascii) :
  isspace c = true -> c <> open_brace /\ c <> close_brace.
Proof. intros H. split; intros ->; discriminate. Qed.

Lemma space_text_brace_free (l : list ascii) :
  Forall (fun c => isspace c = true) l -> brace_free (of_chars l).
Proof.
  unfold brace_free, of_chars.
  induction 1 as [|c l Hc _ (I1 & I2)]; [repeat split|].
  destruct (space_not_brace c Hc) as [N1 N2].
  cbn [string_of_list_ascii find rfind]. rewrite I1, I2.
  change (-1 =? -1)%Z with true. cbv iota.
  destruct (Ascii.eqb_spec c open_brace), (Ascii.eqb_spec c close_brace);
    try contradiction; repeat split.
Qed.

Lemma lstrip_split (l : list ascii) :
  exists ws,
    l = (ws ++ lstrip_chars l)%list /\ Forall (fun c => isspace c = true) ws.
Proof.
  induction l as [|c l (ws & E & Hws)]; [now exists []|].
  cbn [lstrip_chars]. destruct (isspace c) eqn:S.
  - exists (c :: ws). split; [cbn; now f_equal|now constructor].
  - now exists [].
Qed.

Lemma of_chars_app (l l' : list ascii) :
  of_chars (l ++ l')%list = of_chars l ++ of_chars l'.
Proof. unfold of_chars. induction l; cbn; [reflexivity|]. now f_equal. Qed.

(** A text is its stripped text between two texts of white space. *)
Lemma strip_split (s : string) :
  exists a b,
    s = a ++ strip s ++ b /\ brace_free a /\ brace_free b.
Proof.
  unfold strip.
  destruct (lstrip_split (chars s)) as (ws1 & E1 & H1).
  destruct (lstrip_split (rev (lstrip_chars (chars s)))) as (ws2 & E2 & H2).
  exists (of_chars ws1), (of_chars (rev ws2)). split; [|split].
  - rewrite <- !of_chars_app. unfold of_chars at 1.
    rewrite <- (string_of_list_ascii_of_string s) at 1. f_equal.
    fold (chars s). rewrite E1 at 1. f_equal.
    rewrite <- rev_app_distr, <- E2. now rewrite rev_involutive.
  - now apply space_text_brace_free.
  - apply space_text_brace_free. now apply Forall_rev.
Qed.

End SurroundingFacts.

(** X15. What the parser returns depends only on its argument from the first
    opening to the last closing brace: text without braces before and after
    the argument does not change it, and so stripping the white space around
    a reply, as the evaluation functions do, does not change it either. *)
Theorem X15_surroundings_do_not_matter :
  forall (w : World),
    (forall a m b,
        brace_free a -> brace_free b ->
        result (parse_gpt_response w (a ++ m ++ b)%string)
        = result (parse_gpt_response w m)) /\
    (forall s,
        result (parse_gpt_response w (PyStr.strip s))
        = result (parse_gpt_response w s)).
Proof.
  intros w. split.
  - apply parse_surrounded.
  - intros s. destruct (strip_split s) as (a & b & E & Ha & Hb).
    rewrite E at 2. symmetry. now apply parse_surrounded.
Qed.

(** Words around the scores of the scenario do not change what is parsed. *)
Lemma X15_witness :
  result (parse_gpt_response (Examples.text_world EmptyString)
            ("Sure! " ++ Examples.scores_reply ++ " Bye.")%string)
  = result (parse_gpt_response (Examples.text_world EmptyString)
              Examples.scores_reply).
Proof.
  apply (proj1 (X15_surroundings_do_not_matter
                  (Examples.text_world EmptyString))
           "Sure! "%string Examples.scores_reply " Bye."%string);
    repeat split.
Defined.

(* ================================================================== *)
(** ** Further properties: the request of a record *)

Section DispatchFacts.

Variable w : World.
Variable prompts : Prompts.
Variable SCRIPT_DIR : string.
Variable args : Args.

Lemma ask_model_returns_some (i : nat) (parts : list content_part) :
  returns_with (ask_model w i parts) (fun _ _ => True).
Proof. eapply returns_weaken; [apply ask_model_returns|]. auto. Qed.

(** The requests of a turn that evaluates with the shared [try] block on
    given content parts. *)
Lemma evaluated_turn_requests (i : nat) (d : diag)
    (m : M (option json * option string)) (parts : list content_part)
    (entry : result_entry) :
  m = ask_model w i parts ->
  requests (trace (r <- (print d ;;; m) ;;
                   record_outcome w entry (fst r) (snd r)))
  = [ApiRequest i (request_of parts)].
Proof.
  intros ->.
  destruct (ask_model_returns_some i parts) as (t & r & E & _).
  pose proof (ask_model_requests w i parts) as Hreq.
  rewrite E in Hreq |- *. cbn [trace fst] in Hreq.
  change (print d ;;; (t, Return r)) with (Printed d :: t, Return r).
  rewrite trace_bind_returned, requests_app, record_outcome_no_request.
  rewrite List.app_nil_r. exact Hreq.
Qed.

End DispatchFacts.

(** X16. For a record with an identifier and a question, whose answer
    directory lists images that can all be encoded, and whose question image,
    if the question names one, exists and can be encoded, the turn of the
    loop sends exactly one request: with the question as an image when the
    question ends in [.png], [.jpg] or [.jpeg] and as a text otherwise, with
    the label and the instruction for one answer when there is one answer
    image and those for several otherwise, and with the answer images in the
    order of the entry. *)
Theorem X16_request_of_a_record :
  forall (w : World) (prompts : Prompts) (SCRIPT_DIR : string) (args : Args)
         (i : nat) (members : list (string * json)) (question_url : string)
         (answer_urls : list string),
    recordable w (JObject members) = true ->
    isdir w (answer_folder w args members) = true ->
    answer_files w args members <> [] ->
    Forall2 (fun p u => url_of w p = Some u)
      (answer_files w args members) answer_urls ->
    (is_image_question (item_question members) = true ->
     isfile w (question_image_path w SCRIPT_DIR members) = true /\
     url_of w (question_image_path w SCRIPT_DIR members) = Some question_url) ->
    requests (trace (process_item w prompts SCRIPT_DIR args i (JObject members)))
    = [ApiRequest i
         (request_of
            (dispatched_payload w prompts (item_question members) question_url
               answer_urls))].
Proof.
  intros w prompts SCRIPT_DIR args i members qu aus Hrec Hdir Hne Hurls Himg.
  unfold recordable in Hrec. apply andb_prop in Hrec as [Hid Hq].
  unfold process_item.
  fold (item_id members) (item_question members) (item_subject members).
  fold (answer_folder w args members).
  fold (question_image_path w SCRIPT_DIR members).
  rewrite Hid, Hq, Hdir. cbn [negb orb].
  destruct (listdir w (answer_folder w args members)) as [ex|names] eqn:Hlist.
  { unfold answer_files in Hne. rewrite Hlist in Hne. contradiction. }
  rewrite (answer_files_listed _ _ _ _ Hlist).
  rewrite trace_print. cbn [requests filter is_request].
  match goal with |- filter is_request ?t = _ => change (requests t = [ApiRequest i
         (request_of
            (dispatched_payload w prompts (item_question members) qu aus))]) end.
  unfold dispatched_payload.
  destruct (answer_files w args members) as [|first others] eqn:Hfiles;
    [contradiction|].
  inversion Hurls as [|? u1 ? us Hu1 Hus]; subst.
  destruct (is_image_question (item_question members)).
  - destruct (Himg eq_refl) as [Hfile Hqu]. rewrite Hfile. cbn [negb].
    destruct others as [|second others].
    + inversion Hus; subst. apply evaluated_turn_requests.
      now apply evaluate_image_q_single_a_encoded.
    + inversion Hus as [|? u2 ? us' Hu2 Hus']; subst.
      apply evaluated_turn_requests.
      apply evaluate_image_q_multiple_a_encoded; [exact Hqu|exact Hurls].
  - destruct others as [|second others].
    + inversion Hus; subst. apply evaluated_turn_requests.
      now apply evaluate_text_q_single_a_encoded.
    + inversion Hus as [|? u2 ? us' Hu2 Hus']; subst.
      apply evaluated_turn_requests.
      now apply evaluate_text_q_multiple_a_encoded.
Qed.

(** The question [fig.png] is on disk and the directory of [q2] lists
    [b.png] and [a.JPG]: the one request carries the question as an image,
    the label and the instruction for several answers, and the JPEG before
    the PNG. *)
Lemma X16_witness :
  requests (trace (process_item figure_world Examples.prompts
                     Examples.SCRIPT_DIR Examples.args 0
                     (Examples.record "q2" "fig.png")))
  = [ApiRequest 0
       (request_of
          (payload Examples.prompts
             (image_question_parts "data:image/png;base64,")
             MULTIPLE_ANSWERS_LABEL
             ["data:image/jpeg;base64,"; "data:image/png;base64,"]%string
             (instruction_image_multiple Examples.prompts)))].
Proof.
  apply (X16_request_of_a_record figure_world Examples.prompts
           Examples.SCRIPT_DIR Examples.args 0%nat
           [("id", JString "q2"); ("question", JString "fig.png")]%string
           "data:image/png;base64,"%string
           ["data:image/jpeg;base64,"; "data:image/png;base64,"]%string).
  - reflexivity.
  - reflexivity.
  - discriminate.
  - repeat constructor.
  - intros _. split; reflexivity.
Defined.

(* ================================================================== *)
(** ** Further properties: the pause between requests *)

Section PacingFacts.

Variable w : World.
Variable prompts : Prompts.
Variable SCRIPT_DIR : string.
Variable args : Args.

Lemma paced_from_app (t t' : list event) :
  forall ready,
    paced_from ready (t ++ t')
    = (paced_from ready t && paced_from (ready_after ready t) t')%bool.
Proof.
  induction t as [|ev t IH]; intros ready; [reflexivity|].
  destruct ev; cbn [app paced_from ready_after]; rewrite ?IH;
    try reflexivity.
  now rewrite andb_assoc.
Qed.

Lemma ready_after_app (t t' : list event) :
  forall ready,
    ready_after ready (t ++ t') = ready_after (ready_after ready t) t'.
Proof.
  induction t as [|ev t IH]; intros ready; [reflexivity|].
  destruct ev; cbn [app ready_after]; now rewrite ?IH.
Qed.

Lemma no_request_paced (t : list event) :
  forall ready, requests t = [] -> paced_from ready t = true.
Proof.
  induction t as [|ev t IH]; intros ready H; [reflexivity|].
  destruct ev; cbn [paced_from]; try (apply IH; exact H).
  discriminate H.
Qed.

Lemma no_request_ready (t : list event) :
  requests t = [] -> ready_after true t = true.
Proof.
  induction t as [|ev t IH]; intros H; [reflexivity|].
  destruct ev; cbn [ready_after orb]; try (apply IH; exact H).
  discriminate H.
Qed.

Lemma one_request_paced (t : list event) :
  (List.length (requests t) <= 1)%nat -> paced_from true t = true.
Proof.
  induction t as [|ev t IH]; intros H; [reflexivity|].
  destruct ev; cbn [paced_from orb andb]; try (apply IH; exact H).
  apply no_request_paced.
  change (requests (ApiRequest index req :: t))
    with (ApiRequest index req :: requests t) in H.
  destruct (requests t); [reflexivity|cbn in H; lia].
Qed.

(** A request directly or indirectly followed by another, in a paced trace,
    has a pause of one second in between. *)
Lemma paced_pause_between (t2 t3 : list event) (b : event) :
  is_request b = true ->
  paced_from false (t2 ++ b :: t3) = true -> In (Slept 1) t2.
Proof.
  intros Hb. induction t2 as [|ev t2 IH]; cbn [app].
  - destruct b; try discriminate Hb. cbn. discriminate.
  - intros H. destruct ev; cbn [paced_from orb andb] in H;
      try (right; apply IH; exact H); [discriminate H|].
    destruct (seconds =? 1)%Z eqn:E.
    + left. apply Z.eqb_eq in E. now subst.
    + right. apply IH, H.
Qed.

Lemma paced_split (t1 t2 t3 : list event) (a b : event) :
  forall ready,
    is_request a = true -> is_request b = true ->
    paced_from ready (t1 ++ a :: t2 ++ b :: t3) = true -> In (Slept 1) t2.
Proof.
  intros ready Ha Hb H. rewrite paced_from_app in H.
  apply andb_prop in H as [_ H].
  destruct a; try discriminate Ha. cbn [paced_from] in H.
  apply andb_prop in H as [_ H]. now apply paced_pause_between in H.
Qed.

(** Recording an outcome ends, when it returns, with the pause. *)
Lemma record_outcome_pauses (entry : result_entry) (scores : option json)
    (err : option string) (t : list event) (o : option result_entry) :
  record_outcome w entry scores err = (t, Return o) ->
  exists t', t = t' ++ [Slept 1].
Proof.
  unfold record_outcome. intros H.
  apply bind_return_inv in H as (t1 & e & t2 & _ & H & ->).
  cbn in H. injection H as <- _. now exists t1.
Qed.

Lemma ends_with_pause_ready (t : list event) :
  forall ready, ready_after ready (t ++ [Slept 1]) = true.
Proof.
  intros ready. rewrite ready_after_app. cbn. apply orb_true_r.
Qed.

Lemma evaluated_turn_ready (d : diag) (m : M (option json * option string))
    (entry : result_entry) (t : list event) (o : option result_entry) :
  (r <- (print d ;;; m) ;; record_outcome w entry (fst r) (snd r))
  = (t, Return o) ->
  ready_after true t = true.
Proof.
  intros H. apply bind_return_inv in H as (t1 & r & t2 & _ & H & ->).
  apply record_outcome_pauses in H as [t' ->].
  rewrite List.app_assoc. apply ends_with_pause_ready.
Qed.

(** A turn of the loop is paced, and when it returns the next request may
    be sent. *)
Lemma process_item_ready (i : nat) (item : json) (t : list event)
    (o : option result_entry) :
  process_item w prompts SCRIPT_DIR args i item = (t, Return o) ->
  ready_after true t = true.
Proof.
  destruct item as [| | | | | |members]; try discriminate.
  unfold process_item.
  destruct (negb (truthy w _) || negb (truthy w _))%bool;
    [now intros [= <- _]|].
  intros H. apply print_return_inv in H as (t' & H & ->).
  cbn [ready_after].
  destruct (negb (isdir w _)); [now injection H as <- _|].
  destruct (listdir w _) as [ex|names]; [discriminate H|].
  destruct (list_answer_images _ names) as [|first others];
    [now injection H as <- _|].
  destruct (is_image_question _).
  - destruct (negb (isfile w _)); [now injection H as <- _|].
    destruct others; exact (evaluated_turn_ready _ _ _ _ _ H).
  - destruct others; exact (evaluated_turn_ready _ _ _ _ _ H).
Qed.

Lemma process_items_paced (items : list json) :
  forall i acc,
    paced_from true
      (trace (process_items w prompts SCRIPT_DIR args i items acc)) = true.
Proof.
  induction items as [|item rest IH]; intros i acc; [reflexivity|].
  cbn [process_items].
  pose proof (process_item_requests w prompts SCRIPT_DIR args i item) as Hone.
  pose proof (process_item_ready i item) as Hready.
  destruct (process_item w prompts SCRIPT_DIR args i item) as [t [o|ex]].
  - rewrite trace_bind_returned, paced_from_app, (Hready t o eq_refl), IH.
    cbn [trace fst] in Hone. rewrite one_request_paced; [reflexivity|].
    destruct (recordable w item); lia.
  - cbn [bind trace fst] in *. apply one_request_paced.
    destruct (recordable w item); lia.
Qed.

Lemma main_paced :
  paced_from true (trace (main w prompts SCRIPT_DIR args)) = true.
Proof.
  destruct (load_json_file w (questions_file args)) as [e|data] eqn:Hload.
  { rewrite (main_load_failure _ _ _ _ _ Hload).
    now destruct (exn_cls e). }
  destruct (py_iter data) as [e|items] eqn:Hiter.
  { unfold main. now rewrite Hload, Hiter. }
  rewrite (main_after_loading _ _ _ _ _ _ Hload Hiter).
  pose proof (process_items_paced items 0 []) as Hp.
  destruct (process_items w prompts SCRIPT_DIR args 0 items [])
    as [t [results|e]]; cbn [trace fst] in Hp; [|exact Hp].
  cbn [trace fst]. rewrite paced_from_app, Hp.
  now rewrite no_request_paced by apply save_results_no_request.
Qed.

End PacingFacts.

(** X17. Between any two requests of a run the program pauses for one
    second: whenever the trace of [main] has a request and, later, another,
    the events between them contain the pause. *)
Theorem X17_pause_between_requests :
  forall (w : World) (prompts : Prompts) (SCRIPT_DIR : string) (args : Args)
         (before between after : list event) (first second : event),
    trace (main w prompts SCRIPT_DIR args)
    = before ++ first :: between ++ second :: after ->
    is_request first = true ->
    is_request second = true ->
    In (Slept 1) between.
Proof.
  intros w prompts SCRIPT_DIR args t1 t2 t3 a b E Ha Hb.
  pose proof (main_paced w prompts SCRIPT_DIR args) as H. rewrite E in H.
  exact (paced_split _ _ _ _ _ _ Ha Hb H).
Qed.

(** With two text questions and one answer image each, the run sends two
    requests, the third and the eighth event of its trace, and the pause is
    among the four events in between. *)
Lemma X17_witness :
  let t := trace (main two_questions_world Examples.prompts
                    Examples.SCRIPT_DIR Examples.args) in
  is_request (nth 2 t (Slept 0)) = true /\
  is_request (nth 7 t (Slept 0)) = true /\
  In (Slept 1) (firstn 4 (skipn 3 t)).
Proof.
  intros t. split; [reflexivity|]. split; [reflexivity|].
  apply (X17_pause_between_requests two_questions_world Examples.prompts
           Examples.SCRIPT_DIR Examples.args
           (firstn 2 t) (firstn 4 (skipn 3 t)) (skipn 8 t)
           (nth 2 t (Slept 0)) (nth 7 t (Slept 0))).
  - vm_compute. reflexivity.
  - reflexivity.
  - reflexivity.
Defined.

(* ================================================================== *)
(** ** Further properties: the fields of an entry *)

Section ConsistencyFacts.

Variable w : World.
Variable SCRIPT_DIR : string.
Variable args : Args.

Lemma classified_entry_question (members : list (string * json)) :
  let c := classified_entry w SCRIPT_DIR args members in
  question_type c <> None /\ question_path_or_text c <> None.
Proof.
  unfold classified_entry.
  destruct (is_image_question (item_question members)); cbn;
    split; discriminate.
Qed.

Lemma entry_of_item_consistent (members : list (string * json))
    (e : result_entry) :
  entry_of_item w SCRIPT_DIR args members e -> entry_consistent e.
Proof.
  intros H.
  destruct (classified_entry_fields w SCRIPT_DIR args members)
    as (Hc & _ & He & Hp & Hn & _).
  destruct (classified_entry_question members) as (Hk & Hq).
  assert (Hset : forall msg,
             PyStr.truthy msg = true ->
             entry_consistent
               (set_error_message (classified_entry w SCRIPT_DIR args members)
                  msg)).
  { intros msg Hmsg. unfold entry_consistent. cbn. rewrite Hc, Hp, Hn.
    repeat split; try congruence; try (intros; exfalso; congruence);
      try (intros m [= <-]; exact Hmsg). }
  destruct H as [?|? ?|? ? ? ?|scores err e ? Hne ? ? ? Hrec].
  - unfold entry_consistent. cbn.
    repeat split; try congruence; try (intros; exfalso; congruence);
      try (now intros m [= <-]).
  - unfold entry_consistent. cbn.
    repeat split; try congruence; try (intros; exfalso; congruence);
      try (now intros m [= <-]).
  - now apply Hset.
  - destruct Hrec as [msg ? Hmsg|sc total ? ? ? ?|? ?].
    + now apply Hset.
    + unfold entry_consistent. cbn. rewrite He, Hp, Hn.
      repeat split; try congruence; try (intros; exfalso; congruence).
    + now apply Hset.
Qed.

End ConsistencyFacts.

(** X18. In every entry of the output file that [main] writes, exactly one
    of the category scores and the error message is null, and an error
    message is not empty; the number of answer images is the length of the
    list of answer image paths; the question type and the question path or
    text are null together; and an entry with scores has a question type and
    at least one answer image. *)
Theorem X18_entries_are_consistent :
  forall (w : World) (prompts : Prompts) (SCRIPT_DIR : string) (args : Args)
         (path : string) (results : list result_entry),
    In (WroteJson path results) (trace (main w prompts SCRIPT_DIR args)) ->
    Forall entry_consistent results.
Proof.
  intros w prompts SCRIPT_DIR args path results H.
  apply main_wrote in H as (data & items & t & _ & _ & Hrun).
  eapply process_items_results; [|constructor|exact Hrun].
  intros i item ti e _ Hitem.
  destruct item as [| | | | | |members];
    try (rewrite process_item_not_object in Hitem by discriminate;
         discriminate).
  apply process_item_entry in Hitem as (_ & _ & He).
  eapply entry_of_item_consistent; exact He.
Qed.

(** The run over a record without answer directory, one without identifier,
    one without answer images and one that is scored writes three entries,
    each of them consistent. *)
Lemma X18_witness :
  let run := main Examples.mixed_world Examples.prompts Examples.SCRIPT_DIR
               Examples.args in
  List.length (List.concat (written (trace run))) = 3%nat /\
  Forall entry_consistent (List.concat (written (trace run))).
Proof.
  intros run. split; [vm_compute; reflexivity|].
  apply (X18_entries_are_consistent Examples.mixed_world Examples.prompts
           Examples.SCRIPT_DIR Examples.args "/app/evaluation.json"
           (List.concat (written (trace run)))).
  vm_compute. repeat (first [left; reflexivity | right]).
Defined.
